(** * regclient: manifests, the registry client and the OCI layout store

    A shallow embedding of the Go sources

      - [types/manifest/docker2.go]   Docker schema 2 manifest and manifest list
      - package [regclient]           the registry client's [manifest] and
                                      its requests for manifests
      - package [blob]                the OCI configuration blob
      - [scheme/ocidir/ocidir.go]     the OCI image layout on a directory

    followed by the properties established for them.  Part I holds the
    embedding, Parts II and III the proofs. *)

From Stdlib Require Import ZArith String List.
From stdpp Require Import base decidable option list strings pretty gmap.

Open Scope string_scope.
Open Scope list_scope.

(* ===================================================================== *)
(** * Part I.  The embedding                                              *)
(* ===================================================================== *)

(** ** Go values *)

(** [[]byte] *)
Abbreviation bytes := (list Byte.byte).

#[global] Instance byte_eq_dec : EqDecision Byte.byte := Byte.byte_eq_dec.

(** Go's [error] values, as far as the sources build and inspect them. *)
Module errors.

Inductive error : Type :=
| Sentinel (name : string)
    (** a package-level [var ErrX = errors.New(..)], identified by its
        qualified name (Go compares sentinels by identity) *)
| Errorf (format : string) (args : list string)
    (** [fmt.Errorf(format, args...)] without a [%w] verb *)
| ErrorfW (format : string) (args : list string) (cause : error)
    (** [fmt.Errorf(format, args..., cause)] where [%w] wraps [cause] *)
| Wrap (err : error) (kind : error).
    (** [wraperr.New(err, kind)]: [err] presented as an instance of [kind] *)

#[global] Instance error_eq_dec : EqDecision error.
Proof. solve_decision. Defined.

(** [errors.Is(err, target)]: walk the chain of wrapped errors. *)
Fixpoint Is (err target : error) : bool :=
  bool_decide (err = target) ||
  match err with
  | ErrorfW _ _ cause => Is cause target
  | Wrap e kind => Is e target || Is kind target
  | _ => false
  end.

End errors.

Abbreviation error := errors.error.

(** A Go call either returns or panics at run time. *)
Inductive outcome (A : Type) : Type :=
| Returns (a : A)
| Panics (why : string).
Arguments Returns {A} a.
Arguments Panics {A} why.

(** A [return x] inside a [for _, x := range l] loop: the first element
    that passes the test. *)
Definition firstWhere {A : Type} (test : A → bool) (l : list A) : option A :=
  snd <$> list_find (λ x, Is_true (test x)) l.

(** Go code that reads and writes the world outside the process (the
    filesystem, the network, the log) threads that world through every
    call: a state monad. *)
Definition State (S A : Type) : Type := S → A * S.

#[global] Instance State_ret {S} : MRet (State S) := λ A a s, (a, s).
#[global] Instance State_bind {S} : MBind (State S) :=
  λ A B f m s, let '(a, s') := m s in f a s'.

(** ** The standard library and third-party packages the sources call *)

(** [encoding/json] at one Go type: [json.Marshal(v)], and
    [json.Unmarshal(b, &v)], which returns what [v] holds afterwards. *)
Class JSON (A : Type) : Type := {
  json_Marshal : A → bytes * option error;
  json_Unmarshal : bytes → A → A * option error;
}.

(** [go-digest]: [digest.FromBytes(b)], which is also what the canonical
    digester returns after [b] was written to it. *)
Class Digester : Type := { digest_FromBytes : bytes → string }.

(** [go-digest]: [digest.Parse(s)], the digest that [s] denotes or an
    error when [s] is not of the form [algorithm:hex]. *)
Class DigestParser : Type := { digest_Parse : string → string * option error }.

(** [path.Join(dir, file)] *)
Class PathJoin : Type := { path_Join : string → string → string }.

(** ** Package [types] *)

(** Modelled from the spec: package [types] is not among the sources.  The
    media types are the four of section 1, with their registered names; the
    sentinels are error kinds of section 7; [Descriptor] is the tuple of
    section 3. *)
Module types.

Definition MediaTypeDocker2Manifest : string :=
  "application/vnd.docker.distribution.manifest.v2+json".
Definition MediaTypeDocker2ManifestList : string :=
  "application/vnd.docker.distribution.manifest.list.v2+json".
Definition MediaTypeOCI1Manifest : string :=
  "application/vnd.oci.image.manifest.v1+json".
Definition MediaTypeOCI1ManifestList : string :=
  "application/vnd.oci.image.index.v1+json".

Definition ErrNotFound : error := errors.Sentinel "types.ErrNotFound".
Definition ErrUnavailable : error := errors.Sentinel "types.ErrUnavailable".
Definition ErrUnsupportedMediaType : error :=
  errors.Sentinel "types.ErrUnsupportedMediaType".

(** Modelled from the spec: [types.Descriptor], "mandatory mediaType,
    digest, size; optional platform, annotations, urls", with the fields
    the sources read and write.  [Digest] is a [digest.Digest], a Go string
    type; [Annotations] is a Go map, [None] being the nil map. *)
Record Descriptor : Type := {
  MediaType : string;
  Digest : string;
  Size : Z;
  Annotations : option (gmap string string);
}.

(** [types.Descriptor{}] *)
Definition zero : Descriptor :=
  {| MediaType := ""; Digest := ""; Size := 0; Annotations := None |}.

(** [v, ok := d.Annotations[key]]; reading a nil map finds nothing. *)
Definition annotation (key : string) (d : Descriptor) : option string :=
  match Annotations d with
  | Some a => a !! key
  | None => None
  end.

End types.

(** ** Package [types/ref] *)

Module ref.

(** Modelled from the spec: [ref.Ref] is declared outside the sources; a
    reference has its registry, repository, tag and digest (section 3), and
    the sources also read the string it was parsed from and the path of a
    layout. *)
Record Ref : Type := {
  Reference : string;
  Registry : string;
  Repository : string;
  Tag : string;
  Digest : string;
  Path : string;
}.

Definition setTag (t : string) (r : Ref) : Ref :=
  {| Reference := Reference r; Registry := Registry r;
     Repository := Repository r; Tag := t; Digest := Digest r;
     Path := Path r |}.

End ref.

(** ** Package [types/oci/v1] *)

Module v1.

(** Modelled from the spec: [v1.Index] is declared outside the sources; it
    is the OCI index of section 3, with the fields [indexCreate] sets.
    [Manifests] is a slice, [None] being the nil slice. *)
Record Index : Type := {
  SchemaVersion : Z;
  MediaType : string;
  Manifests : option (list types.Descriptor);
  Annotations : option (gmap string string);
}.

(** [v1.Index{}] *)
Definition zero : Index :=
  {| SchemaVersion := 0; MediaType := ""; Manifests := None;
     Annotations := None |}.

(** The elements a [range] over [Manifests] visits. *)
Definition entries (i : Index) : list types.Descriptor :=
  default [] (Manifests i).

Definition setManifests (ms : list types.Descriptor) (i : Index) : Index :=
  {| SchemaVersion := SchemaVersion i; MediaType := MediaType i;
     Manifests := Some ms; Annotations := Annotations i |}.

(** Modelled from the spec: the content of the [oci-layout] file,
    [{imageLayoutVersion: "1.0.0"}]. *)
Record ImageLayout : Type := { Version : string }.

End v1.

(** ** Package [internal/rwfs] *)

Module rwfs.

(** Modelled from the spec: package [internal/rwfs] is not among the
    sources; the spec describes it as the injectable filesystem that
    "exposes open, create, rename, remove, stat" (sections 2 and 9).
    [FS] is the state of the backend and [File] an open handle;
    [ReadAll] is [io.ReadAll(fh)] and [Write] is [fh.Write(b)].
    [fh.Close()] releases the handle and has no method here: the state
    of the backend is its files and their content, which a [Write] has
    changed already when it returns. *)
Class RWFS (FS File : Type) : Type := {
  Open : string → FS → File + error;
  Create : string → FS → (File + error) * FS;
  ReadAll : File → FS → bytes * option error;
  Write : File → bytes → FS → option error * FS;
}.

(** The calls a function makes on the filesystem and on its open files, in
    order; [CallClose] carries the name the file was opened under. *)
Inductive Call : Type :=
| CallOpen (name : string)
| CallCreate (name : string)
| CallRename (old new : string)
| CallRemove (name : string)
| CallStat (name : string)
| CallRead
| CallWrite (data : bytes)
| CallClose (name : string).

#[global] Instance Call_eq_dec : EqDecision Call.
Proof. solve_decision. Defined.

(** Modelled from the spec: the in-memory backend "for tests", here a
    directory of files on a volume with [space] bytes left.  [Create]
    on an existing name replaces the file by an empty one, the
    "create/replace" the callers in [ocidir] expect; a [Write] that does
    not fit stores what fits and fails. *)
Record Mem : Type := { files : gmap string bytes; space : nat }.

Definition ErrNotExist : error := errors.Sentinel "fs.ErrNotExist".
Definition ENOSPC : error := errors.Sentinel "syscall.ENOSPC".

#[global] Instance Mem_RWFS : RWFS Mem string := {|
  Open name fs :=
    if bool_decide (is_Some (files fs !! name)) then inl name
    else inr ErrNotExist;
  Create name fs :=
    (inl name, {| files := <[name := []]> (files fs); space := space fs |});
  ReadAll fh fs := (default [] (files fs !! fh), None);
  Write fh b fs :=
    let old := default [] (files fs !! fh) in
    if bool_decide (length b ≤ space fs)%nat then
      (None, {| files := <[fh := old ++ b]> (files fs);
                space := space fs - length b |})
    else
      (Some ENOSPC, {| files := <[fh := old ++ take (space fs) b]> (files fs);
                       space := 0 |});
|}.

End rwfs.

(** ** Package [scheme] *)

Module scheme.

(** Modelled from the spec: [scheme.Info] is declared outside the sources;
    of its fields [ocidir] sets the one below. *)
Record Info : Type := { ManifestPushFirst : bool }.

End scheme.

(** ** Package [scheme/ocidir] *)

Module ocidir.

Definition imageLayoutFile : string := "oci-layout".
Definition aRefName : string := "org.opencontainers.image.ref.name".

(** [indexCreate] *)
Definition indexCreate : v1.Index :=
  {| v1.SchemaVersion := 2;
     v1.MediaType := types.MediaTypeOCI1ManifestList;
     v1.Manifests := Some [];
     v1.Annotations := Some ∅ |}.

(** [indexGet] *)
Definition indexGet (index : v1.Index) (r : ref.Ref)
    : types.Descriptor * option error :=
  let r := if bool_decide (ref.Digest r = "") && bool_decide (ref.Tag r = "")
           then ref.setTag "latest" r else r in
  let notFound := (types.zero, Some types.ErrNotFound) in
  if bool_decide (ref.Digest r ≠ "") then
    match firstWhere (λ im, bool_decide (types.Digest im = ref.Digest r))
                     (v1.entries index) with
    | Some im => (im, None)
    | None => notFound
    end
  else if bool_decide (ref.Tag r ≠ "") then
    match firstWhere
            (λ im, match types.annotation aRefName im with
                   | Some name => bool_decide (name = ref.Tag r)
                   | None => false
                   end)
            (v1.entries index) with
    | Some im => (im, None)
    | None => notFound
    end
  else notFound.

(** The first lines of [indexSet]: with a tag, [d.Annotations[aRefName]]
    is set to it, on a fresh map when [d] had none.  The function returns
    the descriptor as it reads after the write, which is how [indexSet]
    goes on to use [d]. *)
Definition annotate (r : ref.Ref) (d : types.Descriptor) : types.Descriptor :=
  if bool_decide (ref.Tag r ≠ "") then
    {| types.MediaType := types.MediaType d;
       types.Digest := types.Digest d;
       types.Size := types.Size d;
       types.Annotations :=
         Some (<[aRefName := ref.Tag r]> (default ∅ (types.Annotations d))) |}
  else d.

(** A Go map is a reference.  [d] comes to [indexSet] by value, but its
    [Annotations] field still points to the map object of the caller's
    descriptor, and so does every entry of the index that is a copy of that
    descriptor or that it is a copy of: what [indexGet] returns is such a
    copy of an entry.  The store is kept apart from the values here:
    [shared] holds the positions of the entries of [index.Manifests] whose
    [Annotations] is the map object of [d].  An entry is one of them only
    when [d] has a map and the entry reads the same map. *)
Definition sharesMap (shared : gset nat) (d : types.Descriptor) (i : nat)
    (im : types.Descriptor) : bool :=
  bool_decide (i ∈ shared)
  && bool_decide (is_Some (types.Annotations d))
  && bool_decide (types.Annotations im = types.Annotations d).

(** The entries of the index after the first lines of [indexSet]: the
    write [d.Annotations[aRefName] = r.Tag] goes into the map object, so
    every entry that holds this object reads the tag from then on. *)
Definition written (shared : gset nat) (r : ref.Ref) (d : types.Descriptor)
    (ms : list types.Descriptor) : list types.Descriptor :=
  if bool_decide (ref.Tag r ≠ "") then
    imap (λ i im, if sharesMap shared d i im then annotate r im else im) ms
  else ms.

(** The test both loops of [indexSet] apply to [index.Manifests[i]]:
    [name, ok] are read only when the reference has a tag and the entry
    has annotations, and stay [""], [false] otherwise. *)
Definition sameEntry (r : ref.Ref) (d im : types.Descriptor) : bool :=
  let lookup :=
    if bool_decide (ref.Tag r ≠ "") then types.annotation aRefName im
    else None in
  let ok := bool_decide (is_Some lookup) in
  let name := default "" lookup in
  (bool_decide (types.Digest im = types.Digest d) && negb ok)
  || (ok && bool_decide (name = ref.Tag r)).

(** The first loop: the position of the first entry that passes the test,
    [-1] in the source when there is none. *)
Definition findExisting (r : ref.Ref) (d : types.Descriptor)
    (ms : list types.Descriptor) : option nat :=
  fst <$> list_find (λ im, Is_true (sameEntry r d im)) ms.

Definition indexOutOfRange : string := "index out of range".

(** The second loop, [for i := len(ms) - 1; i > pos; i--], each round
    cutting entry [i] out when it passes the test; reading
    [index.Manifests[i]] beyond the length would panic. *)
Fixpoint removeDups (r : ref.Ref) (d : types.Descriptor) (pos i : nat)
    (ms : list types.Descriptor) : outcome (list types.Descriptor) :=
  if bool_decide (pos < i)%nat then
    match ms !! i with
    | None => Panics indexOutOfRange
    | Some im =>
        let ms' := if sameEntry r d im then delete i ms else ms in
        match i with
        | O => Returns ms'
        | S i' => removeDups r d pos i' ms'
        end
    end
  else Returns ms.

(** [indexSet]; the index comes by pointer, [None] being nil, and the
    function returns the index the pointer holds afterwards.  [shared]
    tells which entries hold the map object of [d]. *)
Definition indexSet (index : option v1.Index) (r : ref.Ref)
    (d : types.Descriptor) (shared : gset nat)
    : outcome (option v1.Index * option error) :=
  match index with
  | None => Returns (None, Some (errors.Errorf "index is nil" []))
  | Some index =>
      let ms := written shared r d (v1.entries index) in
      let d := annotate r d in
      match findExisting r d ms with
      | Some pos =>
          let ms := <[pos := d]> ms in
          match removeDups r d pos (length ms - 1) ms with
          | Returns ms => Returns (Some (v1.setManifests ms index), None)
          | Panics why => Panics why
          end
      | None =>
          Returns (Some (v1.setManifests (ms ++ [d]) index), None)
      end
  end.

(** *** The layout on disk *)

Section disk.
Context {FS File : Type}.
Context `{!rwfs.RWFS FS File, !PathJoin,
          !JSON v1.ImageLayout, !JSON v1.Index}.

(** The filesystem [o.fs] and the calls made on it so far. *)
Definition World : Type := FS * list rwfs.Call.

Definition fsOpen (name : string) : State World (File + error) :=
  λ '(fs, log), (rwfs.Open name fs, (fs, log ++ [rwfs.CallOpen name])).

Definition fsCreate (name : string) : State World (File + error) :=
  λ '(fs, log),
    let '(fh, fs') := rwfs.Create name fs in
    (fh, (fs', log ++ [rwfs.CallCreate name])).

Definition ioReadAll (fh : File) : State World (bytes * option error) :=
  λ '(fs, log), (rwfs.ReadAll fh fs, (fs, log ++ [rwfs.CallRead])).

Definition fhWrite (fh : File) (b : bytes) : State World (option error) :=
  λ '(fs, log),
    let '(err, fs') := rwfs.Write fh b fs in
    (err, (fs', log ++ [rwfs.CallWrite b])).

(** [fh.Close()] on the file opened under [name]; the error it returns is
    dropped by the [defer] statements that call it. *)
Definition fhClose (fh : File) (name : string) : State World unit :=
  λ '(fs, log), (tt, (fs, log ++ [rwfs.CallClose name])).

(** [valid]; the [fh.Close()] deferred once the file is open runs when the
    function returns, after the result is computed. *)
Definition valid (dir : string) : State World (option error) :=
  let layout := {| v1.Version := "" |} in
  let reqVer := "1.0.0" in
  fh ← fsOpen (path_Join dir imageLayoutFile);
  match fh with
  | inr err =>
      mret (Some (errors.ErrorfW "%s cannot be open: %w"
                    [imageLayoutFile] err))
  | inl fh =>
      '(lb, err) ← ioReadAll fh;
      let result :=
        match err with
        | Some err =>
            Some (errors.ErrorfW "%s cannot be read: %w"
                    [imageLayoutFile] err)
        | None =>
            let '(layout, err) := json_Unmarshal lb layout in
            match err with
            | Some err =>
                Some (errors.ErrorfW "%s cannot be parsed: %w"
                        [imageLayoutFile] err)
            | None =>
                if bool_decide (v1.Version layout ≠ reqVer) then
                  Some (errors.Errorf
                    "unsupported oci layout version, expected %s, received %s"
                    [reqVer; v1.Version layout])
                else None
            end
        end in
      _ ← fhClose fh (path_Join dir imageLayoutFile);
      mret result
  end.

(** [readIndex] *)
Definition readIndex (r : ref.Ref) : State World (v1.Index * option error) :=
  let index := v1.zero in
  err ← valid (ref.Path r);
  match err with
  | Some err => mret (index, Some err)
  | None =>
      let indexFile := path_Join (ref.Path r) "index.json" in
      fh ← fsOpen indexFile;
      match fh with
      | inr err =>
          mret (index, Some (errors.ErrorfW "%s cannot be open: %w"
                               [indexFile] err))
      | inl fh =>
          '(ib, err) ← ioReadAll fh;
          let result :=
            match err with
            | Some err =>
                (index, Some (errors.ErrorfW "%s cannot be read: %w"
                                [indexFile] err))
            | None =>
                let '(index, err) := json_Unmarshal ib index in
                match err with
                | Some err =>
                    (index,
                     Some (errors.ErrorfW "%s cannot be parsed: %w"
                             [indexFile] err))
                | None => (index, None)
                end
            end in
          _ ← fhClose fh indexFile;
          mret result
      end
  end.

(** [writeIndex]; the two deferred calls run when the function returns,
    the later one first: [fh.Close()], when [index.json] was created, then
    [lfh.Close()]. *)
Definition writeIndex (r : ref.Ref) (i : v1.Index) : State World (option error) :=
  let layout := {| v1.Version := "1.0.0" |} in
  let '(lb, err) := json_Marshal layout in
  match err with
  | Some err => mret (Some (errors.ErrorfW "cannot marshal layout: %w" [] err))
  | None =>
      let layoutFile := path_Join (ref.Path r) imageLayoutFile in
      lfh ← fsCreate layoutFile;
      match lfh with
      | inr err =>
          mret (Some (errors.ErrorfW "cannot create %s: %w"
                        [imageLayoutFile] err))
      | inl lfh =>
          result ←
            (err ← fhWrite lfh lb;
             match err with
             | Some err =>
                 mret (Some (errors.ErrorfW "cannot write %s: %w"
                               [imageLayoutFile] err))
             | None =>
                 let indexFile := path_Join (ref.Path r) "index.json" in
                 fh ← fsCreate indexFile;
                 match fh with
                 | inr err =>
                     mret (Some (errors.ErrorfW "%s cannot be created: %w"
                                   [indexFile] err))
                 | inl fh =>
                     result ←
                       (let '(b, err) := json_Marshal i in
                        match err with
                        | Some err =>
                            mret (Some (errors.ErrorfW
                                          "cannot marshal index: %w" [] err))
                        | None =>
                            err ← fhWrite fh b;
                            match err with
                            | Some err =>
                                mret (Some (errors.ErrorfW
                                              "cannot write index: %w" [] err))
                            | None => mret None
                            end
                        end);
                     _ ← fhClose fh indexFile;
                     mret result
                 end
             end);
          _ ← fhClose lfh layoutFile;
          mret result
      end
  end.

End disk.

(** *** The layout object *)

(** [config]; its fields carry a prefix, as they would clash with those of
    [OCIDir].  [c_fs] is an interface value, [None] being nil; the logger
    is a [*logrus.Logger], a type of its own here. *)
Record config (FS Logger : Type) : Type := {
  c_fs : option FS;
  c_gc : bool;
  c_log : Logger;
}.
Arguments c_fs {FS Logger} c.
Arguments c_gc {FS Logger} c.
Arguments c_log {FS Logger} c.

(** [OCIDir]; the mutex [mu] guards [modRefs] and has no state of its own
    in a sequential run. *)
Record OCIDir (FS Logger : Type) : Type := {
  fs : option FS;
  log : Logger;
  gc : bool;
  modRefs : gmap string ref.Ref;
}.
Arguments fs {FS Logger} o.
Arguments log {FS Logger} o.
Arguments gc {FS Logger} o.
Arguments modRefs {FS Logger} o.

(** [Opts], a function that updates the configuration it is given. *)
Definition Opts (FS Logger : Type) : Type := config FS Logger → config FS Logger.

Section object.
Context {FS Logger : Type}.

(** [New]; [discard] is [&logrus.Logger{Out: ioutil.Discard}]. *)
Definition New (discard : Logger) (opts : list (Opts FS Logger))
    : OCIDir FS Logger :=
  let conf := {| c_fs := None; c_gc := true; c_log := discard |} in
  let conf := foldl (λ conf opt, opt conf) conf opts in
  {| fs := c_fs conf; log := c_log conf; gc := c_gc conf; modRefs := ∅ |}.

(** [WithFS] *)
Definition WithFS (f : option FS) : Opts FS Logger :=
  λ c, {| c_fs := f; c_gc := c_gc c; c_log := c_log c |}.

(** [WithGC] *)
Definition WithGC (b : bool) : Opts FS Logger :=
  λ c, {| c_fs := c_fs c; c_gc := b; c_log := c_log c |}.

(** [WithLog] *)
Definition WithLog (l : Logger) : Opts FS Logger :=
  λ c, {| c_fs := c_fs c; c_gc := c_gc c; c_log := l |}.

(** [Info] *)
Definition Info (o : OCIDir FS Logger) : scheme.Info :=
  {| scheme.ManifestPushFirst := true |}.

(** [refMod]: [o.modRefs[r.Path] = r] *)
Definition refMod (o : OCIDir FS Logger) (r : ref.Ref) : OCIDir FS Logger :=
  {| fs := fs o; log := log o; gc := gc o;
     modRefs := <[ref.Path r := r]> (modRefs o) |}.

End object.

End ocidir.

(** ** Package [types/docker/schema2] *)

Module schema2.

(** [schema2.Manifest]; [SchemaVersion] and [MediaType] come from the
    embedded [docker.Versioned]. *)
Record Manifest : Type := {
  SchemaVersion : Z;
  MediaType : string;
  Config : types.Descriptor;
  Layers : list types.Descriptor;
}.

Definition setMediaType (mt : string) (m : Manifest) : Manifest :=
  {| SchemaVersion := SchemaVersion m; MediaType := mt;
     Config := Config m; Layers := Layers m |}.

(** Modelled from the spec: [schema2.ManifestList] is declared outside the
    sources; a manifest list holds its versioned header and its manifests
    (section 3).  Its fields carry a prefix where they would clash with
    those of [Manifest]. *)
Record ManifestList : Type := {
  ListSchemaVersion : Z;
  ListMediaType : string;
  Manifests : list types.Descriptor;
}.

Definition setListMediaType (mt : string) (m : ManifestList) : ManifestList :=
  {| ListSchemaVersion := ListSchemaVersion m; ListMediaType := mt;
     Manifests := Manifests m |}.

End schema2.

(** ** Package [types/platform] *)

Module platform.

(** Modelled from the spec: [platform.Platform] is declared outside the
    sources; a platform has architecture, OS and variant (section 4.4). *)
Record Platform : Type := {
  Architecture : string;
  OS : string;
  OSVersion : string;
  OSFeatures : list string;
  Variant : string;
}.

End platform.

(** ** Package [types/manifest]: [docker2.go] *)

Module manifest.

(** Modelled from the spec: the embedded [common] is declared outside
    [docker2.go]; a manifest carries the reference, its descriptor (media
    type, digest, size), the flag that its body is populated, and the raw
    bytes (section 3).  The fields are those [docker2.go] uses. *)
Record common : Type := {
  r : ref.Ref;
  desc : types.Descriptor;
  manifSet : bool;
  rawBody : bytes;
}.

Record docker2Manifest : Type := {
  base : common;
  Manifest : schema2.Manifest;
}.

Record docker2ManifestList : Type := {
  listBase : common;
  ManifestList : schema2.ManifestList;
}.

(** What an [interface{}] argument of [SetOrig] may hold. *)
Inductive any : Type :=
| AnyManifest (v : schema2.Manifest)
| AnyManifestList (v : schema2.ManifestList)
| AnyOther (typeName : string).

(** The error of an accessor that the receiver's variant does not have:
    [wraperr.New(fmt.Errorf(format, m.desc.MediaType),
    types.ErrUnsupportedMediaType)]. *)
Definition notAvailable (format : string) (c : common) : error :=
  errors.Wrap (errors.Errorf format [types.MediaType (desc c)])
              types.ErrUnsupportedMediaType.

Definition unavailable : error :=
  errors.Wrap
    (errors.Errorf "manifest unavailable, perform a ManifestGet first" [])
    types.ErrUnavailable.

Module Image.
Section methods.
Context `{!JSON schema2.Manifest, !Digester}.

Definition GetConfig (m : docker2Manifest)
    : types.Descriptor * option error :=
  (schema2.Config (Manifest m), None).

Definition GetConfigDigest (m : docker2Manifest) : string * option error :=
  (types.Digest (schema2.Config (Manifest m)), None).

Definition GetManifestList (m : docker2Manifest)
    : list types.Descriptor * option error :=
  ([], Some (notAvailable
               "platform descriptor list not available for media type %s"
               (base m))).

Definition GetLayers (m : docker2Manifest)
    : list types.Descriptor * option error :=
  (schema2.Layers (Manifest m), None).

Definition GetOrig (m : docker2Manifest) : any :=
  AnyManifest (Manifest m).

Definition GetPlatformDesc (m : docker2Manifest)
    (p : option platform.Platform)
    : option types.Descriptor * option error :=
  (None, Some (notAvailable
                 "platform lookup not available for media type %s"
                 (base m))).

Definition MarshalJSON (m : docker2Manifest) : bytes * option error :=
  if negb (manifSet (base m)) then ([], Some unavailable)
  else if bool_decide (0 < length (rawBody (base m)))%nat then
    (rawBody (base m), None)
  else json_Marshal (Manifest m).

(** [SetOrig]; the receiver is a pointer, the function returns what
    it holds afterwards. *)
Definition SetOrig (m : docker2Manifest) (origIn : any)
    : docker2Manifest * option error :=
  match origIn with
  | AnyManifest orig =>
      let orig :=
        if bool_decide (schema2.MediaType orig
                        ≠ types.MediaTypeDocker2Manifest)
        then schema2.setMediaType types.MediaTypeDocker2Manifest orig
        else orig in
      let '(mj, err) := json_Marshal orig in
      match err with
      | Some err => (m, Some err)
      | None =>
          ({| base :=
                {| r := r (base m);
                   desc :=
                     {| types.MediaType := types.MediaTypeDocker2Manifest;
                        types.Digest := digest_FromBytes mj;
                        types.Size := Z.of_nat (length mj);
                        types.Annotations := None |};
                   manifSet := true;
                   rawBody := mj |};
              Manifest := orig |}, None)
      end
  | _ => (m, Some types.ErrUnsupportedMediaType)
  end.

End methods.
End Image.

Module List.
Section methods.
Context `{!JSON schema2.ManifestList, !Digester}.

Definition GetConfig (m : docker2ManifestList)
    : types.Descriptor * option error :=
  (types.zero,
   Some (notAvailable "config digest not available for media type %s"
                      (listBase m))).

Definition GetConfigDigest (m : docker2ManifestList)
    : string * option error :=
  ("", Some (notAvailable "config digest not available for media type %s"
                          (listBase m))).

Definition GetManifestList (m : docker2ManifestList)
    : list types.Descriptor * option error :=
  (schema2.Manifests (ManifestList m), None).

Definition GetLayers (m : docker2ManifestList)
    : list types.Descriptor * option error :=
  ([], Some (notAvailable "layers are not available for media type %s"
                          (listBase m))).

Definition GetOrig (m : docker2ManifestList) : any :=
  AnyManifestList (ManifestList m).

Definition MarshalJSON (m : docker2ManifestList) : bytes * option error :=
  if negb (manifSet (listBase m)) then ([], Some unavailable)
  else if bool_decide (0 < length (rawBody (listBase m)))%nat then
    (rawBody (listBase m), None)
  else json_Marshal (ManifestList m).

Definition SetOrig (m : docker2ManifestList) (origIn : any)
    : docker2ManifestList * option error :=
  match origIn with
  | AnyManifestList orig =>
      let orig :=
        if bool_decide (schema2.ListMediaType orig
                        ≠ types.MediaTypeDocker2ManifestList)
        then schema2.setListMediaType
               types.MediaTypeDocker2ManifestList orig
        else orig in
      let '(mj, err) := json_Marshal orig in
      match err with
      | Some err => (m, Some err)
      | None =>
          ({| listBase :=
                {| r := r (listBase m);
                   desc :=
                     {| types.MediaType :=
                          types.MediaTypeDocker2ManifestList;
                        types.Digest := digest_FromBytes mj;
                        types.Size := Z.of_nat (length mj);
                        types.Annotations := None |};
                   manifSet := true;
                   rawBody := mj |};
              ManifestList := orig |}, None)
      end
  | _ => (m, Some types.ErrUnsupportedMediaType)
  end.

End methods.
End List.

End manifest.

(** ** Package [types/blob]: the OCI configuration blob *)

Module blob.

(** Modelled from the spec: the embedded [common] of a blob is declared
    outside the sources; of its fields [RawBody] reads the flag that the
    blob is set. *)
Record common : Type := { blobSet : bool }.

(** [ociConfig]; [Image] is the embedded [ociv1.Image], a type of the image
    specification that stays abstract here. *)
Record ociConfig (ociv1_Image : Type) : Type := {
  base : common;
  rawBody : bytes;
  Image : ociv1_Image;
}.
Arguments base {ociv1_Image} o.
Arguments rawBody {ociv1_Image} o.
Arguments Image {ociv1_Image} o.

Section ociConfig.
Context {ociv1_Image : Type} `{!JSON ociv1_Image}.

(** [NewOCIConfig] *)
Definition NewOCIConfig (ociImage : ociv1_Image) : ociConfig ociv1_Image :=
  {| base := {| blobSet := true |}; rawBody := []; Image := ociImage |}.

(** [GetConfig] *)
Definition GetConfig (b : ociConfig ociv1_Image) : ociv1_Image := Image b.

(** [RawBody]; the receiver is a pointer, the function returns what it
    holds afterwards beside the results. *)
Definition RawBody (b : ociConfig ociv1_Image)
    : ociConfig ociv1_Image * (bytes * option error) :=
  if negb (blobSet (base b)) then
    (b, ([], Some (errors.Errorf "Blob is not defined" [])))
  else if bool_decide (length (rawBody b) = 0)%nat then
    let '(mj, err) := json_Marshal (Image b) in
    ({| base := base b; rawBody := mj; Image := Image b |}, (mj, err))
  else (b, (rawBody b, None)).

End ociConfig.

End blob.

(** ** Third-party types of package [regclient] *)

(** [github.com/opencontainers/image-spec/specs-go/v1] *)
Module ociv1.

Definition MediaTypeImageManifest : string :=
  "application/vnd.oci.image.manifest.v1+json".

Record Platform : Type := {
  Architecture : string;
  OS : string;
  OSVersion : string;
  OSFeatures : list string;
  Variant : string;
}.

(** [Platform'] is the field [Platform *Platform], [None] being nil. *)
Record Descriptor : Type := {
  MediaType : string;
  Digest : string;
  Size : Z;
  URLs : list string;
  Annotations : option (gmap string string);
  Platform' : option Platform;
}.

Record Manifest : Type := {
  Config : Descriptor;
  Layers : list Descriptor;
}.

Record Index : Type := { Manifests : list Descriptor }.

End ociv1.

(** [github.com/docker/distribution] *)
Module dockerDistribution.

Record Descriptor : Type := {
  MediaType : string;
  Size : Z;
  Digest : string;
  URLs : list string;
  Annotations : option (gmap string string);
  Platform : option ociv1.Platform;
}.

End dockerDistribution.

(** [github.com/docker/distribution/manifest/manifestlist] *)
Module dockerManifestList.

Record PlatformSpec : Type := {
  Architecture : string;
  OS : string;
  OSVersion : string;
  OSFeatures : list string;
  Variant : string;
  Features : list string;
}.

(** [Descriptor] is the embedded [distribution.Descriptor]; the selector
    [sd.Platform] names the field declared here, as it is the shallower
    one. *)
Record ManifestDescriptor : Type := {
  Descriptor : dockerDistribution.Descriptor;
  Platform : PlatformSpec;
}.

Record ManifestList : Type := { Manifests : list ManifestDescriptor }.

End dockerManifestList.

(** [github.com/docker/distribution/manifest/schema2] *)
Module dockerSchema2.

Record Manifest : Type := {
  Config : dockerDistribution.Descriptor;
  Layers : list dockerDistribution.Descriptor;
}.

End dockerSchema2.

(** [github.com/containerd/containerd/platforms]:
    [platforms.NewMatcher(p).Match(q)] *)
Class PlatformMatcher : Type := {
  platforms_Match : ociv1.Platform → ociv1.Platform → bool;
}.

(** [net/url] *)
Module url.
Record URL : Type := { Scheme : string; Host : string; Path : string }.
End url.

(** ** Package [pkg/retryable], as [regclient] uses it *)

(** Modelled from the spec: of package [retryable] the sources hold the
    errors only; a request is made of method, URL and options, and a
    response exposes "status, headers, and a streaming reader"
    (section 4.2). *)
Module retryable.

Inductive OptsReq : Type :=
| WithHeader (key : string) (values : list string)
| WithBodyBytes (body : bytes)
| WithContentLen (l : Z).

(** A response: [resp.HTTPResponse().StatusCode],
    [resp.HTTPResponse().Header.Get(key)], and what [ioutil.ReadAll(resp)]
    returns, the bytes delivered and the error that ended the read. *)
Record Response : Type := {
  StatusCode : Z;
  Header : string → string;
  Body : bytes;
  ReadErr : option error;
}.

End retryable.

(** ** Package [regclient]: manifests *)

Module regclient.

(** Modelled from the spec: the media types and sentinels of package
    [regclient] are declared outside the sources. *)
Definition MediaTypeDocker2Manifest := types.MediaTypeDocker2Manifest.
Definition MediaTypeDocker2ManifestList := types.MediaTypeDocker2ManifestList.
Definition MediaTypeOCI1Manifest := types.MediaTypeOCI1Manifest.
Definition MediaTypeOCI1ManifestList := types.MediaTypeOCI1ManifestList.

Definition ErrMissingDigest : error :=
  errors.Sentinel "regclient.ErrMissingDigest".
Definition ErrMissingTagOrDigest : error :=
  errors.Sentinel "regclient.ErrMissingTagOrDigest".
Definition ErrNotFound : error := errors.Sentinel "regclient.ErrNotFound".
Definition ErrUnavailable : error :=
  errors.Sentinel "regclient.ErrUnavailable".
Definition ErrUnsupportedMediaType : error :=
  errors.Sentinel "regclient.ErrUnsupportedMediaType".

Record manifest : Type := {
  digest : string;
  dockerM : dockerSchema2.Manifest;
  dockerML : dockerManifestList.ManifestList;
  manifSet : bool;
  mt : string;
  ociM : ociv1.Manifest;
  ociML : ociv1.Index;
  origByte : bytes;
}.

Definition zeroDistDescriptor : dockerDistribution.Descriptor :=
  {| dockerDistribution.MediaType := ""; dockerDistribution.Size := 0;
     dockerDistribution.Digest := ""; dockerDistribution.URLs := [];
     dockerDistribution.Annotations := None;
     dockerDistribution.Platform := None |}.

Definition zeroDescriptor : ociv1.Descriptor :=
  {| ociv1.MediaType := ""; ociv1.Digest := ""; ociv1.Size := 0;
     ociv1.URLs := []; ociv1.Annotations := None; ociv1.Platform' := None |}.

(** [manifest{}] *)
Definition zero : manifest :=
  {| digest := "";
     dockerM := {| dockerSchema2.Config := zeroDistDescriptor;
                   dockerSchema2.Layers := [] |};
     dockerML := {| dockerManifestList.Manifests := [] |};
     manifSet := false;
     mt := "";
     ociM := {| ociv1.Config := zeroDescriptor; ociv1.Layers := [] |};
     ociML := {| ociv1.Manifests := [] |};
     origByte := [] |}.

Definition d2oDescriptor (sd : dockerDistribution.Descriptor)
    : ociv1.Descriptor :=
  {| ociv1.MediaType := dockerDistribution.MediaType sd;
     ociv1.Digest := dockerDistribution.Digest sd;
     ociv1.Size := dockerDistribution.Size sd;
     ociv1.URLs := dockerDistribution.URLs sd;
     ociv1.Annotations := dockerDistribution.Annotations sd;
     ociv1.Platform' := dockerDistribution.Platform sd |}.

Definition dlp2Platform (sp : dockerManifestList.PlatformSpec)
    : ociv1.Platform :=
  {| ociv1.Architecture := dockerManifestList.Architecture sp;
     ociv1.OS := dockerManifestList.OS sp;
     ociv1.Variant := dockerManifestList.Variant sp;
     ociv1.OSVersion := dockerManifestList.OSVersion sp;
     ociv1.OSFeatures := dockerManifestList.OSFeatures sp |}.

Definition dl2oDescriptor (sd : dockerManifestList.ManifestDescriptor)
    : ociv1.Descriptor :=
  let e := dockerManifestList.Descriptor sd in
  {| ociv1.MediaType := dockerDistribution.MediaType e;
     ociv1.Digest := dockerDistribution.Digest e;
     ociv1.Size := dockerDistribution.Size e;
     ociv1.URLs := dockerDistribution.URLs e;
     ociv1.Annotations := dockerDistribution.Annotations e;
     ociv1.Platform' := Some (dlp2Platform (dockerManifestList.Platform sd)) |}.

Definition d2oDescriptorList (src : list dockerDistribution.Descriptor)
    : list ociv1.Descriptor :=
  d2oDescriptor <$> src.

Definition nilDereference : string :=
  "invalid memory address or nil pointer dereference".

Section methods.
Context `{!PlatformMatcher}.
Context `{!JSON dockerSchema2.Manifest, !JSON dockerManifestList.ManifestList,
          !JSON ociv1.Manifest, !JSON ociv1.Index}.

Definition GetConfigDigest (m : manifest) : string * option error :=
  if bool_decide (mt m = MediaTypeDocker2Manifest) then
    (dockerDistribution.Digest (dockerSchema2.Config (dockerM m)), None)
  else if bool_decide (mt m = ociv1.MediaTypeImageManifest) then
    (ociv1.Digest (ociv1.Config (ociM m)), None)
  else ("", Some ErrUnsupportedMediaType).

Definition GetDigest (m : manifest) : string := digest m.

Definition GetLayers (m : manifest) : list ociv1.Descriptor * option error :=
  if bool_decide (mt m = MediaTypeDocker2Manifest) then
    (d2oDescriptorList (dockerSchema2.Layers (dockerM m)), None)
  else if bool_decide (mt m = ociv1.MediaTypeImageManifest) then
    (ociv1.Layers (ociM m), None)
  else ([], Some ErrUnsupportedMediaType).

Definition GetMediaType (m : manifest) : string := mt m.

(** The loop of [GetPlatformDesc] over an OCI index: [*d.Platform]
    dereferences the entry's platform pointer before the match. *)
Fixpoint rangeOCI (p : ociv1.Platform) (ms : list ociv1.Descriptor)
    : outcome (option ociv1.Descriptor * option error) :=
  match ms with
  | [] => Returns (None, Some ErrNotFound)
  | d :: rest =>
      match ociv1.Platform' d with
      | None => Panics nilDereference
      | Some q =>
          if platforms_Match p q then Returns (Some d, None)
          else rangeOCI p rest
      end
  end.

(** [GetPlatformDesc]; [p] is a pointer, [None] being nil. *)
Definition GetPlatformDesc (m : manifest) (p : option ociv1.Platform)
    : outcome (option ociv1.Descriptor * option error) :=
  match p with
  | None => Panics nilDereference
  | Some p =>
      if bool_decide (mt m = MediaTypeDocker2ManifestList) then
        match firstWhere
                (λ d, platforms_Match p
                        (dlp2Platform (dockerManifestList.Platform d)))
                (dockerManifestList.Manifests (dockerML m)) with
        | Some d => Returns (Some (dl2oDescriptor d), None)
        | None => Returns (None, Some ErrNotFound)
        end
      else if bool_decide (mt m = MediaTypeOCI1ManifestList) then
        rangeOCI p (ociv1.Manifests (ociML m))
      else Returns (None, Some ErrUnsupportedMediaType)
  end.

Definition IsList (m : manifest) : bool :=
  if bool_decide (mt m = MediaTypeDocker2ManifestList) then true
  else if bool_decide (mt m = MediaTypeOCI1ManifestList) then true
  else false.

Definition MarshalJSON (m : manifest) : bytes * option error :=
  if negb (manifSet m) then ([], Some ErrUnavailable)
  else if bool_decide (0 < length (origByte m))%nat then (origByte m, None)
  else if bool_decide (mt m = MediaTypeDocker2Manifest) then
    json_Marshal (dockerM m)
  else if bool_decide (mt m = MediaTypeDocker2ManifestList) then
    json_Marshal (dockerML m)
  else if bool_decide (mt m = MediaTypeOCI1Manifest) then
    json_Marshal (ociM m)
  else if bool_decide (mt m = MediaTypeOCI1ManifestList) then
    json_Marshal (ociML m)
  else ([], Some ErrUnsupportedMediaType).

(** [GetPlatformList]; an element is a [*ociv1.Platform], [None] being
    nil, and the nil slice is the empty list. *)
Definition GetPlatformList (m : manifest)
    : list (option ociv1.Platform) * option error :=
  if negb (manifSet m) then ([], Some ErrUnavailable)
  else if bool_decide (mt m = MediaTypeDocker2ManifestList) then
    ((λ d, Some (dlp2Platform (dockerManifestList.Platform d)))
       <$> dockerManifestList.Manifests (dockerML m), None)
  else if bool_decide (mt m = MediaTypeOCI1ManifestList) then
    (ociv1.Platform' <$> ociv1.Manifests (ociML m), None)
  else ([], Some ErrUnsupportedMediaType).

(** What the [interface{}] that [GetOrigManifest] returns may hold. *)
Inductive orig : Type :=
| OrigNil
| OrigDockerM (v : dockerSchema2.Manifest)
| OrigDockerML (v : dockerManifestList.ManifestList)
| OrigOciM (v : ociv1.Manifest)
| OrigOciML (v : ociv1.Index).

(** [GetOrigManifest] *)
Definition GetOrigManifest (m : manifest) : orig :=
  if negb (manifSet m) then OrigNil
  else if bool_decide (mt m = MediaTypeDocker2Manifest) then
    OrigDockerM (dockerM m)
  else if bool_decide (mt m = MediaTypeDocker2ManifestList) then
    OrigDockerML (dockerML m)
  else if bool_decide (mt m = MediaTypeOCI1Manifest) then OrigOciM (ociM m)
  else if bool_decide (mt m = MediaTypeOCI1ManifestList) then
    OrigOciML (ociML m)
  else OrigNil.

End methods.

(** *** Requests *)

(** Modelled from the spec: [ConfigHost] is declared outside the sources;
    a host has a scheme and its DNS names, "a priority-ordered mirror list"
    (section 4.2).  The fields are those the requests are built from. *)
Record ConfigHost : Type := { Scheme : string; DNS : list string }.

(** Modelled from the spec: the registry client [rc], of which the sources
    hold the methods below only: its host table [rc.getHost], and the
    network behind [rc.getRetryable(host).DoRequest(ctx, method, url,
    opts...)], which "turns a logical request into one successful HTTP
    exchange" or fails (section 4.2). *)
Class Client : Type := {
  getHost : string → ConfigHost;
  DoRequest : ConfigHost → string → url.URL → list retryable.OptsReq
              → retryable.Response + error;
}.

(** A field of a [logrus] entry. *)
Inductive Field : Type :=
| FStr (key value : string)
| FInt (key : string) (value : Z)
| FBytes (key : string) (value : bytes)
| FErr (key : string) (value : error).

(** What a call does to the world: requests sent, warnings logged. *)
Inductive Event : Type :=
| Sent (method : string) (u : url.URL) (opts : list retryable.OptsReq)
| Warned (msg : string) (fields : list Field).

Definition indexOutOfRange : string := "index out of range [0] with length 0".

(** The [%v] rendering of a response object, which is left opaque. *)
Definition showResponse (resp : retryable.Response) : string := "&{...}".

Definition setBody (b : bytes) (dg : string) (m : manifest) : manifest :=
  {| digest := dg; dockerM := dockerM m; dockerML := dockerML m;
     manifSet := manifSet m; mt := mt m; ociM := ociM m; ociML := ociML m;
     origByte := b |}.

Definition setMt (t : string) (m : manifest) : manifest :=
  {| digest := digest m; dockerM := dockerM m; dockerML := dockerML m;
     manifSet := manifSet m; mt := t; ociM := ociM m; ociML := ociML m;
     origByte := origByte m |}.

Definition setManifSet (b : bool) (m : manifest) : manifest :=
  {| digest := digest m; dockerM := dockerM m; dockerML := dockerML m;
     manifSet := b; mt := mt m; ociM := ociM m; ociML := ociML m;
     origByte := origByte m |}.

Definition setDockerM (v : dockerSchema2.Manifest) (m : manifest) : manifest :=
  {| digest := digest m; dockerM := v; dockerML := dockerML m;
     manifSet := manifSet m; mt := mt m; ociM := ociM m; ociML := ociML m;
     origByte := origByte m |}.

Definition setDockerML (v : dockerManifestList.ManifestList) (m : manifest)
    : manifest :=
  {| digest := digest m; dockerM := dockerM m; dockerML := v;
     manifSet := manifSet m; mt := mt m; ociM := ociM m; ociML := ociML m;
     origByte := origByte m |}.

Definition setOciM (v : ociv1.Manifest) (m : manifest) : manifest :=
  {| digest := digest m; dockerM := dockerM m; dockerML := dockerML m;
     manifSet := manifSet m; mt := mt m; ociM := v; ociML := ociML m;
     origByte := origByte m |}.

Definition setOciML (v : ociv1.Index) (m : manifest) : manifest :=
  {| digest := digest m; dockerM := dockerM m; dockerML := dockerML m;
     manifSet := manifSet m; mt := mt m; ociM := ociM m; ociML := v;
     origByte := origByte m |}.

Definition acceptAll : list retryable.OptsReq :=
  [retryable.WithHeader "Accept"
     [MediaTypeDocker2Manifest; MediaTypeDocker2ManifestList;
      MediaTypeOCI1Manifest; MediaTypeOCI1ManifestList]].

Definition ErrMissingTag : error := errors.Sentinel "regclient.ErrMissingTag".

Definition setDigest (dg : string) (m : manifest) : manifest :=
  {| digest := dg; dockerM := dockerM m; dockerML := dockerML m;
     manifSet := manifSet m; mt := mt m; ociM := ociM m; ociML := ociML m;
     origByte := origByte m |}.

(** The [%v] rendering of the response that comes with a failed request,
    which is left opaque. *)
Definition showNoResponse : string := "<nil>".

Section requests.
Context `{!Client, !Digester}.
Context `{!JSON dockerSchema2.Manifest, !JSON dockerManifestList.ManifestList,
          !JSON ociv1.Manifest, !JSON ociv1.Index}.

Definition doRequest (host : ConfigHost) (method : string) (u : url.URL)
    (opts : list retryable.OptsReq)
    : State (list Event) (retryable.Response + error) :=
  λ log, (DoRequest host method u opts, log ++ [Sent method u opts]).

Definition warn (msg : string) (fields : list Field)
    : State (list Event) unit :=
  λ log, (tt, log ++ [Warned msg fields]).

(** [ManifestDelete] *)
Definition ManifestDelete (r : ref.Ref)
    : State (list Event) (outcome (option error)) :=
  if bool_decide (ref.Digest r = "") then
    mret (Returns (Some ErrMissingDigest))
  else
    let host := getHost (ref.Registry r) in
    match DNS host with
    | [] => mret (Panics indexOutOfRange)
    | dns0 :: _ =>
        let manfURL :=
          {| url.Scheme := Scheme host;
             url.Host := dns0;
             url.Path := "/v2/" +:+ ref.Repository r +:+ "/manifests/"
                         +:+ ref.Digest r |} in
        let opts := acceptAll in
        resp ← doRequest host "DELETE" manfURL opts;
        match resp with
        | inr err => mret (Returns (Some err))
        | inl resp =>
            if bool_decide (retryable.StatusCode resp ≠ 202%Z) then
              let body := retryable.Body resp in
              _ ← warn "Unexpected status code for manifest delete"
                    [FStr "ref" (ref.Reference r);
                     FInt "status" (retryable.StatusCode resp);
                     FBytes "body" body];
              mret (Returns (Some (errors.Errorf
                "Unexpected status code on manifest delete %d\nResponse object: %v\nBody: %s"
                [pretty (retryable.StatusCode resp); showResponse resp;
                 string_of_list_byte body])))
            else mret (Returns None)
        end
    end.

(** The [switch m.mt] of [ManifestGet] that parses the body into the
    field of the media type; [None] is its [default] branch. *)
Definition unmarshalBody (m : manifest) : option (manifest * option error) :=
  if bool_decide (mt m = MediaTypeDocker2Manifest) then
    let '(v, err) := json_Unmarshal (origByte m) (dockerM m) in
    Some (setDockerM v m, err)
  else if bool_decide (mt m = MediaTypeDocker2ManifestList) then
    let '(v, err) := json_Unmarshal (origByte m) (dockerML m) in
    Some (setDockerML v m, err)
  else if bool_decide (mt m = MediaTypeOCI1Manifest) then
    let '(v, err) := json_Unmarshal (origByte m) (ociM m) in
    Some (setOciM v m, err)
  else if bool_decide (mt m = MediaTypeOCI1ManifestList) then
    let '(v, err) := json_Unmarshal (origByte m) (ociML m) in
    Some (setOciML v m, err)
  else None.

(** [ManifestGet]; the result is the [Manifest] interface value, [None]
    being nil. *)
Definition ManifestGet (r : ref.Ref)
    : State (list Event) (outcome (option manifest * option error)) :=
  let m := zero in
  let host := getHost (ref.Registry r) in
  let tagOrDigest :=
    if bool_decide (ref.Digest r ≠ "") then Some (ref.Digest r)
    else if bool_decide (ref.Tag r ≠ "") then Some (ref.Tag r)
    else None in
  match tagOrDigest with
  | None =>
      _ ← warn "Manifest requires a tag or digest"
            [FStr "ref" (ref.Reference r)];
      mret (Returns (None, Some ErrMissingTagOrDigest))
  | Some tagOrDigest =>
      match DNS host with
      | [] => mret (Panics indexOutOfRange)
      | dns0 :: _ =>
          let manfURL :=
            {| url.Scheme := Scheme host;
               url.Host := dns0;
               url.Path := "/v2/" +:+ ref.Repository r +:+ "/manifests/"
                           +:+ tagOrDigest |} in
          let opts := acceptAll in
          resp ← doRequest host "GET" manfURL opts;
          match resp with
          | inr err => mret (Returns (None, Some err))
          | inl resp =>
              if bool_decide (retryable.StatusCode resp ≠ 200%Z) then
                mret (Returns (None, Some (errors.Errorf
                  "Unexpected http response code %d"
                  [pretty (retryable.StatusCode resp)])))
              else
                match retryable.ReadErr resp with
                | Some err =>
                    _ ← warn "Failed to read manifest"
                          [FErr "err" err; FStr "ref" (ref.Reference r)];
                    mret (Returns (None, Some err))
                | None =>
                    let m := setBody (retryable.Body resp)
                               (digest_FromBytes (retryable.Body resp)) m in
                    let returned :=
                      retryable.Header resp "Docker-Content-Digest" in
                    _ ← (if bool_decide (digest m ≠ returned) then
                           warn "Computed digest does not match header from registry"
                             [FStr "computed" (digest m);
                              FStr "returned" returned]
                         else mret tt);
                    let m := setMt (retryable.Header resp "Content-Type") m in
                    match unmarshalBody m with
                    | None =>
                        _ ← warn "Unsupported media type for manifest"
                              [FStr "mediatype" (mt m);
                               FStr "ref" (ref.Reference r)];
                        mret (Returns (None, Some (errors.Errorf
                          "Unknown manifest media type %s" [mt m])))
                    | Some (m, Some err) =>
                        _ ← warn "Failed to unmarshal manifest"
                              [FErr "err" err; FStr "mediatype" (mt m);
                               FStr "ref" (ref.Reference r)];
                        mret (Returns (None, Some err))
                    | Some (m, None) =>
                        mret (Returns (Some (setManifSet true m), None))
                    end
                end
          end
      end
  end.

(** [ManifestHead] *)
Definition ManifestHead `{!DigestParser} (r : ref.Ref)
    : State (list Event) (outcome (option manifest * option error)) :=
  let m := zero in
  let host := getHost (ref.Registry r) in
  let tagOrDigest :=
    if bool_decide (ref.Digest r ≠ "") then Some (ref.Digest r)
    else if bool_decide (ref.Tag r ≠ "") then Some (ref.Tag r)
    else None in
  match tagOrDigest with
  | None =>
      _ ← warn "Manifest requires a tag or digest"
            [FStr "ref" (ref.Reference r)];
      mret (Returns (None, Some ErrMissingTagOrDigest))
  | Some tagOrDigest =>
      match DNS host with
      | [] => mret (Panics indexOutOfRange)
      | dns0 :: _ =>
          let manfURL :=
            {| url.Scheme := Scheme host;
               url.Host := dns0;
               url.Path := "/v2/" +:+ ref.Repository r +:+ "/manifests/"
                           +:+ tagOrDigest |} in
          let opts := acceptAll in
          resp ← doRequest host "HEAD" manfURL opts;
          match resp with
          | inr err => mret (Returns (None, Some err))
          | inl resp =>
              if bool_decide (retryable.StatusCode resp ≠ 200%Z) then
                mret (Returns (None, Some (errors.Errorf
                  "Unexpected http response code %d"
                  [pretty (retryable.StatusCode resp)])))
              else
                let m := setMt (retryable.Header resp "Content-Type") m in
                let '(dg, err) :=
                  digest_Parse
                    (retryable.Header resp "Docker-Content-Digest") in
                let m := setDigest dg m in
                match err with
                | Some err => mret (Returns (None, Some err))
                | None => mret (Returns (Some m, None))
                end
          end
      end
  end.

(** [ManifestPut]; [m] is the [Manifest] behind the interface value, whose
    one implementation is [*manifest]. *)
Definition ManifestPut (r : ref.Ref) (m : manifest)
    : State (list Event) (outcome (option error)) :=
  let host := getHost (ref.Registry r) in
  match DNS host with
  | [] => mret (Panics indexOutOfRange)
  | dns0 :: _ =>
      let path := "/v2/" +:+ ref.Repository r +:+ "/manifests/" in
      let path :=
        if bool_decide (ref.Tag r ≠ "") then Some (path +:+ ref.Tag r)
        else if bool_decide (ref.Digest r ≠ "") then
          Some (path +:+ ref.Digest r)
        else None in
      match path with
      | None =>
          _ ← warn "Manifest put requires a tag"
                [FStr "ref" (ref.Reference r)];
          mret (Returns (Some ErrMissingTag))
      | Some path =>
          let manfURL :=
            {| url.Scheme := Scheme host; url.Host := dns0;
               url.Path := path |} in
          let opts := [retryable.WithHeader "Content-Type" [GetMediaType m]] in
          let '(mj, err) := MarshalJSON m in
          match err with
          | Some err =>
              _ ← warn "Error marshaling manifest"
                    [FStr "ref" (ref.Reference r); FErr "err" err];
              mret (Returns (Some err))
          | None =>
              let opts := opts ++ [retryable.WithBodyBytes mj] in
              let opts :=
                opts ++ [retryable.WithContentLen (Z.of_nat (length mj))] in
              resp ← doRequest host "PUT" manfURL opts;
              match resp with
              | inr err =>
                  mret (Returns (Some (errors.ErrorfW
                    "Error calling manifest put request: %w\nResponse object: %v"
                    [showNoResponse] err)))
              | inl resp =>
                  if bool_decide (retryable.StatusCode resp < 200)%Z
                     || bool_decide (retryable.StatusCode resp > 299)%Z then
                    let body := retryable.Body resp in
                    _ ← warn "Unexpected status code for manifest"
                          [FStr "ref" (ref.Reference r);
                           FInt "status" (retryable.StatusCode resp);
                           FBytes "body" body];
                    mret (Returns (Some (errors.Errorf
                      "Unexpected status code on manifest put %d\nResponse object: %v\nBody: %s"
                      [pretty (retryable.StatusCode resp); showResponse resp;
                       string_of_list_byte body])))
                  else mret (Returns None)
              end
          end
      end
  end.

End requests.

End regclient.

(** ** Vocabulary of the properties *)

(** [x] is the first element of [l] with property [P]. *)
Definition FirstThat {A : Type} (P : A → Prop) (l : list A) (x : A) : Prop :=
  ∃ pre post, l = pre ++ x :: post ∧ Forall (λ y, ¬ P y) pre ∧ P x.

(** The entry carries digest [dg]. *)
Definition hasDigest (dg : string) (im : types.Descriptor) : Prop :=
  types.Digest im = dg.

(** The entry's [org.opencontainers.image.ref.name] annotation is [t]. *)
Definition hasRefName (t : string) (im : types.Descriptor) : Prop :=
  types.annotation ocidir.aRefName im = Some t.

(** The tie-break rule for a write of [d] under tag [t]: an entry is the
    same as the new one when it has [d]'s digest and no tag of its own, or
    when it carries the tag [t]. *)
Definition Same (t : string) (d im : types.Descriptor) : Prop :=
  (types.Digest im = types.Digest d
   ∧ types.annotation ocidir.aRefName im = None)
  ∨ hasRefName t im.


(** Entry [im] at position [i] holds the map object of [d]. *)
Definition Shares (shared : gset nat) (d : types.Descriptor) (i : nat)
    (im : types.Descriptor) : Prop :=
  i ∈ shared
  ∧ types.Annotations d ≠ None
  ∧ types.Annotations im = types.Annotations d.


(** No entry of [ms] holds the map object of [d]. *)
Definition Apart (shared : gset nat) (d : types.Descriptor)
    (ms : list types.Descriptor) : Prop :=
  ∀ i im, ms !! i = Some im → ¬ Shares shared d i im.

#[global] Instance hasDigest_dec dg im : Decision (hasDigest dg im).
Proof. unfold hasDigest. apply _. Defined.
#[global] Instance hasRefName_dec t im : Decision (hasRefName t im).
Proof. unfold hasRefName. apply _. Defined.
#[global] Instance Same_dec t d im : Decision (Same t d im).
Proof. unfold Same. apply _. Defined.

(** The errors of [ocidir.valid]: the ways a directory fails to be an OCI
    layout.  The sources declare no sentinel for them; they are told by
    their text. *)
Inductive InvalidLayout : error → Prop :=
| layout_cannot_open (cause : error) :
    InvalidLayout (errors.ErrorfW "%s cannot be open: %w"
                     [ocidir.imageLayoutFile] cause)
| layout_cannot_read (cause : error) :
    InvalidLayout (errors.ErrorfW "%s cannot be read: %w"
                     [ocidir.imageLayoutFile] cause)
| layout_cannot_parse (cause : error) :
    InvalidLayout (errors.ErrorfW "%s cannot be parsed: %w"
                     [ocidir.imageLayoutFile] cause)
| layout_version (received : string) :
    received ≠ "1.0.0" →
    InvalidLayout (errors.Errorf
                     "unsupported oci layout version, expected %s, received %s"
                     ["1.0.0"; received]).

(** The [oci-layout] file of [dir] exists, can be read, parses as JSON and
    declares version 1.0.0. *)
Definition LayoutOK {FS File : Type}
    `{!rwfs.RWFS FS File, !PathJoin, !JSON v1.ImageLayout}
    (dir : string) (fs : FS) : Prop :=
  ∃ fh lb layout,
    rwfs.Open (path_Join dir ocidir.imageLayoutFile) fs = inl fh
    ∧ rwfs.ReadAll fh fs = (lb, None)
    ∧ json_Unmarshal lb {| v1.Version := "" |} = (layout, None)
    ∧ v1.Version layout = "1.0.0".

(** The calls of a complete run of [valid]. *)
Definition validCalls `{!PathJoin} (dir : string) : list rwfs.Call :=
  [rwfs.CallOpen (path_Join dir ocidir.imageLayoutFile); rwfs.CallRead;
   rwfs.CallClose (path_Join dir ocidir.imageLayoutFile)].

(** The two files of the layout of [r]. *)
Definition layoutPath `{!PathJoin} (r : ref.Ref) : string :=
  path_Join (ref.Path r) ocidir.imageLayoutFile.
Definition indexPath `{!PathJoin} (r : ref.Ref) : string :=
  path_Join (ref.Path r) "index.json".

(** The calls of a complete run of [writeIndex]. *)
Definition writeCalls `{!PathJoin, !JSON v1.ImageLayout, !JSON v1.Index}
    (r : ref.Ref) (i : v1.Index) : list rwfs.Call :=
  [rwfs.CallCreate (layoutPath r);
   rwfs.CallWrite (json_Marshal {| v1.Version := "1.0.0" |}).1;
   rwfs.CallCreate (indexPath r);
   rwfs.CallWrite (json_Marshal i).1;
   rwfs.CallClose (indexPath r);
   rwfs.CallClose (layoutPath r)].

(** A write of the index in place, step by step: the layout file is
    created under its own name and written, then [index.json] is created
    under its own name and written.  The run stops at the first step that
    fails, with an error that wraps the error of that step, after the calls
    made so far and the closing of the files that were created; [fs'] is
    the filesystem as the last call left it. *)
Inductive InPlace {FS File : Type}
    `{!rwfs.RWFS FS File, !PathJoin, !JSON v1.ImageLayout, !JSON v1.Index}
    (r : ref.Ref) (i : v1.Index) (fs : FS)
    : option error → FS → list rwfs.Call → Prop :=
| layout_not_marshalled lb e :
    json_Marshal {| v1.Version := "1.0.0" |} = (lb, Some e) →
    InPlace r i fs
      (Some (errors.ErrorfW "cannot marshal layout: %w" [] e)) fs []
| layout_not_created lb e fs1 :
    json_Marshal {| v1.Version := "1.0.0" |} = (lb, None) →
    rwfs.Create (layoutPath r) fs = (inr e, fs1) →
    InPlace r i fs
      (Some (errors.ErrorfW "cannot create %s: %w"
               [ocidir.imageLayoutFile] e))
      fs1 [rwfs.CallCreate (layoutPath r)]
| layout_not_written lb lfh e fs1 fs2 :
    json_Marshal {| v1.Version := "1.0.0" |} = (lb, None) →
    rwfs.Create (layoutPath r) fs = (inl lfh, fs1) →
    rwfs.Write lfh lb fs1 = (Some e, fs2) →
    InPlace r i fs
      (Some (errors.ErrorfW "cannot write %s: %w"
               [ocidir.imageLayoutFile] e))
      fs2
      [rwfs.CallCreate (layoutPath r); rwfs.CallWrite lb;
       rwfs.CallClose (layoutPath r)]
| index_not_created lb lfh e fs1 fs2 fs3 :
    json_Marshal {| v1.Version := "1.0.0" |} = (lb, None) →
    rwfs.Create (layoutPath r) fs = (inl lfh, fs1) →
    rwfs.Write lfh lb fs1 = (None, fs2) →
    rwfs.Create (indexPath r) fs2 = (inr e, fs3) →
    InPlace r i fs
      (Some (errors.ErrorfW "%s cannot be created: %w" [indexPath r] e))
      fs3
      [rwfs.CallCreate (layoutPath r); rwfs.CallWrite lb;
       rwfs.CallCreate (indexPath r); rwfs.CallClose (layoutPath r)]
| index_not_marshalled lb lfh fh b e fs1 fs2 fs3 :
    json_Marshal {| v1.Version := "1.0.0" |} = (lb, None) →
    rwfs.Create (layoutPath r) fs = (inl lfh, fs1) →
    rwfs.Write lfh lb fs1 = (None, fs2) →
    rwfs.Create (indexPath r) fs2 = (inl fh, fs3) →
    json_Marshal i = (b, Some e) →
    InPlace r i fs
      (Some (errors.ErrorfW "cannot marshal index: %w" [] e))
      fs3
      [rwfs.CallCreate (layoutPath r); rwfs.CallWrite lb;
       rwfs.CallCreate (indexPath r);
       rwfs.CallClose (indexPath r); rwfs.CallClose (layoutPath r)]
| index_not_written lb lfh fh b e fs1 fs2 fs3 fs4 :
    json_Marshal {| v1.Version := "1.0.0" |} = (lb, None) →
    rwfs.Create (layoutPath r) fs = (inl lfh, fs1) →
    rwfs.Write lfh lb fs1 = (None, fs2) →
    rwfs.Create (indexPath r) fs2 = (inl fh, fs3) →
    json_Marshal i = (b, None) →
    rwfs.Write fh b fs3 = (Some e, fs4) →
    InPlace r i fs
      (Some (errors.ErrorfW "cannot write index: %w" [] e))
      fs4
      [rwfs.CallCreate (layoutPath r); rwfs.CallWrite lb;
       rwfs.CallCreate (indexPath r); rwfs.CallWrite b;
       rwfs.CallClose (indexPath r); rwfs.CallClose (layoutPath r)]
| both_written lb lfh fh b fs1 fs2 fs3 fs4 :
    json_Marshal {| v1.Version := "1.0.0" |} = (lb, None) →
    rwfs.Create (layoutPath r) fs = (inl lfh, fs1) →
    rwfs.Write lfh lb fs1 = (None, fs2) →
    rwfs.Create (indexPath r) fs2 = (inl fh, fs3) →
    json_Marshal i = (b, None) →
    rwfs.Write fh b fs3 = (None, fs4) →
    InPlace r i fs None fs4
      [rwfs.CallCreate (layoutPath r); rwfs.CallWrite lb;
       rwfs.CallCreate (indexPath r); rwfs.CallWrite b;
       rwfs.CallClose (indexPath r); rwfs.CallClose (layoutPath r)].

(** The names of the files a run creates. *)
Definition created (calls : list rwfs.Call) : list string :=
  omap (λ c, match c with rwfs.CallCreate name => Some name | _ => None end)
       calls.

Definition isRename (c : rwfs.Call) : bool :=
  match c with rwfs.CallRename _ _ => true | _ => false end.

(** The URL of a manifest of [r] on the host named [dns0]. *)
Definition manifestURL `{!regclient.Client} (r : ref.Ref) (dns0 : string)
    (tagOrDigest : string) : url.URL :=
  {| url.Scheme := regclient.Scheme (regclient.getHost (ref.Registry r));
     url.Host := dns0;
     url.Path := "/v2/" +:+ ref.Repository r +:+ "/manifests/"
                 +:+ tagOrDigest |}.

Definition isSent (e : regclient.Event) : bool :=
  match e with regclient.Sent _ _ _ => true | _ => false end.

(** Entry [d] of an OCI index carries a platform that passes [test]. *)
Definition platformIs (test : ociv1.Platform → bool) (d : ociv1.Descriptor)
    : Prop :=
  ∃ q, ociv1.Platform' d = Some q ∧ test q = true.

(** Platform [q] of the image specification says what platform [sp] of a
    Docker manifest list says. *)
Definition SamePlatform (sp : dockerManifestList.PlatformSpec)
    (q : ociv1.Platform) : Prop :=
  ociv1.Architecture q = dockerManifestList.Architecture sp
  ∧ ociv1.OS q = dockerManifestList.OS sp
  ∧ ociv1.OSVersion q = dockerManifestList.OSVersion sp
  ∧ ociv1.OSFeatures q = dockerManifestList.OSFeatures sp
  ∧ ociv1.Variant q = dockerManifestList.Variant sp.

(** Descriptor [d] is entry [sd] of a Docker manifest list in the types of
    the image specification: the same media type, digest, size, URLs and
    annotations, and the platform of [sd]. *)
Definition Converted (sd : dockerManifestList.ManifestDescriptor)
    (d : ociv1.Descriptor) : Prop :=
  ociv1.MediaType d
  = dockerDistribution.MediaType (dockerManifestList.Descriptor sd)
  ∧ ociv1.Digest d
    = dockerDistribution.Digest (dockerManifestList.Descriptor sd)
  ∧ ociv1.Size d = dockerDistribution.Size (dockerManifestList.Descriptor sd)
  ∧ ociv1.URLs d = dockerDistribution.URLs (dockerManifestList.Descriptor sd)
  ∧ ociv1.Annotations d
    = dockerDistribution.Annotations (dockerManifestList.Descriptor sd)
  ∧ ∃ q, ociv1.Platform' d = Some q
         ∧ SamePlatform (dockerManifestList.Platform sd) q.

(** The tag [indexGet] looks up for a reference without digest. *)
Definition effectiveTag (r : ref.Ref) : string :=
  if bool_decide (ref.Tag r = "") then "latest" else ref.Tag r.

(** The entries [indexGet] selects for [r]: by digest when [r] has one, by
    tag otherwise. *)
Definition selects (r : ref.Ref) (im : types.Descriptor) : bool :=
  if bool_decide (ref.Digest r ≠ "") then
    bool_decide (types.Digest im = ref.Digest r)
  else bool_decide (hasRefName (effectiveTag r) im).

(** The calls that read the filesystem: opening a file, reading an open
    file and closing it. *)
Definition isReadCall (c : rwfs.Call) : bool :=
  match c with
  | rwfs.CallOpen _ | rwfs.CallRead | rwfs.CallClose _ => true
  | _ => false
  end.

(** The names of the files a run asks to open, and of those it closes. *)
Definition opened (calls : list rwfs.Call) : list string :=
  omap (λ c, match c with rwfs.CallOpen name => Some name | _ => None end)
       calls.
Definition closed (calls : list rwfs.Call) : list string :=
  omap (λ c, match c with rwfs.CallClose name => Some name | _ => None end)
       calls.

(** The file [name] can be opened. *)
Definition opens {FS File : Type} `{!rwfs.RWFS FS File} (fs : FS)
    (name : string) : bool :=
  match rwfs.Open name fs with inl _ => true | inr _ => false end.

(** The ways a read of the index fails: the call that failed, the index
    and the error that come back, and the error of the call, which the
    error wraps; a layout of another version is refused without a failed
    call behind it. *)
Inductive ReadFails {FS File : Type}
    `{!rwfs.RWFS FS File, !PathJoin, !JSON v1.ImageLayout, !JSON v1.Index}
    (r : ref.Ref) (fs : FS) : v1.Index → error → option error → Prop :=
| layout_not_opened cause :
    rwfs.Open (layoutPath r) fs = inr cause →
    ReadFails r fs v1.zero
      (errors.ErrorfW "%s cannot be open: %w" [ocidir.imageLayoutFile] cause)
      (Some cause)
| layout_not_read fh lb cause :
    rwfs.Open (layoutPath r) fs = inl fh →
    rwfs.ReadAll fh fs = (lb, Some cause) →
    ReadFails r fs v1.zero
      (errors.ErrorfW "%s cannot be read: %w" [ocidir.imageLayoutFile] cause)
      (Some cause)
| layout_not_parsed fh lb layout cause :
    rwfs.Open (layoutPath r) fs = inl fh →
    rwfs.ReadAll fh fs = (lb, None) →
    json_Unmarshal lb {| v1.Version := "" |} = (layout, Some cause) →
    ReadFails r fs v1.zero
      (errors.ErrorfW "%s cannot be parsed: %w" [ocidir.imageLayoutFile]
         cause)
      (Some cause)
| layout_of_other_version fh lb layout :
    rwfs.Open (layoutPath r) fs = inl fh →
    rwfs.ReadAll fh fs = (lb, None) →
    json_Unmarshal lb {| v1.Version := "" |} = (layout, None) →
    v1.Version layout ≠ "1.0.0" →
    ReadFails r fs v1.zero
      (errors.Errorf
         "unsupported oci layout version, expected %s, received %s"
         ["1.0.0"; v1.Version layout])
      None
| index_not_opened cause :
    LayoutOK (ref.Path r) fs →
    rwfs.Open (indexPath r) fs = inr cause →
    ReadFails r fs v1.zero
      (errors.ErrorfW "%s cannot be open: %w" [indexPath r] cause)
      (Some cause)
| index_not_read fh ib cause :
    LayoutOK (ref.Path r) fs →
    rwfs.Open (indexPath r) fs = inl fh →
    rwfs.ReadAll fh fs = (ib, Some cause) →
    ReadFails r fs v1.zero
      (errors.ErrorfW "%s cannot be read: %w" [indexPath r] cause)
      (Some cause)
| index_not_parsed fh ib index cause :
    LayoutOK (ref.Path r) fs →
    rwfs.Open (indexPath r) fs = inl fh →
    rwfs.ReadAll fh fs = (ib, None) →
    json_Unmarshal ib v1.zero = (index, Some cause) →
    ReadFails r fs index
      (errors.ErrorfW "%s cannot be parsed: %w" [indexPath r] cause)
      (Some cause).

(** The reference part of a manifest URL: [ManifestGet], [ManifestHead]
    and [ManifestDelete] take the digest before the tag, [ManifestPut] the
    tag before the digest. *)
Definition digestOrTag (r : ref.Ref) : option string :=
  if bool_decide (ref.Digest r ≠ "") then Some (ref.Digest r)
  else if bool_decide (ref.Tag r ≠ "") then Some (ref.Tag r)
  else None.

Definition tagOrDigest (r : ref.Ref) : option string :=
  if bool_decide (ref.Tag r ≠ "") then Some (ref.Tag r)
  else if bool_decide (ref.Digest r ≠ "") then Some (ref.Digest r)
  else None.

(** The options of the request [ManifestPut] sends for [m] with body
    [mj]. *)
Definition putOpts (m : regclient.manifest) (mj : bytes)
    : list retryable.OptsReq :=
  [retryable.WithHeader "Content-Type" [regclient.mt m];
   retryable.WithBodyBytes mj;
   retryable.WithContentLen (Z.of_nat (length mj))].

(** The requests among the events of a call. *)
Definition requests (events : list regclient.Event) : list regclient.Event :=
  filter (λ e, Is_true (isSent e)) events.

(** ** Sample data *)

Module sample.

Definition entry (dg : string) (tag : option string) : types.Descriptor :=
  {| types.MediaType := types.MediaTypeOCI1Manifest;
     types.Digest := dg;
     types.Size := 2;
     types.Annotations := (λ t, {[ ocidir.aRefName := t ]}) <$> tag |}.

Definition index (ms : list types.Descriptor) : v1.Index :=
  v1.setManifests ms ocidir.indexCreate.

Definition tags : list types.Descriptor :=
  [entry "sha256:aa" (Some "v1");
   entry "sha256:bb" (Some "latest");
   entry "sha256:bb" (Some "v2")].

Definition dups : list types.Descriptor :=
  [entry "sha256:aa" (Some "v1");
   entry "sha256:cc" None;
   entry "sha256:bb" (Some "v1");
   entry "sha256:cc" (Some "v2")].

Definition byTag (t : string) : ref.Ref :=
  {| ref.Reference := "ocidir://layout:" +:+ t; ref.Registry := "";
     ref.Repository := ""; ref.Tag := t; ref.Digest := "";
     ref.Path := "layout" |}.

Definition byDigest (dg : string) : ref.Ref :=
  {| ref.Reference := "ocidir://layout@" +:+ dg; ref.Registry := "";
     ref.Repository := ""; ref.Tag := ""; ref.Digest := dg;
     ref.Path := "layout" |}.

Definition bare : ref.Ref :=
  {| ref.Reference := "ocidir://layout"; ref.Registry := "";
     ref.Repository := ""; ref.Tag := ""; ref.Digest := "";
     ref.Path := "layout" |}.


(** Stand-ins for the packages behind the classes, for the examples only.
    A layout file holds its version between a fixed opening and closing
    text, an index file the digest of its one manifest. *)
Definition layoutOpening : string := "{imageLayoutVersion:".
Definition layoutClosing : string := "}".

Fixpoint stripPrefix (p s : string) : option string :=
  match p, s with
  | EmptyString, _ => Some s
  | String a p', String b s' =>
      if bool_decide (a = b) then stripPrefix p' s' else None
  | String _ _, EmptyString => None
  end.

Definition syntaxError : error := errors.Sentinel "json.SyntaxError".

#[global] Instance json_layout : JSON v1.ImageLayout := {|
  json_Marshal l :=
    (list_byte_of_string (layoutOpening +:+ v1.Version l +:+ layoutClosing),
     None);
  json_Unmarshal b l :=
    match stripPrefix layoutOpening (string_of_list_byte b) with
    | Some rest =>
        match stripPrefix layoutClosing (String.rev rest) with
        | Some v => ({| v1.Version := String.rev v |}, None)
        | None => (l, Some syntaxError)
        end
    | None => (l, Some syntaxError)
    end;
|}.

#[global] Instance json_index : JSON v1.Index := {|
  json_Marshal i :=
    (list_byte_of_string
       (match v1.entries i with d :: _ => types.Digest d | [] => "-" end),
     None);
  json_Unmarshal b i :=
    match b with
    | [] => (i, Some syntaxError)
    | _ => (v1.setManifests [entry (string_of_list_byte b) None] i, None)
    end;
|}.

#[global] Instance path_join : PathJoin := {|
  path_Join dir file := dir +:+ "/" +:+ file;
|}.

Definition disk (fs : list (string * string)) (space : nat) : rwfs.Mem :=
  {| rwfs.files := list_to_map (prod_map id list_byte_of_string <$> fs);
     rwfs.space := space |}.


Definition staleLayout : rwfs.Mem :=
  disk [("layout/oci-layout", "{imageLayoutVersion:0.9}");
        ("layout/index.json", "sha256:aa")] 64.

Definition fullDisk : rwfs.Mem :=
  disk [("layout/oci-layout", "{imageLayoutVersion:1.0.0}");
        ("layout/index.json", "sha256:aa")] 30.


(** More stand-ins: a manifest serializes to its media type and the digest
    of its configuration, a manifest list to its media type and the number
    of its entries; a byte string is named by its own text. *)
#[global] Instance json_manifest : JSON schema2.Manifest := {|
  json_Marshal m :=
    (list_byte_of_string
       (schema2.MediaType m +:+ ";" +:+ types.Digest (schema2.Config m)),
     None);
  json_Unmarshal b m := (m, Some syntaxError);
|}.

#[global] Instance json_manifestList : JSON schema2.ManifestList := {|
  json_Marshal m :=
    (list_byte_of_string
       (schema2.ListMediaType m +:+ ";"
        +:+ pretty (length (schema2.Manifests m))),
     None);
  json_Unmarshal b m := (m, Some syntaxError);
|}.

#[global] Instance digester : Digester := {|
  digest_FromBytes b := "text:" +:+ string_of_list_byte b;
|}.

Definition noCommon : manifest.common :=
  {| manifest.r := bare; manifest.desc := types.zero;
     manifest.manifSet := false; manifest.rawBody := [] |}.

Definition image : schema2.Manifest :=
  {| schema2.SchemaVersion := 2; schema2.MediaType := "";
     schema2.Config := entry "sha256:cf" None;
     schema2.Layers := [entry "sha256:l1" None] |}.

Definition noImage : manifest.docker2Manifest :=
  {| manifest.base := noCommon;
     manifest.Manifest :=
       {| schema2.SchemaVersion := 0; schema2.MediaType := "";
          schema2.Config := types.zero; schema2.Layers := [] |} |}.

Definition imageList : schema2.ManifestList :=
  {| schema2.ListSchemaVersion := 2; schema2.ListMediaType := "";
     schema2.Manifests := [entry "sha256:cf" None] |}.

Definition noList : manifest.docker2ManifestList :=
  {| manifest.listBase := noCommon;
     manifest.ManifestList :=
       {| schema2.ListSchemaVersion := 0; schema2.ListMediaType := "";
          schema2.Manifests := [] |} |}.


(** Stand-ins for the registry client's packages: a codec that decodes
    one document, the empty JSON object, which sets no field and so leaves
    the value as it is, and refuses every other text; a matcher that
    compares architecture and OS; a registry that answers every GET with
    the empty object as manifest under a digest header of an older one, and
    accepts every DELETE. *)
Definition opaqueJSON {A : Type} (text : string) : JSON A := {|
  json_Marshal _ := (list_byte_of_string text, None);
  json_Unmarshal b v :=
    if bool_decide (b = list_byte_of_string "{}") then (v, None)
    else (v, Some syntaxError);
|}.

#[global] Instance json_dockerM : JSON dockerSchema2.Manifest :=
  opaqueJSON "{dockerM}".
#[global] Instance json_dockerML : JSON dockerManifestList.ManifestList :=
  opaqueJSON "{dockerML}".
#[global] Instance json_ociM : JSON ociv1.Manifest := opaqueJSON "{ociM}".
#[global] Instance json_ociML : JSON ociv1.Index := opaqueJSON "{ociML}".

#[global] Instance matcher : PlatformMatcher := {|
  platforms_Match p q :=
    bool_decide (ociv1.Architecture p = ociv1.Architecture q)
    && bool_decide (ociv1.OS p = ociv1.OS q);
|}.

Definition answer (status : Z) (body : string) : retryable.Response :=
  {| retryable.StatusCode := status;
     retryable.Header key :=
       if bool_decide (key = "Content-Type")
       then regclient.MediaTypeDocker2Manifest
       else if bool_decide (key = "Docker-Content-Digest")
       then "text:{stale}"
       else "";
     retryable.Body := list_byte_of_string body;
     retryable.ReadErr := None |}.

#[global] Instance registry : regclient.Client := {|
  regclient.getHost name :=
    {| regclient.Scheme := "https"; regclient.DNS := [name] |};
  regclient.DoRequest host method u opts :=
    if bool_decide (method = "GET") then inl (answer 200 "{}")
    else if bool_decide (method = "DELETE") then inl (answer 202 "")
    else inr (errors.Sentinel "retryable.ErrNotFound");
|}.

Definition remote (tag dg : string) : ref.Ref :=
  {| ref.Reference := "registry.example/proj/repo";
     ref.Registry := "registry.example"; ref.Repository := "proj/repo";
     ref.Tag := tag; ref.Digest := dg; ref.Path := "" |}.

Definition linux (arch : string) : ociv1.Platform :=
  {| ociv1.Architecture := arch; ociv1.OS := "linux"; ociv1.OSVersion := "";
     ociv1.OSFeatures := []; ociv1.Variant := "" |}.

Definition ociEntry (dg : string) (p : option ociv1.Platform)
    : ociv1.Descriptor :=
  {| ociv1.MediaType := regclient.MediaTypeOCI1Manifest; ociv1.Digest := dg;
     ociv1.Size := 2; ociv1.URLs := []; ociv1.Annotations := None;
     ociv1.Platform' := p |}.

Definition ociIndex (ms : list ociv1.Descriptor) : regclient.manifest :=
  regclient.setManifSet true
    (regclient.setMt regclient.MediaTypeOCI1ManifestList
       (regclient.setOciML {| ociv1.Manifests := ms |} regclient.zero)).

(** More stand-ins: a layout directory without its [index.json]; a parser
    that takes every non-empty text for a digest; a second registry, which
    takes pushes: it answers every HEAD with the headers of the manifest
    and every PUT with status 201. *)
Definition noIndex : rwfs.Mem :=
  disk [("layout/oci-layout", "{imageLayoutVersion:1.0.0}")] 64.

#[global] Instance digestParser : DigestParser := {|
  digest_Parse s :=
    match s with
    | EmptyString => ("", Some (errors.Sentinel "digest.ErrDigestInvalidFormat"))
    | _ => (s, None)
    end;
|}.

Definition mirror : regclient.Client := {|
  regclient.getHost name :=
    {| regclient.Scheme := "https"; regclient.DNS := [name] |};
  regclient.DoRequest host method u opts :=
    if bool_decide (method = "HEAD") then inl (answer 200 "")
    else if bool_decide (method = "PUT") then inl (answer 201 "")
    else inr (errors.Sentinel "retryable.ErrNotFound");
|}.

End sample.

(* ===================================================================== *)
(** * Part II.  Properties                                                *)
(* ===================================================================== *)

(** ** Loops that return the first match *)

Lemma firstWhere_first {A : Type} (test : A → bool) (l : list A) (x : A) :
  FirstThat (λ y, Is_true (test y)) l x → firstWhere test l = Some x.
Proof.
  intros (pre & post & -> & Hpre & Hx).
  unfold firstWhere.
  induction Hpre as [|y pre Hy _ IH]; simpl; case_decide; try done.
  destruct (list_find _ _) as [[i z]|]; simpl in *; congruence.
Qed.

Lemma firstWhere_none {A : Type} (test : A → bool) (l : list A) :
  Forall (λ y, ¬ Is_true (test y)) l → firstWhere test l = None.
Proof.
  intros H. unfold firstWhere.
  induction H as [|y l Hy _ IH]; simpl; [done|].
  case_decide; [done|].
  destruct (list_find _ _) as [[i z]|]; simpl in *; congruence.
Qed.

Lemma FirstThat_iff {A : Type} (P Q : A → Prop) (l : list A) (x : A) :
  (∀ y, P y ↔ Q y) → FirstThat P l x → FirstThat Q l x.
Proof.
  intros E (pre & post & -> & Hpre & Hx).
  exists pre, post. split; [done|]. split; [|by apply E].
  eapply Forall_impl; [exact Hpre|]. intros y Hy HQ. by apply Hy, E.
Qed.

(** ** [indexGet] *)

(** The test of the loop over tags holds of the entries named [t]. *)
Lemma tagTest_hasRefName (t : string) (im : types.Descriptor) :
  Is_true (match types.annotation ocidir.aRefName im with
           | Some name => bool_decide (name = t)
           | None => false
           end) ↔ hasRefName t im.
Proof.
  unfold hasRefName. destruct (types.annotation _ im) as [name|]; simpl.
  - rewrite bool_decide_spec. split; congruence.
  - split; [done | discriminate].
Qed.

Lemma digestTest_hasDigest (dg : string) (im : types.Descriptor) :
  Is_true (bool_decide (types.Digest im = dg)) ↔ hasDigest dg im.
Proof. unfold hasDigest. by rewrite bool_decide_spec. Qed.

(** What [indexGet] does once the reference is known to select entries by
    [test]: the first entry that passes, [ErrNotFound] when none does. *)
Lemma indexGet_loop (test : types.Descriptor → bool) (P : types.Descriptor → Prop)
    (ms : list types.Descriptor) :
  (∀ im, Is_true (test im) ↔ P im) →
  (∀ im, FirstThat P ms im →
     match firstWhere test ms with
     | Some im' => (im', None)
     | None => (types.zero, Some types.ErrNotFound)
     end = (im, @None error)) ∧
  (Forall (λ im, ¬ P im) ms →
     match firstWhere test ms with
     | Some im' => (im', None)
     | None => (types.zero, Some types.ErrNotFound)
     end = (types.zero, Some types.ErrNotFound)).
Proof.
  intros E. split.
  - intros im H. rewrite (firstWhere_first test ms im); [done|].
    eapply FirstThat_iff; [|exact H]. intros y. symmetry. apply E.
  - intros H. rewrite firstWhere_none; [done|].
    eapply Forall_impl; [exact H|]. intros y Hy Ht. by apply Hy, E.
Qed.

(** C3: [indexGet] resolves a reference with a digest to the first entry
    with that digest, whatever its annotations; a reference with only a tag
    to the first entry whose [org.opencontainers.image.ref.name] annotation
    is the tag; a reference with neither as if its tag were ["latest"]; and
    it fails with [ErrNotFound] when no entry is selected. *)
Theorem indexGet_resolution (index : v1.Index) (r : ref.Ref) :
  let Resolves (P : types.Descriptor → Prop) : Prop :=
    (∀ im, FirstThat P (v1.entries index) im →
       ocidir.indexGet index r = (im, None)) ∧
    (Forall (λ im, ¬ P im) (v1.entries index) →
       ocidir.indexGet index r = (types.zero, Some types.ErrNotFound)) in
  (ref.Digest r ≠ "" → Resolves (hasDigest (ref.Digest r))) ∧
  (ref.Digest r = "" → ref.Tag r ≠ "" → Resolves (hasRefName (ref.Tag r))) ∧
  (ref.Digest r = "" → ref.Tag r = "" → Resolves (hasRefName "latest")).
Proof.
  intros Resolves. subst Resolves. cbv beta.
  unfold ocidir.indexGet.
  split; [|split].
  - intros Hd.
    rewrite (bool_decide_eq_false_2 (ref.Digest r = "")) by done. simpl.
    rewrite (bool_decide_eq_true_2 (ref.Digest r ≠ "")) by done.
    apply indexGet_loop. intros im. apply digestTest_hasDigest.
  - intros Hd Ht.
    rewrite (bool_decide_eq_true_2 (ref.Digest r = "")) by done.
    rewrite (bool_decide_eq_false_2 (ref.Tag r = "")) by done. simpl.
    rewrite (bool_decide_eq_false_2 (ref.Digest r ≠ "")) by (intros H; by apply H).
    rewrite (bool_decide_eq_true_2 (ref.Tag r ≠ "")) by done.
    apply indexGet_loop. intros im. apply tagTest_hasRefName.
  - intros Hd Ht.
    rewrite (bool_decide_eq_true_2 (ref.Digest r = "")) by done.
    rewrite (bool_decide_eq_true_2 (ref.Tag r = "")) by done. simpl.
    rewrite (bool_decide_eq_false_2 (ref.Digest r ≠ "")) by (intros H; by apply H).
    simpl.
    apply indexGet_loop. intros im. apply tagTest_hasRefName.
Qed.

Lemma indexGet_resolution_witness :
  ocidir.indexGet (sample.index sample.tags) (sample.byDigest "sha256:bb")
    = (sample.entry "sha256:bb" (Some "latest"), None)
  ∧ ocidir.indexGet (sample.index sample.tags) (sample.byTag "v2")
    = (sample.entry "sha256:bb" (Some "v2"), None)
  ∧ ocidir.indexGet (sample.index sample.tags) sample.bare
    = (sample.entry "sha256:bb" (Some "latest"), None)
  ∧ ocidir.indexGet (sample.index sample.tags) (sample.byTag "v3")
    = (types.zero, Some types.ErrNotFound).
Proof.
  split; [|split; [|split]].
  - apply (proj1 (indexGet_resolution (sample.index sample.tags)
                    (sample.byDigest "sha256:bb"))); [discriminate|].
    exists [sample.entry "sha256:aa" (Some "v1")],
           [sample.entry "sha256:bb" (Some "v2")].
    split; [reflexivity|]. split; [|reflexivity].
    repeat constructor. discriminate.
  - apply (proj1 (proj2 (indexGet_resolution (sample.index sample.tags)
                           (sample.byTag "v2")))); [reflexivity|discriminate|].
    exists [sample.entry "sha256:aa" (Some "v1");
            sample.entry "sha256:bb" (Some "latest")], [].
    split; [reflexivity|]. split; [|vm_compute; reflexivity].
    repeat constructor; vm_compute; discriminate.
  - apply (proj2 (proj2 (indexGet_resolution (sample.index sample.tags) sample.bare)));
      [reflexivity|reflexivity|].
    exists [sample.entry "sha256:aa" (Some "v1")],
           [sample.entry "sha256:bb" (Some "v2")].
    split; [reflexivity|]. split; [|vm_compute; reflexivity].
    repeat constructor; vm_compute; discriminate.
  - apply (proj1 (proj2 (indexGet_resolution (sample.index sample.tags)
                           (sample.byTag "v3")))); [reflexivity|discriminate|].
    repeat constructor; vm_compute; discriminate.
Defined.

(** ** [indexSet] *)

(** The test of [indexSet] reads only the digest of the new descriptor. *)
Lemma sameEntry_annotate (r : ref.Ref) (d im : types.Descriptor) :
  ocidir.sameEntry r (ocidir.annotate r d) im = ocidir.sameEntry r d im.
Proof.
  unfold ocidir.sameEntry, ocidir.annotate.
  by destruct (bool_decide (ref.Tag r ≠ "")).
Qed.

(** With a tag, the test is the tie-break rule. *)
Lemma sameEntry_Same (r : ref.Ref) (d im : types.Descriptor) :
  ref.Tag r ≠ "" →
  Is_true (ocidir.sameEntry r d im) ↔ Same (ref.Tag r) d im.
Proof.
  intros Ht. unfold ocidir.sameEntry, Same, hasRefName.
  rewrite (bool_decide_eq_true_2 (ref.Tag r ≠ "")) by done.
  destruct (types.annotation ocidir.aRefName im) as [name|]; simpl.
  - rewrite andb_false_r. simpl. rewrite bool_decide_spec.
    split; [intros ->; by right | intros [[_ ?]|?]; congruence].
  - rewrite andb_true_r, orb_false_r, bool_decide_spec.
    split; [intros ?; by left | intros [[? _]|?]; congruence].
Qed.

(** The annotated descriptor carries the tag. *)
Lemma annotate_hasRefName (r : ref.Ref) (d : types.Descriptor) :
  ref.Tag r ≠ "" → hasRefName (ref.Tag r) (ocidir.annotate r d).
Proof.
  intros Ht. unfold hasRefName, ocidir.annotate, types.annotation.
  rewrite (bool_decide_eq_true_2 (ref.Tag r ≠ "")) by done. simpl.
  apply lookup_insert_eq.
Qed.


(** The second loop, run from index [i] down to [pos + 1] on a list whose
    first [i + 1] entries are [l1]: it stays within the list, keeps the
    entries up to [pos] and those behind [l1], and of the entries in
    between those that fail the test. *)
Lemma removeDups_spec (r : ref.Ref) (d : types.Descriptor) (pos : nat) :
  ∀ (i : nat) (l1 l2 : list types.Descriptor),
    length l1 = S i → (pos ≤ i)%nat →
    ocidir.removeDups r d pos i (l1 ++ l2)
    = Returns
        (take (S pos) l1
         ++ filter (λ y, ¬ ocidir.sameEntry r d y) (drop (S pos) l1) ++ l2).
Proof.
  induction i as [|i IH]; intros l1 l2 Hlen Hpos.
  - assert (pos = 0)%nat as -> by lia. simpl.
    rewrite take_ge, drop_ge by lia. by rewrite app_nil_l.
  - destruct (decide (pos < S i)%nat) as [Hlt|Hge].
    + destruct l1 as [|x l1 _] using rev_ind; [done|].
      rewrite length_app in Hlen. simpl in Hlen.
      assert (length l1 = S i) as Hl1 by lia.
      cbn [ocidir.removeDups].
      rewrite (bool_decide_eq_true_2 (pos < S i)%nat) by done.
      rewrite <- app_assoc. simpl.
      rewrite <- Hl1.
      rewrite list_lookup_middle by done.
      rewrite take_app_le, drop_app_le by lia.
      rewrite filter_app.
      destruct (ocidir.sameEntry r d x) eqn:Hx.
      * rewrite delete_middle. rewrite IH by (done || lia).
        rewrite filter_cons_False by (rewrite Hx; simpl; tauto).
        by rewrite filter_nil, app_nil_r.
      * rewrite IH by (done || lia).
        rewrite filter_cons_True by (rewrite Hx; simpl; tauto).
        by rewrite filter_nil, <- !app_assoc.
    + assert (pos = S i) as -> by lia.
      cbn [ocidir.removeDups].
      rewrite (bool_decide_eq_false_2 (S i < S i)%nat) by lia.
      rewrite take_ge, drop_ge by lia. by rewrite app_nil_l.
Qed.

(** The first loop stops at the first entry that passes the test. *)
Lemma findExisting_first (r : ref.Ref) (d : types.Descriptor)
    (pre post : list types.Descriptor) (im : types.Descriptor) :
  Forall (λ y, ¬ ocidir.sameEntry r d y) pre →
  ocidir.sameEntry r d im →
  ocidir.findExisting r d (pre ++ im :: post) = Some (length pre).
Proof.
  intros Hpre Him. unfold ocidir.findExisting.
  induction Hpre as [|y pre Hy _ IH]; simpl; case_decide; try done.
  destruct (list_find _ _) as [[i z]|]; simpl in *; congruence.
Qed.

Lemma findExisting_none (r : ref.Ref) (d : types.Descriptor)
    (ms : list types.Descriptor) :
  Forall (λ y, ¬ ocidir.sameEntry r d y) ms →
  ocidir.findExisting r d ms = None.
Proof.
  intros H. unfold ocidir.findExisting.
  induction H as [|y l Hy _ IH]; simpl; [done|].
  case_decide; [done|].
  destruct (list_find _ _) as [[i z]|]; simpl in *; congruence.
Qed.

(** The write reaches the entries that hold the map object of [d]. *)
Lemma sharesMap_Shares (shared : gset nat) (d : types.Descriptor) (i : nat)
    (im : types.Descriptor) :
  Is_true (ocidir.sharesMap shared d i im) ↔ Shares shared d i im.
Proof.
  unfold ocidir.sharesMap, Shares.
  rewrite !andb_True, !bool_decide_spec.
  rewrite <- not_eq_None_Some. tauto.
Qed.


Lemma lookup_written (shared : gset nat) (r : ref.Ref) (d : types.Descriptor)
    (ms : list types.Descriptor) (i : nat) :
  ref.Tag r ≠ "" →
  ocidir.written shared r d ms !! i
  = (λ im, if ocidir.sharesMap shared d i im then ocidir.annotate r im
           else im) <$> ms !! i.
Proof.
  intros Ht. unfold ocidir.written.
  rewrite bool_decide_eq_true_2 by done. apply list_lookup_imap.
Qed.

(** Without a tag nothing is written. *)
Lemma written_untagged (shared : gset nat) (r : ref.Ref)
    (d : types.Descriptor) (ms : list types.Descriptor) :
  ref.Tag r = "" → ocidir.written shared r d ms = ms.
Proof.
  intros Ht. unfold ocidir.written.
  by rewrite bool_decide_eq_false_2 by (by intros ?).
Qed.

(** The write changes no entry that does not hold the map object, and none
    that reads the tag already. *)
Lemma written_same (shared : gset nat) (r : ref.Ref) (d : types.Descriptor)
    (ms : list types.Descriptor) :
  (∀ i im, ms !! i = Some im → Shares shared d i im →
           ocidir.annotate r im = im) →
  ocidir.written shared r d ms = ms.
Proof.
  intros Hsame. destruct (decide (ref.Tag r = "")) as [Ht|Ht];
    [by apply written_untagged|].
  apply list_eq. intros i. rewrite lookup_written by done.
  destruct (ms !! i) as [im|] eqn:Hi; [|done]. simpl. f_equal.
  destruct (ocidir.sharesMap shared d i im) eqn:Hs; [|done].
  apply (Hsame i im Hi). apply sharesMap_Shares. by rewrite Hs.
Qed.

Lemma written_apart (shared : gset nat) (r : ref.Ref) (d : types.Descriptor)
    (ms : list types.Descriptor) :
  Apart shared d ms → ocidir.written shared r d ms = ms.
Proof.
  intros Hap. apply written_same. intros i im Hi Hs.
  by destruct (Hap i im Hi).
Qed.

(** [indexSet] on an index whose first matching entry, after the write, is
    [im]: [im] is replaced in place and the matching entries behind it are
    removed. *)
Lemma indexSet_replace (r : ref.Ref) (d : types.Descriptor) (index : v1.Index)
    (shared : gset nat) (pre post : list types.Descriptor)
    (im : types.Descriptor) :
  let d' := ocidir.annotate r d in
  ocidir.written shared r d (v1.entries index) = pre ++ im :: post →
  Forall (λ y, ¬ ocidir.sameEntry r d' y) pre →
  ocidir.sameEntry r d' im →
  ocidir.indexSet (Some index) r d shared
  = Returns
      (Some (v1.setManifests
               (pre ++ d' :: filter (λ y, ¬ ocidir.sameEntry r d' y) post)
               index),
       None).
Proof.
  intros d' Hms Hpre Him. unfold ocidir.indexSet. fold d'. rewrite Hms.
  rewrite findExisting_first by done.
  do 3 f_equal.
  rewrite insert_app_r_alt, Nat.sub_diag by lia. simpl.
  replace (length (pre ++ d' :: post) - 1)%nat
    with (length pre + length post)%nat
    by (rewrite length_app; simpl; lia).
  pose proof (removeDups_spec r d' (length pre) (length pre + length post)
                (pre ++ d' :: post) []) as E.
  rewrite app_nil_r in E.
  rewrite E by (rewrite ?length_app; simpl; lia).
  replace (S (length pre)) with (length (pre ++ [d'])) 
    by (rewrite length_app; simpl; lia).
  replace (pre ++ d' :: post) with ((pre ++ [d']) ++ post)
    by (by rewrite <- app_assoc).
  rewrite take_app_length, drop_app_length.
  by rewrite app_nil_r, <- app_assoc.
Qed.

(** [indexSet] on an index without a matching entry appends. *)
Lemma indexSet_append (r : ref.Ref) (d : types.Descriptor) (index : v1.Index)
    (shared : gset nat) :
  let d' := ocidir.annotate r d in
  let ms0 := ocidir.written shared r d (v1.entries index) in
  Forall (λ y, ¬ ocidir.sameEntry r d' y) ms0 →
  ocidir.indexSet (Some index) r d shared
  = Returns (Some (v1.setManifests (ms0 ++ [d']) index), None).
Proof.
  intros d' ms0 H. unfold ocidir.indexSet. fold d'. fold ms0.
  by rewrite findExisting_none.
Qed.

(** With a tag, [indexSet] applies the tie-break rule for the new
    descriptor. *)
Lemma annotated_Same (r : ref.Ref) (d im : types.Descriptor) :
  ref.Tag r ≠ "" →
  Is_true (ocidir.sameEntry r (ocidir.annotate r d) im)
  ↔ Same (ref.Tag r) d im.
Proof.
  intros Ht. rewrite sameEntry_annotate. by apply sameEntry_Same.
Qed.

Lemma filter_none {A : Type} (P : A → Prop) `{!∀ x, Decision (P x)}
    (l : list A) :
  Forall (λ y, ¬ P y) l → filter P l = [].
Proof.
  induction 1 as [|y l Hy _ IH]; [done|].
  by rewrite filter_cons_False.
Qed.

Lemma filter_all {A : Type} (P : A → Prop) `{!∀ x, Decision (P x)}
    (l : list A) :
  Forall P l → filter P l = l.
Proof.
  induction 1 as [|y l Hy _ IH]; [done|].
  rewrite filter_cons_True by done. by f_equal.
Qed.

Lemma Forall_filter_self {A : Type} (P : A → Prop) `{!∀ x, Decision (P x)}
    (l : list A) :
  Forall P (filter P l).
Proof. apply Forall_forall. intros x Hx. by apply list_elem_of_filter in Hx as [? _]. Qed.

(** Every list either has a first element with a decidable property or has
    none with it. *)
Lemma first_or_none {A : Type} (P : A → Prop) `{!∀ x, Decision (P x)}
    (l : list A) :
  (∃ x, FirstThat P l x) ∨ Forall (λ y, ¬ P y) l.
Proof.
  induction l as [|y l [[x (pre & post & -> & Hpre & Hx)]|IH]].
  - right. constructor.
  - destruct (decide (P y)) as [Hy|Hy].
    + left. exists y, [], (pre ++ x :: post). by repeat split.
    + left. exists x, (y :: pre), post. repeat split; [|done]. by constructor.
  - destruct (decide (P y)) as [Hy|Hy].
    + left. exists y, [], l. by repeat split.
    + right. by constructor.
Qed.


Lemma Same_named (t : string) (d im : types.Descriptor) :
  hasRefName t im → Same t d im.
Proof. intros H. by right. Qed.










(** ** The layout on disk: [valid] and [readIndex] *)

Section layout.
Context {FS File : Type}.
Context `{!rwfs.RWFS FS File, !PathJoin, !JSON v1.ImageLayout, !JSON v1.Index}.

(** [valid] accepts the directories with a good [oci-layout] file. *)
Lemma valid_ok (dir : string) (fs : FS) (log : list rwfs.Call) :
  LayoutOK dir fs →
  ocidir.valid dir (fs, log) = (None, (fs, log ++ validCalls dir)).
Proof.
  intros (fh & lb & layout & Ho & Hr & Hp & Hv).
  unfold ocidir.valid, mbind, State_bind, ocidir.fsOpen. rewrite Ho.
  unfold ocidir.ioReadAll, ocidir.fhClose. rewrite Hr. rewrite Hp. rewrite Hv.
  simpl. unfold validCalls. by rewrite <- !app_assoc.
Qed.

(** [valid] rejects every other directory with one of its four errors,
    leaves the filesystem as it was, and stops reading where it fails. *)
Lemma valid_fails (dir : string) (fs : FS) (log : list rwfs.Call) :
  ¬ LayoutOK dir fs →
  ∃ e calls,
    InvalidLayout e
    ∧ calls `prefix_of` validCalls dir
    ∧ ocidir.valid dir (fs, log) = (Some e, (fs, log ++ calls)).
Proof.
  intros Hbad.
  unfold ocidir.valid, mbind, State_bind, ocidir.fsOpen, ocidir.ioReadAll,
    ocidir.fhClose.
  destruct (rwfs.Open (path_Join dir ocidir.imageLayoutFile) fs)
    as [fh|cause] eqn:Ho.
  2: { eexists _, [_]. split; [|split]; cycle 2.
       - reflexivity.
       - constructor.
       - by eexists [_; _]. }
  destruct (rwfs.ReadAll fh fs) as [lb [cause|]] eqn:Hr.
  { eexists _, (validCalls dir). split; [|split]; cycle 2.
    - unfold validCalls. by rewrite <- !app_assoc.
    - constructor.
    - done. }
  destruct (json_Unmarshal lb {| v1.Version := "" |})
    as [layout [cause|]] eqn:Hp.
  { eexists _, (validCalls dir). split; [|split]; cycle 2.
    - unfold validCalls. by rewrite <- !app_assoc.
    - constructor.
    - done. }
  case_bool_decide as Hv.
  - eexists _, (validCalls dir). split; [|split]; cycle 2.
    + unfold validCalls. by rewrite <- !app_assoc.
    + by constructor.
    + done.
  - exfalso. apply Hbad. by exists fh, lb, layout.
Qed.

(** C6: [readIndex] validates the layout before anything else.  When the
    [oci-layout] file is missing, unreadable, not JSON, or declares another
    version than 1.0.0, [readIndex] fails with the error of [valid], one of
    the invalid-layout errors, returns the empty index, and has opened no
    other file; on a valid layout it goes on to open [index.json]. *)
Theorem readIndex_validates (r : ref.Ref) (fs : FS) (log : list rwfs.Call) :
  (¬ LayoutOK (ref.Path r) fs →
     ∃ e calls,
       InvalidLayout e
       ∧ calls `prefix_of` validCalls (ref.Path r)
       ∧ ocidir.valid (ref.Path r) (fs, log) = (Some e, (fs, log ++ calls))
       ∧ ocidir.readIndex r (fs, log)
         = ((v1.zero, Some e), (fs, log ++ calls)))
  ∧ (LayoutOK (ref.Path r) fs →
     ∃ res calls,
       ocidir.readIndex r (fs, log)
       = (res, (fs, log ++ validCalls (ref.Path r)
                        ++ rwfs.CallOpen (path_Join (ref.Path r) "index.json")
                        :: calls))).
Proof.
  split.
  - intros Hbad.
    destruct (valid_fails (ref.Path r) fs log Hbad) as (e & calls & He & Hc & Hv).
    exists e, calls. repeat split; try done.
    unfold ocidir.readIndex, mbind, State_bind. by rewrite Hv.
  - intros Hok.
    unfold ocidir.readIndex, mbind, State_bind.
    rewrite (valid_ok _ _ _ Hok).
    unfold ocidir.fsOpen, ocidir.ioReadAll, ocidir.fhClose.
    destruct (rwfs.Open (path_Join (ref.Path r) "index.json") fs) as [fh|cause].
    2: { eexists _, []. by rewrite <- app_assoc. }
    destruct (rwfs.ReadAll fh fs) as [ib [cause|]].
    { eexists _, [_; _]. by rewrite <- !app_assoc. }
    destruct (json_Unmarshal ib v1.zero) as [index [cause|]];
      eexists _, [_; _]; by rewrite <- !app_assoc.
Qed.

End layout.

Lemma readIndex_validates_witness :
  ocidir.readIndex (sample.byTag "v1") (sample.staleLayout, [])
  = ((v1.zero,
      Some (errors.Errorf
              "unsupported oci layout version, expected %s, received %s"
              ["1.0.0"; "0.9"])),
     (sample.staleLayout,
      [rwfs.CallOpen "layout/oci-layout"; rwfs.CallRead;
       rwfs.CallClose "layout/oci-layout"])).
Proof.
  destruct (proj1 (readIndex_validates (sample.byTag "v1")
                     sample.staleLayout []))
    as (e & calls & _ & _ & Hv & Hr).
  - intros (fh & lb & layout & Ho & Hr & Hp & Hv).
    vm_compute in Ho. injection Ho as <-.
    vm_compute in Hr. injection Hr as <-.
    vm_compute in Hp. injection Hp as <-.
    vm_compute in Hv. discriminate.
  - rewrite Hr. vm_compute in Hv. injection Hv as <- <-. reflexivity.
Defined.

(** ** The layout on disk: [writeIndex] *)

Section writeIndex.
Context {FS File : Type}.
Context `{!rwfs.RWFS FS File, !PathJoin, !JSON v1.ImageLayout, !JSON v1.Index}.

(** A run of [writeIndex] that ends by the rule [rule] of [InPlace]. *)
Local Ltac ends_by rule :=
  unfold mret, State_ret; simpl; rewrite <- ?app_assoc; simpl;
  eexists _, _, _;
  split; [reflexivity|];
  split; [eapply rule; eassumption|];
  split; [by repeat constructor|];
  split; [solve [by eexists [_; _] | by eexists [_] | by eexists []]|];
  try (intros [=]).

(** C5, as the code has it: [writeIndex] rewrites the layout in place.  It
    creates (replacing) [oci-layout] under its own name and writes it, then
    creates (replacing) [index.json] under its own name and writes the
    serialized index to it.  It stops at the first of these steps that
    fails and returns an error that wraps the error of that step; the
    filesystem is then as the failed call left it.  It creates no other
    file, so no temporary one, and renames nothing; a run without error has
    made both writes in full. *)
Theorem writeIndex_in_place (r : ref.Ref) (i : v1.Index) (fs : FS)
    (log : list rwfs.Call) :
  ∃ err fs' calls,
    ocidir.writeIndex r i (fs, log) = (err, (fs', log ++ calls))
    ∧ InPlace r i fs err fs' calls
    ∧ Forall (λ c, isRename c = false) calls
    ∧ created calls `prefix_of` [layoutPath r; indexPath r]
    ∧ (err = None → calls = writeCalls r i).
Proof.
  unfold ocidir.writeIndex.
  unfold mbind, State_bind, ocidir.fsCreate, ocidir.fhWrite, ocidir.fhClose.
  fold (layoutPath r). fold (indexPath r).
  destruct (json_Marshal {| v1.Version := "1.0.0" |}) as [lb [e|]] eqn:Hml.
  { eexists _, fs, []. rewrite app_nil_r. split; [reflexivity|].
    split; [eapply @layout_not_marshalled; eassumption|].
    split; [constructor|]. split; [by eexists [_; _] | intros [=]]. }
  simpl.
  destruct (rwfs.Create (layoutPath r) fs) as [[lfh|e] fs1] eqn:Hcl.
  2: { ends_by @layout_not_created. }
  destruct (rwfs.Write lfh lb fs1) as [[e|] fs2] eqn:Hwl.
  { ends_by @layout_not_written. }
  destruct (rwfs.Create (indexPath r) fs2) as [[fh|e] fs3] eqn:Hci.
  2: { ends_by @index_not_created. }
  destruct (json_Marshal i) as [b [e|]] eqn:Hmi.
  { ends_by @index_not_marshalled. }
  destruct (rwfs.Write fh b fs3) as [[e|] fs4] eqn:Hwi.
  { ends_by @index_not_written. }
  ends_by @both_written.
  unfold writeCalls. by rewrite Hml, Hmi.
Qed.

End writeIndex.

(** On the in-memory backend, a run of [writeIndex] without error leaves
    the serialized index in [index.json]. *)
Lemma writeIndex_mem_stores `{!PathJoin, !JSON v1.ImageLayout, !JSON v1.Index}
    (r : ref.Ref) (i : v1.Index) (fs fs' : rwfs.Mem)
    (log log' : list rwfs.Call) :
  ocidir.writeIndex r i (fs, log) = (None, (fs', log')) →
  rwfs.files fs' !! path_Join (ref.Path r) "index.json"
  = Some (json_Marshal i).1.
Proof.
  unfold ocidir.writeIndex.
  unfold mbind, State_bind, ocidir.fsCreate, ocidir.fhWrite.
  destruct (json_Marshal {| v1.Version := "1.0.0" |}) as [lb [e|]]; simpl;
    [discriminate|].
  case_bool_decide; simpl; [|discriminate].
  destruct (json_Marshal i) as [b [e|]]; simpl; [discriminate|].
  case_bool_decide; simpl; [|discriminate].
  intros [= <- _]. simpl. by rewrite !lookup_insert_eq.
Qed.

(** C5 fails as stated: on a volume with room for the layout file but not
    for the index, [writeIndex] returns the write error after it has
    replaced [index.json], whose earlier content is lost; it has created
    [index.json] under its own name and renamed nothing. *)
Lemma writeIndex_not_atomic :
  let old := list_byte_of_string "sha256:aa" in
  let new := sample.index [sample.entry "sha256:bb" (Some "v1")] in
  ∃ fs',
    rwfs.files sample.fullDisk !! "layout/index.json" = Some old
    ∧ ocidir.writeIndex (sample.byTag "v1") new (sample.fullDisk, [])
      = (Some (errors.ErrorfW "cannot write index: %w" [] rwfs.ENOSPC),
         (fs', [rwfs.CallCreate "layout/oci-layout";
                rwfs.CallWrite
                  (list_byte_of_string "{imageLayoutVersion:1.0.0}");
                rwfs.CallCreate "layout/index.json";
                rwfs.CallWrite (list_byte_of_string "sha256:bb");
                rwfs.CallClose "layout/index.json";
                rwfs.CallClose "layout/oci-layout"]))
    ∧ rwfs.files fs' !! "layout/index.json"
      = Some (list_byte_of_string "sha2")
    ∧ rwfs.files fs' !! "layout/index.json"
      ≠ rwfs.files sample.fullDisk !! "layout/index.json".
Proof.
  eexists. split; [vm_compute; reflexivity|].
  split; [vm_compute; reflexivity|].
  split; [vm_compute; reflexivity|].
  vm_compute. discriminate.
Qed.

(** ** Manifests: [docker2.go] *)

Section docker2.
Context `{!JSON schema2.Manifest, !JSON schema2.ManifestList, !Digester}.

(** C8: on a manifest list, [GetConfig] and [GetLayers] fail with an error
    that is [ErrUnsupportedMediaType]; on an image manifest,
    [GetManifestList] and [GetPlatformDesc] do; and on the variant that has
    them, [GetConfig], [GetLayers] and [GetManifestList] return the stored
    descriptors and no error. *)
Theorem accessors_by_variant (mi : manifest.docker2Manifest)
    (ml : manifest.docker2ManifestList) (p : option platform.Platform) :
  (∃ e, manifest.List.GetConfig ml = (types.zero, Some e)
        ∧ errors.Is e types.ErrUnsupportedMediaType = true)
  ∧ (∃ e, manifest.List.GetLayers ml = ([], Some e)
          ∧ errors.Is e types.ErrUnsupportedMediaType = true)
  ∧ (∃ e, manifest.Image.GetManifestList mi = ([], Some e)
          ∧ errors.Is e types.ErrUnsupportedMediaType = true)
  ∧ (∃ e, manifest.Image.GetPlatformDesc mi p = (None, Some e)
          ∧ errors.Is e types.ErrUnsupportedMediaType = true)
  ∧ manifest.Image.GetConfig mi
    = (schema2.Config (manifest.Manifest mi), None)
  ∧ manifest.Image.GetLayers mi
    = (schema2.Layers (manifest.Manifest mi), None)
  ∧ manifest.List.GetManifestList ml
    = (schema2.Manifests (manifest.ManifestList ml), None).
Proof.
  assert (∀ format c,
            errors.Is (manifest.notAvailable format c)
                      types.ErrUnsupportedMediaType = true) as Hkind.
  { intros format c. reflexivity. }
  repeat split; try (eexists; split; [reflexivity | apply Hkind]).
Qed.

(** [MarshalJSON] of a populated image manifest. *)
Lemma Image_MarshalJSON_populated (m : manifest.docker2Manifest) :
  manifest.manifSet (manifest.base m) = true →
  manifest.Image.MarshalJSON m
  = match manifest.rawBody (manifest.base m) with
    | [] => json_Marshal (manifest.Manifest m)
    | raw => (raw, None)
    end.
Proof.
  intros Hset. unfold manifest.Image.MarshalJSON. rewrite Hset. simpl.
  by destruct (manifest.rawBody (manifest.base m)).
Qed.

Lemma List_MarshalJSON_populated (m : manifest.docker2ManifestList) :
  manifest.manifSet (manifest.listBase m) = true →
  manifest.List.MarshalJSON m
  = match manifest.rawBody (manifest.listBase m) with
    | [] => json_Marshal (manifest.ManifestList m)
    | raw => (raw, None)
    end.
Proof.
  intros Hset. unfold manifest.List.MarshalJSON. rewrite Hset. simpl.
  by destruct (manifest.rawBody (manifest.listBase m)).
Qed.

(** What [SetOrig] leaves in an image manifest: the value with the media
    type of the variant, its serialization as raw body, and a descriptor
    for these bytes. *)
Lemma Image_SetOrig_ok (m m' : manifest.docker2Manifest) (v : schema2.Manifest) :
  manifest.Image.SetOrig m (manifest.AnyManifest v) = (m', None) →
  let stored := schema2.setMediaType types.MediaTypeDocker2Manifest v in
  ∃ mj,
    json_Marshal stored = (mj, None)
    ∧ manifest.Manifest m' = stored
    ∧ manifest.manifSet (manifest.base m') = true
    ∧ manifest.rawBody (manifest.base m') = mj
    ∧ manifest.desc (manifest.base m')
      = {| types.MediaType := types.MediaTypeDocker2Manifest;
           types.Digest := digest_FromBytes mj;
           types.Size := Z.of_nat (length mj);
           types.Annotations := None |}.
Proof.
  intros Hset stored. unfold manifest.Image.SetOrig in Hset.
  assert ((if bool_decide (schema2.MediaType v
                           ≠ types.MediaTypeDocker2Manifest)
           then schema2.setMediaType types.MediaTypeDocker2Manifest v
           else v) = stored) as E.
  { case_bool_decide as Hmt; [done|].
    unfold stored, schema2.setMediaType.
    rewrite <- Hmt. by destruct v. }
  rewrite E in Hset.
  destruct (json_Marshal stored) as [mj [err|]]; [done|].
  injection Hset as <-. by exists mj.
Qed.

Lemma List_SetOrig_ok (m m' : manifest.docker2ManifestList)
    (v : schema2.ManifestList) :
  manifest.List.SetOrig m (manifest.AnyManifestList v) = (m', None) →
  let stored :=
    schema2.setListMediaType types.MediaTypeDocker2ManifestList v in
  ∃ mj,
    json_Marshal stored = (mj, None)
    ∧ manifest.ManifestList m' = stored
    ∧ manifest.manifSet (manifest.listBase m') = true
    ∧ manifest.rawBody (manifest.listBase m') = mj
    ∧ manifest.desc (manifest.listBase m')
      = {| types.MediaType := types.MediaTypeDocker2ManifestList;
           types.Digest := digest_FromBytes mj;
           types.Size := Z.of_nat (length mj);
           types.Annotations := None |}.
Proof.
  intros Hset stored. unfold manifest.List.SetOrig in Hset.
  assert ((if bool_decide (schema2.ListMediaType v
                           ≠ types.MediaTypeDocker2ManifestList)
           then schema2.setListMediaType
                  types.MediaTypeDocker2ManifestList v
           else v) = stored) as E.
  { case_bool_decide as Hmt; [done|].
    unfold stored, schema2.setListMediaType.
    rewrite <- Hmt. by destruct v. }
  rewrite E in Hset.
  destruct (json_Marshal stored) as [mj [err|]]; [done|].
  injection Hset as <-. by exists mj.
Qed.

End docker2.

(** ** The registry client: [manifest.go] *)

Section regclient_manifest.
Context `{!PlatformMatcher}.
Context `{!JSON dockerSchema2.Manifest, !JSON dockerManifestList.ManifestList,
          !JSON ociv1.Manifest, !JSON ociv1.Index}.

(** The loop over a Docker manifest list. *)
Lemma rangeDocker_first (p : ociv1.Platform)
    (pre post : list dockerManifestList.ManifestDescriptor)
    (d : dockerManifestList.ManifestDescriptor) :
  let platformOf d := regclient.dlp2Platform (dockerManifestList.Platform d) in
  Forall (λ y, platforms_Match p (platformOf y) = false) pre →
  platforms_Match p (platformOf d) = true →
  firstWhere (λ d, platforms_Match p (platformOf d)) (pre ++ d :: post)
  = Some d.
Proof.
  intros platformOf Hpre Hd. apply firstWhere_first.
  exists pre, post. split; [done|].
  split; [|cbn beta; by rewrite Hd].
  eapply Forall_impl; [exact Hpre|].
  intros y Hy. cbn beta. rewrite Hy. simpl. tauto.
Qed.

Lemma rangeDocker_none (p : ociv1.Platform)
    (ms : list dockerManifestList.ManifestDescriptor) :
  let platformOf d := regclient.dlp2Platform (dockerManifestList.Platform d) in
  Forall (λ y, platforms_Match p (platformOf y) = false) ms →
  firstWhere (λ d, platforms_Match p (platformOf d)) ms = None.
Proof.
  intros platformOf Hms. apply firstWhere_none.
  eapply Forall_impl; [exact Hms|].
  intros y Hy. cbn beta. rewrite Hy. simpl. tauto.
Qed.

(** The loop over an OCI index. *)
Lemma rangeOCI_first (p : ociv1.Platform) (pre post : list ociv1.Descriptor)
    (d : ociv1.Descriptor) :
  Forall (platformIs (λ q, negb (platforms_Match p q))) pre →
  platformIs (platforms_Match p) d →
  regclient.rangeOCI p (pre ++ d :: post) = Returns (Some d, None).
Proof.
  intros Hpre (q & Hq & Hm).
  induction Hpre as [|y pre (qy & Hqy & Hy) _ IH]; simpl.
  - by rewrite Hq, Hm.
  - rewrite Hqy. by apply negb_true_iff in Hy as ->.
Qed.

Lemma rangeOCI_none (p : ociv1.Platform) (ms : list ociv1.Descriptor) :
  Forall (platformIs (λ q, negb (platforms_Match p q))) ms →
  regclient.rangeOCI p ms = Returns (None, Some regclient.ErrNotFound).
Proof.
  induction 1 as [|y ms (qy & Hqy & Hy) _ IH]; simpl; [done|].
  rewrite Hqy. by apply negb_true_iff in Hy as ->.
Qed.

(** The conversions copy every field. *)
Lemma dlp2Platform_SamePlatform (sp : dockerManifestList.PlatformSpec) :
  SamePlatform sp (regclient.dlp2Platform sp).
Proof. by repeat split. Qed.

Lemma SamePlatform_dlp2Platform (sp : dockerManifestList.PlatformSpec)
    (q : ociv1.Platform) :
  SamePlatform sp q → q = regclient.dlp2Platform sp.
Proof.
  destruct q. unfold SamePlatform, regclient.dlp2Platform. simpl.
  by intros (-> & -> & -> & -> & ->).
Qed.

Lemma dl2oDescriptor_Converted (sd : dockerManifestList.ManifestDescriptor) :
  Converted sd (regclient.dl2oDescriptor sd).
Proof.
  repeat split. eexists. split; [reflexivity|].
  apply dlp2Platform_SamePlatform.
Qed.

(** The lookup where the entries carry a platform: on a Docker manifest
    list, and on an OCI index as far as its entries carry one,
    [GetPlatformDesc] returns
    the first entry in declaration order whose platform matches the query,
    converted for a Docker list, and fails with [ErrNotFound] when no
    entry's platform matches; [ErrNotFound] is not
    [ErrUnsupportedMediaType], which is the answer for the media types that
    are not lists. *)
Lemma GetPlatformDesc_first_or_NotFound (m : regclient.manifest)
    (p : ociv1.Platform) :
  let matches q := platforms_Match p q in
  let differs q := negb (platforms_Match p q) in
  let dockerEntries := dockerManifestList.Manifests (regclient.dockerML m) in
  let ociEntries := ociv1.Manifests (regclient.ociML m) in
  (regclient.mt m = regclient.MediaTypeDocker2ManifestList →
     (∀ pre d post,
        dockerEntries = pre ++ d :: post →
        Forall (λ y, ∀ q, SamePlatform (dockerManifestList.Platform y) q →
                          differs q = true) pre →
        (∀ q, SamePlatform (dockerManifestList.Platform d) q →
              matches q = true) →
        ∃ od,
          regclient.GetPlatformDesc m (Some p) = Returns (Some od, None)
          ∧ Converted d od)
     ∧ (Forall (λ y, ∀ q, SamePlatform (dockerManifestList.Platform y) q →
                          differs q = true) dockerEntries →
        regclient.GetPlatformDesc m (Some p)
        = Returns (None, Some regclient.ErrNotFound)))
  ∧ (regclient.mt m = regclient.MediaTypeOCI1ManifestList →
     (∀ pre d post,
        ociEntries = pre ++ d :: post →
        Forall (platformIs differs) pre →
        platformIs matches d →
        regclient.GetPlatformDesc m (Some p) = Returns (Some d, None))
     ∧ (Forall (platformIs differs) ociEntries →
        regclient.GetPlatformDesc m (Some p)
        = Returns (None, Some regclient.ErrNotFound)))
  ∧ errors.Is regclient.ErrNotFound regclient.ErrUnsupportedMediaType = false
  ∧ (regclient.IsList m = false →
     regclient.GetPlatformDesc m (Some p)
     = Returns (None, Some regclient.ErrUnsupportedMediaType)).
Proof.
  intros matches differs dockerEntries ociEntries.
  split; [|split; [|split]].
  - intros Hmt. unfold regclient.GetPlatformDesc.
    rewrite Hmt, bool_decide_eq_true_2 by done.
    fold dockerEntries. split.
    + intros pre d post -> Hpre Hd.
      rewrite (rangeDocker_first p pre post d).
      * eexists. split; [reflexivity | apply dl2oDescriptor_Converted].
      * eapply Forall_impl; [exact Hpre|]. intros y Hy.
        apply negb_true_iff, Hy, dlp2Platform_SamePlatform.
      * apply Hd, dlp2Platform_SamePlatform.
    + intros Hall. rewrite rangeDocker_none; [done|].
      eapply Forall_impl; [exact Hall|]. intros y Hy.
      apply negb_true_iff, Hy, dlp2Platform_SamePlatform.
  - intros Hmt. unfold regclient.GetPlatformDesc.
    rewrite Hmt. simpl. fold ociEntries. split.
    + intros pre d post -> Hpre Hd. by apply rangeOCI_first.
    + apply rangeOCI_none.
  - reflexivity.
  - unfold regclient.IsList, regclient.GetPlatformDesc.
    by repeat case_bool_decide.
Qed.

End regclient_manifest.

(** C7 fails on the code: an OCI index may list an entry without
    platform, and on such an entry [GetPlatformDesc] dereferences a nil
    pointer and the call panics, where the claim has it fail with
    [ErrNotFound], as no entry's platform matches, or return the first
    entry that matches, as the second one does here. *)
Theorem GetPlatformDesc_nil_platform_panics :
  regclient.GetPlatformDesc
    (sample.ociIndex [sample.ociEntry "sha256:aa" None])
    (Some (sample.linux "amd64"))
  = Panics regclient.nilDereference
  ∧ regclient.GetPlatformDesc
      (sample.ociIndex
         [sample.ociEntry "sha256:aa" None;
          sample.ociEntry "sha256:bb" (Some (sample.linux "amd64"))])
      (Some (sample.linux "amd64"))
    = Panics regclient.nilDereference.
Proof. split; reflexivity. Qed.

(** The lookup on an index whose entries all carry a platform. *)
Lemma GetPlatformDesc_first_or_NotFound_example :
  regclient.GetPlatformDesc
    (sample.ociIndex [sample.ociEntry "sha256:aa" (Some (sample.linux "arm64"));
                      sample.ociEntry "sha256:bb" (Some (sample.linux "amd64"));
                      sample.ociEntry "sha256:cc" (Some (sample.linux "amd64"))])
    (Some (sample.linux "amd64"))
  = Returns (Some (sample.ociEntry "sha256:bb" (Some (sample.linux "amd64"))),
             None)
  ∧ regclient.GetPlatformDesc
      (sample.ociIndex [sample.ociEntry "sha256:aa"
                          (Some (sample.linux "arm64"))])
      (Some (sample.linux "amd64"))
    = Returns (None, Some regclient.ErrNotFound).
Proof.
  split.
  - apply (proj1 (proj1 (proj2 (GetPlatformDesc_first_or_NotFound
                                  (sample.ociIndex _) (sample.linux "amd64")))
                        eq_refl)
             [sample.ociEntry "sha256:aa" (Some (sample.linux "arm64"))]
             (sample.ociEntry "sha256:bb" (Some (sample.linux "amd64")))
             [sample.ociEntry "sha256:cc" (Some (sample.linux "amd64"))]).
    + reflexivity.
    + repeat constructor. eexists. split; reflexivity.
    + eexists. split; reflexivity.
  - apply (proj2 (proj1 (proj2 (GetPlatformDesc_first_or_NotFound
                                  (sample.ociIndex _) (sample.linux "amd64")))
                        eq_refl)).
    repeat constructor. eexists. split; reflexivity.
Defined.

(** ** The registry client: requests *)

Section regclient_requests.
Context `{!regclient.Client, !Digester}.
Context `{!JSON dockerSchema2.Manifest, !JSON dockerManifestList.ManifestList,
          !JSON ociv1.Manifest, !JSON ociv1.Index}.

(** C9: [ManifestDelete] on a reference without digest returns
    [ErrMissingDigest] and sends nothing; with a digest, and a host that
    has a DNS name, it sends one request, [DELETE] on
    [/v2/<repository>/manifests/<digest>], and nothing else over the
    network. *)
Theorem ManifestDelete_requires_digest (r : ref.Ref)
    (log : list regclient.Event) :
  (ref.Digest r = "" →
     regclient.ManifestDelete r log
     = (Returns (Some regclient.ErrMissingDigest), log))
  ∧ (ref.Digest r ≠ "" →
     ∀ dns0 rest,
       regclient.DNS (regclient.getHost (ref.Registry r)) = dns0 :: rest →
       ∃ err warnings,
         regclient.ManifestDelete r log
         = (Returns err,
            log ++ regclient.Sent "DELETE"
                     (manifestURL r dns0 (ref.Digest r)) regclient.acceptAll
                   :: warnings)
         ∧ Forall (λ e, isSent e = false) warnings).
Proof.
  unfold regclient.ManifestDelete. split.
  - intros Hd. by rewrite bool_decide_eq_true_2.
  - intros Hd dns0 rest Hdns.
    rewrite bool_decide_eq_false_2 by done. rewrite Hdns.
    unfold mbind, State_bind, regclient.doRequest, regclient.warn.
    fold (manifestURL r dns0 (ref.Digest r)).
    destruct (regclient.DoRequest _ _ _ _) as [resp|err].
    + case_bool_decide.
      * eexists _, [_]. rewrite <- app_assoc. split; [reflexivity|].
        by repeat constructor.
      * by eexists _, [].
    + by eexists _, [].
Qed.

(** The [switch] that parses the body touches none of these fields. *)
Lemma unmarshalBody_keeps (m m' : regclient.manifest) (err : option error) :
  regclient.unmarshalBody m = Some (m', err) →
  regclient.origByte m' = regclient.origByte m
  ∧ regclient.digest m' = regclient.digest m
  ∧ regclient.mt m' = regclient.mt m
  ∧ regclient.manifSet m' = regclient.manifSet m.
Proof.
  unfold regclient.unmarshalBody.
  repeat case_bool_decide;
    try (destruct (json_Unmarshal _ _) as [v e]); intros [= <- <-]; done.
Qed.

(** The manifests that [ManifestGet] returns: the body as received, its
    digest computed from these bytes, and the body marked as set. *)
Lemma ManifestGet_returns (r : ref.Ref) (log log' : list regclient.Event)
    (m : regclient.manifest) :
  regclient.ManifestGet r log = (Returns (Some m, None), log') →
  regclient.manifSet m = true
  ∧ regclient.digest m = digest_FromBytes (regclient.origByte m).
Proof.
  unfold regclient.ManifestGet.
  unfold mbind, State_bind, regclient.doRequest, regclient.warn.
  destruct (if bool_decide (ref.Digest r ≠ "") then _ else _) as [tod|];
    [|discriminate].
  destruct (regclient.DNS _) as [|dns0 rest]; [discriminate|].
  destruct (regclient.DoRequest _ _ _ _) as [resp|err]; [|discriminate].
  case_bool_decide; [discriminate|].
  destruct (retryable.ReadErr resp); [discriminate|].
  match goal with
  | |- context [regclient.unmarshalBody ?x] =>
      destruct (regclient.unmarshalBody x) as [[m' [e|]]|] eqn:Hu
  end.
  - case_bool_decide; discriminate.
  - apply unmarshalBody_keeps in Hu as (Hb & Hd & _ & _).
    case_bool_decide; intros [= <- _]; simpl in *;
      by rewrite Hb, Hd.
  - case_bool_decide; discriminate.
Qed.

(** C4, as the code has it: a manifest fetch that is answered with status
    200, a body that can be read, a supported [Content-Type] and a body
    that parses, returns the manifest with the digest computed over the
    received bytes and no error, whatever the [Docker-Content-Digest]
    header says.  A header that differs from the computed digest is
    reported by a warning in the log and in no other way. *)
Theorem ManifestGet_digest_header_warns (r : ref.Ref)
    (log : list regclient.Event) (tagOrDigest dns0 : string)
    (rest : list string) (resp : retryable.Response)
    (m' : regclient.manifest) :
  let computed := digest_FromBytes (retryable.Body resp) in
  let returned := retryable.Header resp "Docker-Content-Digest" in
  (if bool_decide (ref.Digest r ≠ "") then Some (ref.Digest r)
   else if bool_decide (ref.Tag r ≠ "") then Some (ref.Tag r)
   else None) = Some tagOrDigest →
  regclient.DNS (regclient.getHost (ref.Registry r)) = dns0 :: rest →
  regclient.DoRequest (regclient.getHost (ref.Registry r)) "GET"
    (manifestURL r dns0 tagOrDigest) regclient.acceptAll = inl resp →
  retryable.StatusCode resp = 200%Z →
  retryable.ReadErr resp = None →
  regclient.unmarshalBody
    (regclient.setMt (retryable.Header resp "Content-Type")
       (regclient.setBody (retryable.Body resp) computed regclient.zero))
  = Some (m', None) →
  let m := regclient.setManifSet true m' in
  regclient.ManifestGet r log
  = (Returns (Some m, None),
     log ++ regclient.Sent "GET" (manifestURL r dns0 tagOrDigest)
              regclient.acceptAll
         :: (if bool_decide (computed ≠ returned)
             then [regclient.Warned
                     "Computed digest does not match header from registry"
                     [regclient.FStr "computed" computed;
                      regclient.FStr "returned" returned]]
             else []))
  ∧ regclient.digest m = computed
  ∧ regclient.origByte m = retryable.Body resp.
Proof.
  intros computed returned Htod Hdns Hreq Hstatus Hread Hparse m.
  split.
  - unfold regclient.ManifestGet.
    unfold mbind, State_bind, regclient.doRequest, regclient.warn.
    rewrite Htod, Hdns. fold (manifestURL r dns0 tagOrDigest).
    rewrite Hreq, Hstatus, Hread. simpl.
    fold computed. fold returned.
    rewrite Hparse.
    destruct (bool_decide (computed ≠ returned)); simpl;
      unfold mret, State_ret; by rewrite <- ?app_assoc.
  - apply unmarshalBody_keeps in Hparse as (Hb & Hd & _ & _).
    unfold m. simpl. by rewrite Hb, Hd.
Qed.

(** C10: [MarshalJSON] of a manifest whose body was never set (neither
    parsed from bytes nor given by [SetOrig]) returns no bytes and an error
    that is [ErrUnavailable]: for the image manifest and the manifest list
    of [docker2.go], and for the manifest of the registry client. *)
Theorem MarshalJSON_unavailable
    `{!JSON schema2.Manifest, !JSON schema2.ManifestList} :
  (∀ m : manifest.docker2Manifest,
     manifest.manifSet (manifest.base m) = false →
     ∃ e, manifest.Image.MarshalJSON m = ([], Some e)
          ∧ errors.Is e types.ErrUnavailable = true)
  ∧ (∀ m : manifest.docker2ManifestList,
     manifest.manifSet (manifest.listBase m) = false →
     ∃ e, manifest.List.MarshalJSON m = ([], Some e)
          ∧ errors.Is e types.ErrUnavailable = true)
  ∧ (∀ m : regclient.manifest,
     regclient.manifSet m = false →
     regclient.MarshalJSON m = ([], Some regclient.ErrUnavailable)).
Proof.
  split; [|split].
  - intros m Hm. exists manifest.unavailable.
    unfold manifest.Image.MarshalJSON. by rewrite Hm.
  - intros m Hm. exists manifest.unavailable.
    unfold manifest.List.MarshalJSON. by rewrite Hm.
  - intros m Hm. unfold regclient.MarshalJSON. by rewrite Hm.
Qed.

(** C1, as the code has it: [MarshalJSON] of a populated manifest returns
    the raw body when there is one and the JSON serialization of the
    structured value otherwise.  [SetOrig(v)] sets the media type of [v] to
    the one of the variant and serializes that value: when the
    serialization fails, [SetOrig] returns its error; otherwise it succeeds,
    the manifest holds the value, [MarshalJSON] returns its serialization,
    and the descriptor holds the media type of the variant, the digest of
    exactly these bytes and their length. *)
Theorem marshal_digest
    `{!JSON schema2.Manifest, !JSON schema2.ManifestList} :
  (∀ m : manifest.docker2Manifest,
     manifest.manifSet (manifest.base m) = true →
     manifest.Image.MarshalJSON m
     = match manifest.rawBody (manifest.base m) with
       | [] => json_Marshal (manifest.Manifest m)
       | raw => (raw, None)
       end)
  ∧ (∀ m : manifest.docker2ManifestList,
     manifest.manifSet (manifest.listBase m) = true →
     manifest.List.MarshalJSON m
     = match manifest.rawBody (manifest.listBase m) with
       | [] => json_Marshal (manifest.ManifestList m)
       | raw => (raw, None)
       end)
  ∧ (∀ (m : manifest.docker2Manifest) (v : schema2.Manifest),
     let stored := schema2.setMediaType types.MediaTypeDocker2Manifest v in
     match json_Marshal stored with
     | (mj, None) =>
         ∃ m',
           manifest.Image.SetOrig m (manifest.AnyManifest v) = (m', None)
           ∧ manifest.Manifest m' = stored
           ∧ manifest.Image.MarshalJSON m' = (mj, None)
           ∧ manifest.desc (manifest.base m')
             = {| types.MediaType := types.MediaTypeDocker2Manifest;
                  types.Digest := digest_FromBytes mj;
                  types.Size := Z.of_nat (length mj);
                  types.Annotations := None |}
     | (_, Some e) =>
         manifest.Image.SetOrig m (manifest.AnyManifest v) = (m, Some e)
     end)
  ∧ (∀ (m : manifest.docker2ManifestList) (v : schema2.ManifestList),
     let stored :=
       schema2.setListMediaType types.MediaTypeDocker2ManifestList v in
     match json_Marshal stored with
     | (mj, None) =>
         ∃ m',
           manifest.List.SetOrig m (manifest.AnyManifestList v) = (m', None)
           ∧ manifest.ManifestList m' = stored
           ∧ manifest.List.MarshalJSON m' = (mj, None)
           ∧ manifest.desc (manifest.listBase m')
             = {| types.MediaType := types.MediaTypeDocker2ManifestList;
                  types.Digest := digest_FromBytes mj;
                  types.Size := Z.of_nat (length mj);
                  types.Annotations := None |}
     | (_, Some e) =>
         manifest.List.SetOrig m (manifest.AnyManifestList v) = (m, Some e)
     end).
Proof.
  split; [|split; [|split]].
  - apply Image_MarshalJSON_populated.
  - apply List_MarshalJSON_populated.
  - intros m v stored. unfold manifest.Image.SetOrig.
    assert ((if bool_decide (schema2.MediaType v
                             ≠ types.MediaTypeDocker2Manifest)
             then schema2.setMediaType types.MediaTypeDocker2Manifest v
             else v) = stored) as ->.
    { case_bool_decide as Hmt; [done|].
      unfold stored, schema2.setMediaType.
      rewrite <- Hmt. by destruct v. }
    destruct (json_Marshal stored) as [mj [e|]] eqn:Hj; [done|].
    eexists. split; [reflexivity|]. split; [done|]. split; [|done].
    rewrite Image_MarshalJSON_populated by done. simpl.
    by destruct mj.
  - intros m v stored. unfold manifest.List.SetOrig.
    assert ((if bool_decide (schema2.ListMediaType v
                             ≠ types.MediaTypeDocker2ManifestList)
             then schema2.setListMediaType
                    types.MediaTypeDocker2ManifestList v
             else v) = stored) as ->.
    { case_bool_decide as Hmt; [done|].
      unfold stored, schema2.setListMediaType.
      rewrite <- Hmt. by destruct v. }
    destruct (json_Marshal stored) as [mj [e|]] eqn:Hj; [done|].
    eexists. split; [reflexivity|]. split; [done|]. split; [|done].
    rewrite List_MarshalJSON_populated by done. simpl.
    by destruct mj.
Qed.

End regclient_requests.

(** ** The theorems above at the sample data *)

Lemma ManifestDelete_requires_digest_witness :
  regclient.ManifestDelete (sample.remote "v1" "") []
  = (Returns (Some regclient.ErrMissingDigest), [])
  ∧ ∃ err warnings,
      regclient.ManifestDelete (sample.remote "" "sha256:aa") []
      = (Returns err,
         [] ++ regclient.Sent "DELETE"
                 {| url.Scheme := "https"; url.Host := "registry.example";
                    url.Path := "/v2/proj/repo/manifests/sha256:aa" |}
                 regclient.acceptAll
               :: warnings)
      ∧ Forall (λ e, isSent e = false) warnings.
Proof.
  split.
  - apply (proj1 (ManifestDelete_requires_digest (sample.remote "v1" "") [])).
    reflexivity.
  - apply (proj2 (ManifestDelete_requires_digest
                    (sample.remote "" "sha256:aa") [])
             ltac:(discriminate) "registry.example" []).
    reflexivity.
Defined.

(** C4 fails as stated: the registry answers with a manifest, the empty
    JSON object, and the [Docker-Content-Digest] of another one;
    [ManifestGet] returns the manifest and no error, and the mismatch is a
    warning in the log. *)
Lemma ManifestGet_mismatch_no_error :
  ∃ m,
    regclient.ManifestGet (sample.remote "v1" "") []
    = (Returns (Some m, None),
       [regclient.Sent "GET"
          {| url.Scheme := "https"; url.Host := "registry.example";
             url.Path := "/v2/proj/repo/manifests/v1" |}
          regclient.acceptAll;
        regclient.Warned "Computed digest does not match header from registry"
          [regclient.FStr "computed" "text:{}";
           regclient.FStr "returned" "text:{stale}"]])
    ∧ regclient.digest m = "text:{}"
    ∧ retryable.Body (sample.answer 200 "{}") = list_byte_of_string "{}"
    ∧ retryable.Header (sample.answer 200 "{}") "Docker-Content-Digest"
      = "text:{stale}".
Proof. eexists. repeat split; vm_compute; reflexivity. Qed.

Lemma ManifestGet_digest_header_warns_witness :
  ∃ m,
    regclient.ManifestGet (sample.remote "v1" "") []
    = (Returns (Some m, None),
       [regclient.Sent "GET"
          {| url.Scheme := "https"; url.Host := "registry.example";
             url.Path := "/v2/proj/repo/manifests/v1" |}
          regclient.acceptAll;
        regclient.Warned "Computed digest does not match header from registry"
          [regclient.FStr "computed" "text:{}";
           regclient.FStr "returned" "text:{stale}"]])
    ∧ regclient.digest m = "text:{}"
    ∧ regclient.origByte m = list_byte_of_string "{}".
Proof.
  pose proof (ManifestGet_digest_header_warns (sample.remote "v1" "") []
                "v1" "registry.example" [] (sample.answer 200 "{}") _
                eq_refl eq_refl eq_refl eq_refl eq_refl eq_refl)
    as (Hget & Hdigest & Hbody).
  eexists. split; [exact Hget|]. split; [exact Hdigest | exact Hbody].
Defined.

Lemma MarshalJSON_unavailable_witness :
  (∃ e, manifest.Image.MarshalJSON sample.noImage = ([], Some e)
        ∧ errors.Is e types.ErrUnavailable = true)
  ∧ (∃ e, manifest.List.MarshalJSON sample.noList = ([], Some e)
          ∧ errors.Is e types.ErrUnavailable = true)
  ∧ regclient.MarshalJSON regclient.zero
    = ([], Some regclient.ErrUnavailable).
Proof.
  split; [|split].
  - apply (proj1 MarshalJSON_unavailable sample.noImage). reflexivity.
  - apply (proj1 (proj2 MarshalJSON_unavailable) sample.noList). reflexivity.
  - apply (proj2 (proj2 MarshalJSON_unavailable) regclient.zero). reflexivity.
Defined.

Lemma marshal_digest_witness :
  let text := "application/vnd.docker.distribution.manifest.v2+json;sha256:cf" in
  let listText :=
    "application/vnd.docker.distribution.manifest.list.v2+json;1" in
  (∃ m',
     manifest.Image.SetOrig sample.noImage (manifest.AnyManifest sample.image)
     = (m', None)
     ∧ manifest.Image.MarshalJSON m' = (list_byte_of_string text, None)
     ∧ manifest.desc (manifest.base m')
       = {| types.MediaType := types.MediaTypeDocker2Manifest;
            types.Digest := "text:" +:+ text;
            types.Size := 62;
            types.Annotations := None |})
  ∧ (∃ m',
     manifest.List.SetOrig sample.noList
       (manifest.AnyManifestList sample.imageList)
     = (m', None)
     ∧ manifest.List.MarshalJSON m' = (list_byte_of_string listText, None)
     ∧ manifest.desc (manifest.listBase m')
       = {| types.MediaType := types.MediaTypeDocker2ManifestList;
            types.Digest := "text:" +:+ listText;
            types.Size := 59;
            types.Annotations := None |}).
Proof.
  intros text listText. split.
  - pose proof (proj1 (proj2 (proj2 marshal_digest)) sample.noImage
                  sample.image) as Himage.
    cbv zeta in Himage.
    assert (json_Marshal
              (schema2.setMediaType types.MediaTypeDocker2Manifest
                 sample.image)
            = (list_byte_of_string text, None)) as Hj by reflexivity.
    rewrite Hj in Himage.
    destruct Himage as (m' & Hset & _ & Hm & Hd).
    exists m'. split; [exact Hset|]. split; [exact Hm|]. exact Hd.
  - pose proof (proj2 (proj2 (proj2 marshal_digest)) sample.noList
                  sample.imageList) as Hlist.
    cbv zeta in Hlist.
    assert (json_Marshal
              (schema2.setListMediaType types.MediaTypeDocker2ManifestList
                 sample.imageList)
            = (list_byte_of_string listText, None)) as Hj by reflexivity.
    rewrite Hj in Hlist.
    destruct Hlist as (m' & Hset & _ & Hm & Hd).
    exists m'. split; [exact Hset|]. split; [exact Hm|]. exact Hd.
Defined.

(** C1 fails as stated: [SetOrig] of a value that does not carry the media
    type of the variant stores the digest and the size of another
    serialization than that of the value it was given. *)
Lemma SetOrig_digest_not_of_given :
  ∃ m' b,
    manifest.Image.SetOrig sample.noImage (manifest.AnyManifest sample.image)
    = (m', None)
    ∧ json_Marshal sample.image = (b, None)
    ∧ types.Digest (manifest.desc (manifest.base m')) ≠ digest_FromBytes b
    ∧ types.Size (manifest.desc (manifest.base m')) ≠ Z.of_nat (length b).
Proof.
  eexists _, _. split; [reflexivity|]. split; [reflexivity|].
  split; vm_compute; discriminate.
Qed.

(* ===================================================================== *)
(** * Part III.  Further properties                                       *)
(* ===================================================================== *)

(** ** The index in memory *)

Lemma firstWhere_ext {A : Type} (f g : A → bool) (l : list A) :
  (∀ x, f x = g x) → firstWhere f l = firstWhere g l.
Proof.
  intros E. unfold firstWhere.
  induction l as [|y l IH]; simpl; [done|].
  rewrite E. destruct (decide (g y)); [done|].
  destruct (list_find (λ x, Is_true (f x)) l) as [[i z]|],
           (list_find (λ x, Is_true (g x)) l) as [[j w]|];
    simpl in *; congruence.
Qed.

Lemma firstWhere_cons {A : Type} (test : A → bool) (x : A) (l : list A) :
  firstWhere test (x :: l) = if test x then Some x else firstWhere test l.
Proof.
  unfold firstWhere. simpl. destruct (test x); simpl; [done|].
  by destruct (list_find _ l) as [[i z]|].
Qed.

(** A filter that keeps every element passing the test does not change
    which element is found first. *)
Lemma firstWhere_filter {A : Type} (test : A → bool) (Q : A → Prop)
    `{!∀ x, Decision (Q x)} (l : list A) :
  (∀ x, Is_true (test x) → Q x) →
  firstWhere test (filter Q l) = firstWhere test l.
Proof.
  intros Hkeep. induction l as [|y l IH]; [done|].
  rewrite firstWhere_cons. destruct (decide (Q y)) as [Hq|Hq].
  - rewrite filter_cons_True, firstWhere_cons by done. by rewrite IH.
  - rewrite filter_cons_False by done. rewrite IH.
    destruct (test y) eqn:Hy; [|done]. exfalso. apply Hq, Hkeep. by rewrite Hy.
Qed.

Lemma firstWhere_Some_inv {A : Type} (test : A → bool) (l : list A) (x : A) :
  firstWhere test l = Some x → x ∈ l ∧ Is_true (test x).
Proof.
  induction l as [|y l IH]; [done|].
  rewrite firstWhere_cons. destruct (test y) eqn:Hy.
  - intros [= <-]. split; [left | by rewrite Hy].
  - intros H. destruct (IH H) as [Hin Hx]. split; [by right | done].
Qed.

Lemma firstWhere_None_inv {A : Type} (test : A → bool) (l : list A) :
  firstWhere test l = None → Forall (λ y, ¬ Is_true (test y)) l.
Proof.
  induction l as [|y l IH]; [constructor|].
  rewrite firstWhere_cons. destruct (test y) eqn:Hy; [done|].
  intros H. constructor; [rewrite Hy; simpl; tauto | by apply IH].
Qed.

(** [indexGet] is the search for the first selected entry. *)
Lemma indexGet_firstWhere (index : v1.Index) (r : ref.Ref) :
  ocidir.indexGet index r
  = match firstWhere (selects r) (v1.entries index) with
    | Some im => (im, None)
    | None => (types.zero, Some types.ErrNotFound)
    end.
Proof.
  unfold ocidir.indexGet.
  assert (∀ t, firstWhere
                 (λ im, match types.annotation ocidir.aRefName im with
                        | Some name => bool_decide (name = t)
                        | None => false
                        end) (v1.entries index)
               = firstWhere (λ im, bool_decide (hasRefName t im))
                   (v1.entries index)) as Htag.
  { intros t. apply firstWhere_ext. intros im.
    apply eq_bool_prop_intro.
    by rewrite tagTest_hasRefName, bool_decide_spec. }
  unfold selects, effectiveTag.
  destruct (decide (ref.Digest r = "")) as [Hd|Hd],
           (decide (ref.Tag r = "")) as [Ht|Ht].
  - rewrite !(bool_decide_eq_true_2 (_ = "")) by done. simpl.
    rewrite (bool_decide_eq_false_2 (ref.Digest r ≠ "")) by (by intros ?).
    by rewrite Htag.
  - rewrite (bool_decide_eq_true_2 (ref.Digest r = "")) by done.
    rewrite (bool_decide_eq_false_2 (ref.Tag r = "")) by done. simpl.
    rewrite (bool_decide_eq_false_2 (ref.Digest r ≠ "")) by (by intros ?).
    rewrite (bool_decide_eq_true_2 (ref.Tag r ≠ "")) by done.
    by rewrite Htag.
  - rewrite (bool_decide_eq_false_2 (ref.Digest r = "")) by done. simpl.
    by rewrite (bool_decide_eq_true_2 (ref.Digest r ≠ "")) by done.
  - rewrite (bool_decide_eq_false_2 (ref.Digest r = "")) by done. simpl.
    by rewrite (bool_decide_eq_true_2 (ref.Digest r ≠ "")) by done.
Qed.

(** The index [indexSet] leaves behind, for every reference: the entries
    that fail its test, in their order, with the new descriptor among
    them. *)
Lemma indexSet_shape (r : ref.Ref) (d : types.Descriptor) (index : v1.Index)
    (shared : gset nat) :
  let d' := ocidir.annotate r d in
  ∃ pre post,
    ocidir.indexSet (Some index) r d shared
    = Returns (Some (v1.setManifests (pre ++ d' :: post) index), None)
    ∧ Forall (λ y, ¬ ocidir.sameEntry r d' y) pre
    ∧ Forall (λ y, ¬ ocidir.sameEntry r d' y) post
    ∧ filter (λ y, ¬ ocidir.sameEntry r d' y)
        (ocidir.written shared r d (v1.entries index))
      = pre ++ post.
Proof.
  intros d'.
  destruct (first_or_none (λ y, Is_true (ocidir.sameEntry r d' y))
              (ocidir.written shared r d (v1.entries index)))
    as [[im (pre & post & Hms & Hpre & Him)]|Hnone].
  - exists pre, (filter (λ y, ¬ ocidir.sameEntry r d' y) post).
    split; [by apply (indexSet_replace r d index shared pre post im)|].
    split; [done|]. split; [apply Forall_filter_self|].
    rewrite Hms, filter_app, filter_cons_False by tauto.
    by rewrite filter_all.
  - exists (ocidir.written shared r d (v1.entries index)), [].
    split; [by apply indexSet_append|].
    split; [done|]. split; [constructor|].
    by rewrite filter_all, app_nil_r.
Qed.

(** With a tag [indexSet] tests by the tie-break rule, without a tag by
    digest alone. *)
Lemma untagged_sameEntry (r : ref.Ref) (d im : types.Descriptor) :
  ref.Tag r = "" →
  Is_true (ocidir.sameEntry r d im) ↔ hasDigest (types.Digest d) im.
Proof.
  intros Ht. unfold ocidir.sameEntry, hasDigest.
  rewrite (bool_decide_eq_false_2 (ref.Tag r ≠ "")) by (by intros ?).
  simpl. rewrite andb_true_r, orb_false_r. apply bool_decide_spec.
Qed.

Lemma untagged_annotate (r : ref.Ref) (d : types.Descriptor) :
  ref.Tag r = "" → ocidir.annotate r d = d.
Proof.
  intros Ht. unfold ocidir.annotate.
  by rewrite (bool_decide_eq_false_2 (ref.Tag r ≠ "")) by (by intros ?).
Qed.

Lemma indexSet_tagged_shape (r : ref.Ref) (d : types.Descriptor)
    (index : v1.Index) (shared : gset nat) :
  ref.Tag r ≠ "" →
  ∃ pre post,
    ocidir.indexSet (Some index) r d shared
    = Returns (Some (v1.setManifests (pre ++ ocidir.annotate r d :: post)
                       index), None)
    ∧ Forall (λ y, ¬ Same (ref.Tag r) d y) pre
    ∧ Forall (λ y, ¬ Same (ref.Tag r) d y) post
    ∧ filter (λ y, ¬ Same (ref.Tag r) d y)
        (ocidir.written shared r d (v1.entries index))
      = pre ++ post.
Proof.
  intros Ht.
  destruct (indexSet_shape r d index shared)
    as (pre & post & Hset & Hpre & Hpost & Hf).
  exists pre, post. split; [done|].
  assert (∀ y, ¬ ocidir.sameEntry r (ocidir.annotate r d) y
               ↔ ¬ Same (ref.Tag r) d y) as E
    by (intros y; by rewrite annotated_Same).
  split; [eapply Forall_impl; [exact Hpre|]; intros y; apply E|].
  split; [eapply Forall_impl; [exact Hpost|]; intros y; apply E|].
  rewrite <- Hf. apply list_filter_iff. intros y. symmetry. apply E.
Qed.

Lemma indexSet_untagged_shape (r : ref.Ref) (d : types.Descriptor)
    (index : v1.Index) (shared : gset nat) :
  ref.Tag r = "" →
  ∃ pre post,
    ocidir.indexSet (Some index) r d shared
    = Returns (Some (v1.setManifests (pre ++ d :: post) index), None)
    ∧ Forall (λ y, ¬ hasDigest (types.Digest d) y) pre
    ∧ Forall (λ y, ¬ hasDigest (types.Digest d) y) post
    ∧ filter (λ y, ¬ hasDigest (types.Digest d) y) (v1.entries index)
      = pre ++ post.
Proof.
  intros Ht.
  destruct (indexSet_shape r d index shared)
    as (pre & post & Hset & Hpre & Hpost & Hf).
  rewrite (untagged_annotate r d Ht) in *.
  rewrite (written_untagged shared r d _ Ht) in Hf.
  exists pre, post. split; [done|].
  assert (∀ y, ¬ ocidir.sameEntry r d y ↔ ¬ hasDigest (types.Digest d) y) as E
    by (intros y; by rewrite untagged_sameEntry).
  split; [eapply Forall_impl; [exact Hpre|]; intros y; apply E|].
  split; [eapply Forall_impl; [exact Hpost|]; intros y; apply E|].
  rewrite <- Hf. apply list_filter_iff. intros y. symmetry. apply E.
Qed.

Lemma setManifests_entries (ms : list types.Descriptor) (index : v1.Index) :
  v1.entries (v1.setManifests ms index) = ms.
Proof. done. Qed.

(** What [indexGet] finds in a list with one marked entry. *)
Lemma indexGet_marked (index : v1.Index) (r : ref.Ref)
    (pre post : list types.Descriptor) (im : types.Descriptor) :
  Forall (λ y, ¬ Is_true (selects r y)) pre →
  Is_true (selects r im) →
  ocidir.indexGet (v1.setManifests (pre ++ im :: post) index) r = (im, None).
Proof.
  intros Hpre Him. rewrite indexGet_firstWhere, setManifests_entries.
  rewrite (firstWhere_first _ _ im); [done|]. by exists pre, post.
Qed.

Lemma selects_by_tag (r : ref.Ref) (im : types.Descriptor) :
  ref.Digest r = "" →
  Is_true (selects r im) ↔ hasRefName (effectiveTag r) im.
Proof.
  intros Hd. unfold selects.
  rewrite (bool_decide_eq_false_2 (ref.Digest r ≠ "")) by (by intros ?).
  apply bool_decide_spec.
Qed.

Lemma selects_by_digest (r : ref.Ref) (im : types.Descriptor) :
  ref.Digest r ≠ "" →
  Is_true (selects r im) ↔ hasDigest (ref.Digest r) im.
Proof.
  intros Hd. unfold selects, hasDigest.
  rewrite (bool_decide_eq_true_2 (ref.Digest r ≠ "")) by done.
  apply bool_decide_spec.
Qed.

Lemma effectiveTag_tagged (r : ref.Ref) :
  ref.Tag r ≠ "" → effectiveTag r = ref.Tag r.
Proof. intros Ht. unfold effectiveTag. by rewrite bool_decide_eq_false_2. Qed.

(** X1: a tag written by [indexSet] is read back by [indexGet]: after
    [indexSet(index, r, d)] with a reference that has a tag and no digest,
    [indexGet(index, r)] returns the descriptor as written, with the tag in
    its annotations, whichever entries hold the map of [d]. *)
Theorem indexSet_indexGet_by_tag (index : v1.Index) (r : ref.Ref)
    (d : types.Descriptor) (shared : gset nat) :
  ref.Tag r ≠ "" → ref.Digest r = "" →
  ∃ index',
    ocidir.indexSet (Some index) r d shared = Returns (Some index', None)
    ∧ ocidir.indexGet index' r = (ocidir.annotate r d, None).
Proof.
  intros Ht Hd.
  destruct (indexSet_tagged_shape r d index shared Ht)
    as (pre & post & Hset & Hpre & _ & _).
  eexists. split; [exact Hset|].
  apply indexGet_marked.
  - eapply Forall_impl; [exact Hpre|]. intros y Hy Hsel. apply Hy, Same_named.
    apply selects_by_tag in Hsel; [|done]. by rewrite effectiveTag_tagged in Hsel.
  - apply selects_by_tag; [done|]. rewrite effectiveTag_tagged by done.
    by apply annotate_hasRefName.
Qed.

(** X2: writing a tag leaves the other tags alone, when no entry of the
    index holds the map of the descriptor that is written.  After
    [indexSet] with tag [t], every entry that the tie-break rule does not
    identify with the new one is then kept, in order, and a lookup by any
    other tag returns what it returned before. *)
Theorem indexSet_keeps_other_tags (index : v1.Index) (r r2 : ref.Ref)
    (d : types.Descriptor) (shared : gset nat) :
  ref.Tag r ≠ "" → ref.Digest r2 = "" → effectiveTag r2 ≠ ref.Tag r →
  Apart shared d (v1.entries index) →
  ∃ index',
    ocidir.indexSet (Some index) r d shared = Returns (Some index', None)
    ∧ filter (λ y, ¬ Same (ref.Tag r) d y) (v1.entries index')
      = filter (λ y, ¬ Same (ref.Tag r) d y) (v1.entries index)
    ∧ ocidir.indexGet index' r2 = ocidir.indexGet index r2.
Proof.
  intros Ht Hd2 Hne Hap.
  destruct (indexSet_tagged_shape r d index shared Ht)
    as (pre & post & Hset & Hpre & Hpost & Hf).
  rewrite (written_apart shared r d _ Hap) in Hf.
  eexists. split; [exact Hset|].
  assert (filter (λ y, ¬ Same (ref.Tag r) d y)
            (pre ++ ocidir.annotate r d :: post) = pre ++ post) as Hf'.
  { rewrite filter_app, filter_cons_False.
    - by rewrite !filter_all.
    - intros Hn. apply Hn, Same_named. by apply annotate_hasRefName. }
  split; [by rewrite setManifests_entries, Hf', Hf|].
  assert (∀ x, Is_true (selects r2 x) → ¬ Same (ref.Tag r) d x) as Hkeep.
  { intros x Hx [[_ Hnone]|Hnamed]; apply selects_by_tag in Hx; try done;
      unfold hasRefName in *; congruence. }
  rewrite !indexGet_firstWhere, setManifests_entries.
  rewrite <- (firstWhere_filter (selects r2) _ (pre ++ _ :: post) Hkeep).
  rewrite <- (firstWhere_filter (selects r2) _ (v1.entries index) Hkeep).
  by rewrite Hf', Hf.
Qed.

(** X3: [indexSet] with a reference without tag goes by digest alone.  It
    leaves exactly one entry with the digest of the new descriptor, the
    descriptor as given: every earlier entry of that digest is replaced or
    removed, whatever tag it carried.  Entries of other digests are kept in
    order, and [indexGet] by that digest returns the new descriptor. *)
Theorem indexSet_by_digest_only (index : v1.Index) (r : ref.Ref)
    (d : types.Descriptor) (shared : gset nat) :
  ref.Tag r = "" →
  ∃ index',
    ocidir.indexSet (Some index) r d shared = Returns (Some index', None)
    ∧ filter (hasDigest (types.Digest d)) (v1.entries index') = [d]
    ∧ filter (λ y, ¬ hasDigest (types.Digest d) y) (v1.entries index')
      = filter (λ y, ¬ hasDigest (types.Digest d) y) (v1.entries index)
    ∧ (ref.Digest r = types.Digest d → ref.Digest r ≠ "" →
       ocidir.indexGet index' r = (d, None)).
Proof.
  intros Ht.
  destruct (indexSet_untagged_shape r d index shared Ht)
    as (pre & post & Hset & Hpre & Hpost & Hf).
  eexists. split; [exact Hset|]. rewrite setManifests_entries.
  split; [|split].
  - rewrite filter_app, filter_cons_True by done.
    by rewrite !filter_none.
  - rewrite Hf, filter_app, filter_cons_False by (intros Hn; by apply Hn).
    by rewrite !filter_all.
  - intros Hd Hne. apply indexGet_marked.
    + eapply Forall_impl; [exact Hpre|]. intros y Hy Hsel. apply Hy.
      apply selects_by_digest in Hsel; [|done]. by rewrite <- Hd.
    + apply selects_by_digest; [done|]. by rewrite Hd.
Qed.

(** X4: [indexSet] does not default an empty reference to the tag
    ["latest"], as [indexGet] does.  A descriptor written under a reference
    with neither tag nor digest is stored without tag, and unless an entry
    named ["latest"] is in the index, reading the same reference back fails
    with [ErrNotFound]. *)
Theorem indexSet_bare_not_read_back (index : v1.Index) (r : ref.Ref)
    (d : types.Descriptor) (shared : gset nat) :
  ref.Tag r = "" → ref.Digest r = "" →
  ¬ hasRefName "latest" d →
  Forall (λ y, ¬ hasRefName "latest" y) (v1.entries index) →
  ∃ index',
    ocidir.indexSet (Some index) r d shared = Returns (Some index', None)
    ∧ d ∈ v1.entries index'
    ∧ ocidir.indexGet index' r = (types.zero, Some types.ErrNotFound).
Proof.
  intros Ht Hd Hdl Hall.
  destruct (indexSet_untagged_shape r d index shared Ht)
    as (pre & post & Hset & _ & _ & Hf).
  eexists. split; [exact Hset|]. rewrite setManifests_entries.
  split; [set_solver|].
  rewrite indexGet_firstWhere, setManifests_entries.
  rewrite firstWhere_none; [done|].
  assert (Forall (λ y, ¬ hasRefName "latest" y) (pre ++ post)) as Hpp.
  { rewrite <- Hf. apply Forall_forall. intros y Hy.
    apply list_elem_of_filter in Hy as [_ Hy].
    by eapply Forall_forall in Hall. }
  apply Forall_app in Hpp as [Hp1 Hp2].
  assert (effectiveTag r = "latest") as Hl
    by (unfold effectiveTag; by rewrite bool_decide_eq_true_2).
  apply Forall_app. split; [|constructor].
  - eapply Forall_impl; [exact Hp1|]. intros y Hy Hsel. apply Hy.
    apply selects_by_tag in Hsel; [|done]. by rewrite Hl in Hsel.
  - intros Hsel. apply Hdl.
    apply selects_by_tag in Hsel; [|done]. by rewrite Hl in Hsel.
  - eapply Forall_impl; [exact Hp2|]. intros y Hy Hsel. apply Hy.
    apply selects_by_tag in Hsel; [|done]. by rewrite Hl in Hsel.
Qed.


(** X6: what [indexGet] returns without error is an entry of the index
    that carries the digest of the reference, or without digest its tag,
    ["latest"] for an empty tag; what it returns with an error is the zero
    descriptor and [ErrNotFound]. *)
Theorem indexGet_sound (index : v1.Index) (r : ref.Ref) :
  match ocidir.indexGet index r with
  | (im, None) =>
      im ∈ v1.entries index
      ∧ if bool_decide (ref.Digest r ≠ "")
        then hasDigest (ref.Digest r) im
        else hasRefName (effectiveTag r) im
  | (im, Some e) => im = types.zero ∧ e = types.ErrNotFound
  end.
Proof.
  rewrite indexGet_firstWhere.
  destruct (firstWhere _ _) as [im|] eqn:Hf; [|done].
  apply firstWhere_Some_inv in Hf as [Hin Hsel]. split; [done|].
  case_bool_decide.
  - by apply selects_by_digest in Hsel.
  - by apply selects_by_tag in Hsel.
Qed.

(** ** Examples for the index properties *)

(** The descriptor was read from the index under the tag [v1] and is
    written back under [v2]; the entry at position 0 holds its map. *)
Lemma indexSet_indexGet_by_tag_witness :
  ∃ index',
    ocidir.indexSet (Some (sample.index sample.tags)) (sample.byTag "v2")
      (sample.entry "sha256:aa" (Some "v1")) {[ 0%nat ]}
    = Returns (Some index', None)
    ∧ ocidir.indexGet index' (sample.byTag "v2")
      = (sample.entry "sha256:aa" (Some "v2"), None).
Proof.
  apply (indexSet_indexGet_by_tag (sample.index sample.tags)
           (sample.byTag "v2") (sample.entry "sha256:aa" (Some "v1"))
           {[ 0%nat ]}).
  - discriminate.
  - reflexivity.
Defined.

Lemma indexSet_keeps_other_tags_witness :
  ∃ index',
    ocidir.indexSet (Some (sample.index sample.dups)) (sample.byTag "v1")
      (sample.entry "sha256:cc" None) ∅
    = Returns (Some index', None)
    ∧ filter (λ y, ¬ Same "v1" (sample.entry "sha256:cc" None) y)
        (v1.entries index')
      = filter (λ y, ¬ Same "v1" (sample.entry "sha256:cc" None) y)
          sample.dups
    ∧ ocidir.indexGet index' (sample.byTag "v2")
      = ocidir.indexGet (sample.index sample.dups) (sample.byTag "v2").
Proof.
  apply (indexSet_keeps_other_tags (sample.index sample.dups)
           (sample.byTag "v1") (sample.byTag "v2")
           (sample.entry "sha256:cc" None) ∅).
  - discriminate.
  - reflexivity.
  - vm_compute. discriminate.
  - intros i im _ [Hin _]. exact (not_elem_of_empty i Hin).
Defined.

Lemma indexSet_by_digest_only_witness :
  ∃ index',
    ocidir.indexSet (Some (sample.index sample.tags))
      (sample.byDigest "sha256:bb") (sample.entry "sha256:bb" None) ∅
    = Returns (Some index', None)
    ∧ filter (hasDigest "sha256:bb") (v1.entries index')
      = [sample.entry "sha256:bb" None]
    ∧ filter (λ y, ¬ hasDigest "sha256:bb" y) (v1.entries index')
      = [sample.entry "sha256:aa" (Some "v1")]
    ∧ ocidir.indexGet index' (sample.byDigest "sha256:bb")
      = (sample.entry "sha256:bb" None, None).
Proof.
  destruct (indexSet_by_digest_only (sample.index sample.tags)
              (sample.byDigest "sha256:bb") (sample.entry "sha256:bb" None)
              ∅)
    as (index' & Hset & Hone & Hothers & Hget); [reflexivity|].
  exists index'. split; [exact Hset|]. split; [exact Hone|].
  split; [exact Hothers|]. apply Hget; [reflexivity|discriminate].
Defined.

Lemma indexSet_bare_not_read_back_witness :
  ∃ index',
    ocidir.indexSet (Some (sample.index sample.dups)) sample.bare
      (sample.entry "sha256:dd" None) ∅
    = Returns (Some index', None)
    ∧ sample.entry "sha256:dd" None ∈ v1.entries index'
    ∧ ocidir.indexGet index' sample.bare
      = (types.zero, Some types.ErrNotFound).
Proof.
  apply (indexSet_bare_not_read_back (sample.index sample.dups) sample.bare
           (sample.entry "sha256:dd" None) ∅).
  - reflexivity.
  - reflexivity.
  - vm_compute. discriminate.
  - repeat constructor; vm_compute; discriminate.
Defined.

(** ** The layout on disk *)

(** [fmt.Errorf] with [%w] wraps its cause. *)
Lemma ErrorfW_wraps (format : string) (args : list string) (cause : error) :
  errors.Is (errors.ErrorfW format args cause) cause = true.
Proof.
  simpl. rewrite orb_true_iff. right.
  destruct cause; simpl; by rewrite bool_decide_eq_true_2.
Qed.

(** X7: on the in-memory backend, an index written by [writeIndex] is read
    back by [readIndex].  When the two files of the layout have different
    paths, the volume has room for both, and JSON decodes what it encoded
    for the layout and for this index, [writeIndex] succeeds on any
    directory, whatever it held, and [readIndex] then returns the index
    without error. *)
Theorem writeIndex_readIndex_mem
    `{!PathJoin, !JSON v1.ImageLayout, !JSON v1.Index}
    (r : ref.Ref) (i : v1.Index) (fs : rwfs.Mem) (log : list rwfs.Call)
    (lb b : bytes) :
  path_Join (ref.Path r) ocidir.imageLayoutFile
    ≠ path_Join (ref.Path r) "index.json" →
  json_Marshal {| v1.Version := "1.0.0" |} = (lb, None) →
  json_Unmarshal lb {| v1.Version := "" |}
    = ({| v1.Version := "1.0.0" |}, None) →
  json_Marshal i = (b, None) →
  json_Unmarshal b v1.zero = (i, None) →
  (length lb + length b ≤ rwfs.space fs)%nat →
  ∃ fs' log',
    ocidir.writeIndex r i (fs, log) = (None, (fs', log'))
    ∧ ∃ log'', ocidir.readIndex r (fs', log') = ((i, None), (fs', log'')).
Proof.
  intros Hpath Hml Hul Hmi Hui Hspace.
  set (lay := path_Join (ref.Path r) ocidir.imageLayoutFile) in *.
  set (idx := path_Join (ref.Path r) "index.json") in *.
  set (M := <[idx:=b]> (<[idx:=[]]> (<[lay:=lb]> (<[lay:=[]]> (rwfs.files fs))))).
  assert (M !! lay = Some lb) as Hlay.
  { unfold M. rewrite lookup_insert_ne by done.
    rewrite lookup_insert_ne by done. apply lookup_insert_eq. }
  assert (M !! idx = Some b) as Hidx by apply lookup_insert_eq.
  exists {| rwfs.files := M;
            rwfs.space := rwfs.space fs - length lb - length b |}.
  eexists. split.
  - unfold ocidir.writeIndex.
    unfold mbind, State_bind, ocidir.fsCreate, ocidir.fhWrite.
    rewrite Hml. fold lay. fold idx. simpl.
    rewrite lookup_insert_eq. simpl.
    rewrite bool_decide_eq_true_2 by lia. simpl.
    rewrite Hmi. simpl.
    rewrite lookup_insert_eq. simpl.
    rewrite bool_decide_eq_true_2 by lia. simpl.
    reflexivity.
  - clearbody M. subst lay idx.
    unfold ocidir.readIndex, ocidir.valid.
    unfold mbind, State_bind, ocidir.fsOpen, ocidir.ioReadAll. simpl.
    repeat (progress (rewrite ?Hlay, ?Hidx, ?Hul, ?Hui; simpl)).
    by eexists.
Qed.

(** X8: [readIndex] only reads, and closes what it opened.  Whatever the
    backend and whatever it returns, every call it makes opens a file,
    reads an open file or closes one; it creates, writes, renames and
    removes nothing.  The first file it asks for is [oci-layout], and the
    files it closes are, in this order, the files it asked for and could
    open. *)
Theorem readIndex_reads_only {FS File : Type}
    `{!rwfs.RWFS FS File, !PathJoin, !JSON v1.ImageLayout, !JSON v1.Index}
    (r : ref.Ref) (fs : FS) (log : list rwfs.Call) :
  ∃ res fs' calls,
    ocidir.readIndex r (fs, log) = (res, (fs', log ++ calls))
    ∧ head calls = Some (rwfs.CallOpen (layoutPath r))
    ∧ Forall (λ c, isReadCall c = true) calls
    ∧ closed calls = filter (λ name, Is_true (opens fs name)) (opened calls).
Proof.
  unfold ocidir.readIndex, ocidir.valid.
  unfold mbind, State_bind, ocidir.fsOpen, ocidir.ioReadAll, ocidir.fhClose.
  fold (layoutPath r). fold (indexPath r).
  assert (∀ (A : Type) (a : A) (w : FS * list rwfs.Call),
            mret (M := State (FS * list rwfs.Call)) a w = (a, w)) as Hret
    by done.
  destruct (rwfs.Open (layoutPath r) fs) as [fh|cause] eqn:Ho.
  2: { eexists _, _, [_]. split; [reflexivity|]. split; [done|].
       split; [by repeat constructor|]. simpl.
       rewrite filter_cons_False; [done|]. unfold opens. rewrite Ho.
       exact id. }
  assert (Is_true (opens fs (layoutPath r))) as Hlay
    by (unfold opens; by rewrite Ho).
  destruct (rwfs.ReadAll fh fs) as [lb [cause|]].
  { rewrite !Hret. rewrite <- !app_assoc. eexists _, _, _.
    split; [reflexivity|]. split; [done|].
    split; [by repeat constructor|]. simpl.
    by rewrite filter_cons_True. }
  destruct (json_Unmarshal lb {| v1.Version := "" |}) as [layout [cause|]].
  { rewrite !Hret. rewrite <- !app_assoc. eexists _, _, _.
    split; [reflexivity|]. split; [done|].
    split; [by repeat constructor|]. simpl.
    by rewrite filter_cons_True. }
  case_bool_decide.
  { rewrite !Hret. rewrite <- !app_assoc. eexists _, _, _.
    split; [reflexivity|]. split; [done|].
    split; [by repeat constructor|]. simpl.
    by rewrite filter_cons_True. }
  rewrite !Hret.
  destruct (rwfs.Open (indexPath r) fs) as [fh2|cause] eqn:Ho2.
  2: { rewrite !Hret. rewrite <- !app_assoc. eexists _, _, _.
       split; [reflexivity|]. split; [done|].
       split; [by repeat constructor|]. simpl.
       rewrite filter_cons_True by done.
       rewrite filter_cons_False; [done|]. unfold opens. rewrite Ho2.
       exact id. }
  assert (Is_true (opens fs (indexPath r))) as Hidx
    by (unfold opens; by rewrite Ho2).
  destruct (rwfs.ReadAll fh2 fs) as [ib [cause|]].
  { rewrite !Hret. rewrite <- !app_assoc. eexists _, _, _.
    split; [reflexivity|]. split; [done|].
    split; [by repeat constructor|]. simpl.
    by rewrite !filter_cons_True. }
  destruct (json_Unmarshal ib v1.zero) as [index [cause|]];
    rewrite !Hret; rewrite <- !app_assoc; eexists _, _, _;
    (split; [reflexivity|]); (split; [done|]);
    (split; [by repeat constructor|]); simpl;
    by rewrite !filter_cons_True.
Qed.

(** X9: the errors of [readIndex].  Every error of [readIndex] comes from
    one step: opening, reading or parsing [oci-layout], its version, or
    opening, reading or parsing [index.json].  Apart from the error for a
    layout version other than 1.0.0, the error wraps the error that this
    very call returned, where [errors.Is] finds it.  With the error comes
    the empty index, except when [index.json] fails to parse: then what the
    decoder left in the index is returned. *)
Theorem readIndex_errors {FS File : Type}
    `{!rwfs.RWFS FS File, !PathJoin, !JSON v1.ImageLayout, !JSON v1.Index}
    (r : ref.Ref) (fs : FS) (log log' : list rwfs.Call) (fs' : FS)
    (index : v1.Index) (e : error) :
  ocidir.readIndex r (fs, log) = ((index, Some e), (fs', log')) →
  ∃ cause,
    ReadFails r fs index e cause
    ∧ ∀ c, cause = Some c → errors.Is e c = true.
Proof.
  unfold ocidir.readIndex, ocidir.valid.
  unfold mbind, State_bind, ocidir.fsOpen, ocidir.ioReadAll, ocidir.fhClose.
  fold (layoutPath r). fold (indexPath r).
  assert (∀ format args c0 c,
            Some c0 = Some c → errors.Is (errors.ErrorfW format args c0) c = true)
    as Hwraps by (intros format args c0 c [= <-]; apply ErrorfW_wraps).
  destruct (rwfs.Open (layoutPath r) fs) as [fh|cause] eqn:Ho.
  { destruct (rwfs.ReadAll fh fs) as [lb [cause|]] eqn:Hr.
    { intros [= <- <- _ _]. eexists. split; [|apply Hwraps].
      by eapply @layout_not_read. }
    destruct (json_Unmarshal lb {| v1.Version := "" |})
      as [layout [cause|]] eqn:Hp.
    { intros [= <- <- _ _]. eexists. split; [|apply Hwraps].
      by eapply @layout_not_parsed. }
    case_bool_decide as Hv.
    { intros [= <- <- _ _]. eexists.
      split; [by eapply @layout_of_other_version | done]. }
    assert (LayoutOK (ref.Path r) fs) as Hok.
    { exists fh, lb, layout. by repeat split. }
    cbn [mret State_ret].
    destruct (rwfs.Open (indexPath r) fs) as [fh2|cause] eqn:Ho2.
    { destruct (rwfs.ReadAll fh2 fs) as [ib [cause|]] eqn:Hr2.
      { intros [= <- <- _ _]. eexists. split; [|apply Hwraps].
        by eapply @index_not_read. }
      destruct (json_Unmarshal ib v1.zero) as [index2 [cause|]] eqn:Hp2;
        [|discriminate].
      intros [= <- <- _ _]. eexists. split; [|apply Hwraps].
      by eapply @index_not_parsed. }
    intros [= <- <- _ _]. eexists. split; [|apply Hwraps].
    by eapply @index_not_opened. }
  intros [= <- <- _ _]. eexists. split; [|apply Hwraps].
  by eapply @layout_not_opened.
Qed.

(** ** Examples for the layout on disk *)

Lemma writeIndex_readIndex_mem_witness :
  ∃ fs' log',
    ocidir.writeIndex (sample.byTag "v1")
      (v1.setManifests [sample.entry "sha256:aa" None] v1.zero)
      (sample.staleLayout, [])
    = (None, (fs', log'))
    ∧ ∃ log'',
        ocidir.readIndex (sample.byTag "v1") (fs', log')
        = ((v1.setManifests [sample.entry "sha256:aa" None] v1.zero, None),
           (fs', log'')).
Proof.
  apply (writeIndex_readIndex_mem (sample.byTag "v1")
           (v1.setManifests [sample.entry "sha256:aa" None] v1.zero)
           sample.staleLayout []
           (list_byte_of_string "{imageLayoutVersion:1.0.0}")
           (list_byte_of_string "sha256:aa")).
  - vm_compute. discriminate.
  - reflexivity.
  - reflexivity.
  - reflexivity.
  - reflexivity.
  - vm_compute. lia.
Defined.

Lemma readIndex_errors_witness :
  ∃ cause,
    ReadFails (sample.byTag "v1") sample.noIndex v1.zero
      (errors.ErrorfW "%s cannot be open: %w" ["layout/index.json"]
         rwfs.ErrNotExist)
      cause
    ∧ ∀ c, cause = Some c
           → errors.Is
               (errors.ErrorfW "%s cannot be open: %w" ["layout/index.json"]
                  rwfs.ErrNotExist) c = true.
Proof.
  apply (readIndex_errors (sample.byTag "v1") sample.noIndex []
           [rwfs.CallOpen "layout/oci-layout"; rwfs.CallRead;
            rwfs.CallClose "layout/oci-layout";
            rwfs.CallOpen "layout/index.json"]
           sample.noIndex v1.zero
           (errors.ErrorfW "%s cannot be open: %w" ["layout/index.json"]
              rwfs.ErrNotExist)).
  vm_compute. reflexivity.
Defined.

(** ** The layout object *)

(** X10: the options of [New].  A layout made without options has garbage
    collection on, the discarding logger and no filesystem, and no
    reference is marked as modified in any new layout.  An option given
    last decides its setting and leaves the other two as the options
    before it made them. *)
Theorem New_options {FS Logger : Type} (discard : Logger)
    (opts : list (ocidir.Opts FS Logger)) :
  let o := ocidir.New discard opts in
  ocidir.New (FS := FS) discard []
  = {| ocidir.fs := None; ocidir.log := discard; ocidir.gc := true;
       ocidir.modRefs := ∅ |}
  ∧ ocidir.modRefs o = ∅
  ∧ (∀ b, ocidir.New discard (opts ++ [ocidir.WithGC b])
          = {| ocidir.fs := ocidir.fs o; ocidir.log := ocidir.log o;
               ocidir.gc := b; ocidir.modRefs := ∅ |})
  ∧ (∀ f, ocidir.New discard (opts ++ [ocidir.WithFS f])
          = {| ocidir.fs := f; ocidir.log := ocidir.log o;
               ocidir.gc := ocidir.gc o; ocidir.modRefs := ∅ |})
  ∧ (∀ l, ocidir.New discard (opts ++ [ocidir.WithLog l])
          = {| ocidir.fs := ocidir.fs o; ocidir.log := l;
               ocidir.gc := ocidir.gc o; ocidir.modRefs := ∅ |}).
Proof.
  intros o. unfold o, ocidir.New.
  repeat split; intros; by rewrite foldl_snoc.
Qed.

(** X11: [refMod] keeps one reference for each path, the last one marked.
    After any run of [refMod] calls, the modified references hold, for
    every path, the last reference marked with that path, or what they
    held before when no reference with the path was marked; the settings
    of the layout are untouched. *)
Theorem refMod_keeps_last {FS Logger : Type} (o : ocidir.OCIDir FS Logger)
    (rs : list ref.Ref) (p : string) :
  let o' := foldl ocidir.refMod o rs in
  ocidir.modRefs o' !! p
  = match last (filter (λ r, ref.Path r = p) rs) with
    | Some r => Some r
    | None => ocidir.modRefs o !! p
    end
  ∧ ocidir.fs o' = ocidir.fs o
  ∧ ocidir.log o' = ocidir.log o
  ∧ ocidir.gc o' = ocidir.gc o.
Proof.
  induction rs as [|r rs IH] using rev_ind; [done|].
  rewrite foldl_snoc, filter_app. simpl.
  destruct IH as (Hm & Hf & Hl & Hg). repeat split; try done.
  destruct (decide (ref.Path r = p)) as [Hp|Hp].
  - rewrite filter_cons_True, filter_nil, last_snoc by done.
    rewrite <- Hp. apply lookup_insert_eq.
  - rewrite filter_cons_False, filter_nil, app_nil_r by done.
    by rewrite lookup_insert_ne.
Qed.

(** ** Manifests: [SetOrig] and [GetOrig] *)

Section docker2_more.
Context `{!JSON schema2.Manifest, !JSON schema2.ManifestList, !Digester}.

(** X12: a failing [SetOrig] changes nothing.  [SetOrig] succeeds only on a
    value of its own variant; given a value of another type it returns
    [ErrUnsupportedMediaType], and whenever it returns an error the
    manifest is as it was before the call. *)
Theorem SetOrig_failure_keeps (mi : manifest.docker2Manifest)
    (ml : manifest.docker2ManifestList) (origIn : manifest.any) :
  match manifest.Image.SetOrig mi origIn with
  | (mi', Some e) =>
      mi' = mi
      ∧ match origIn with
        | manifest.AnyManifest v =>
            ∃ mj, json_Marshal
                    (schema2.setMediaType types.MediaTypeDocker2Manifest v)
                  = (mj, Some e)
        | _ => e = types.ErrUnsupportedMediaType
        end
  | (mi', None) => ∃ v, origIn = manifest.AnyManifest v
  end
  ∧ match manifest.List.SetOrig ml origIn with
    | (ml', Some e) =>
        ml' = ml
        ∧ match origIn with
          | manifest.AnyManifestList v =>
              ∃ mj, json_Marshal
                      (schema2.setListMediaType
                         types.MediaTypeDocker2ManifestList v)
                    = (mj, Some e)
          | _ => e = types.ErrUnsupportedMediaType
          end
    | (ml', None) => ∃ v, origIn = manifest.AnyManifestList v
    end.
Proof.
  assert (∀ v, (if bool_decide (schema2.MediaType v
                                ≠ types.MediaTypeDocker2Manifest)
                then schema2.setMediaType types.MediaTypeDocker2Manifest v
                else v)
               = schema2.setMediaType types.MediaTypeDocker2Manifest v) as E1.
  { intros v. case_bool_decide as Hmt; [done|].
    unfold schema2.setMediaType. rewrite <- Hmt. by destruct v. }
  assert (∀ v, (if bool_decide (schema2.ListMediaType v
                                ≠ types.MediaTypeDocker2ManifestList)
                then schema2.setListMediaType
                       types.MediaTypeDocker2ManifestList v
                else v)
               = schema2.setListMediaType
                   types.MediaTypeDocker2ManifestList v) as E2.
  { intros v. case_bool_decide as Hmt; [done|].
    unfold schema2.setListMediaType. rewrite <- Hmt. by destruct v. }
  unfold manifest.Image.SetOrig, manifest.List.SetOrig.
  destruct origIn as [v|v|t]; simpl; rewrite ?E1, ?E2.
  - destruct (json_Marshal _) as [mj [e|]]; eauto.
  - destruct (json_Marshal _) as [mj [e|]]; eauto.
  - done.
Qed.

(** X13: what [SetOrig] stores is what the accessors return.  After
    [SetOrig(v)] on an image manifest, [GetOrig] returns [v] under the
    media type of the variant, [GetConfig] and [GetLayers] return the
    descriptors of [v], the descriptor's media type is that of the stored
    value, the reference is kept, and [SetOrig(GetOrig())] leaves the
    manifest as it is; likewise for a manifest list and
    [GetManifestList]. *)
Theorem SetOrig_GetOrig :
  (∀ (m m' : manifest.docker2Manifest) (v : schema2.Manifest),
     manifest.Image.SetOrig m (manifest.AnyManifest v) = (m', None) →
     manifest.Image.GetOrig m'
     = manifest.AnyManifest
         (schema2.setMediaType types.MediaTypeDocker2Manifest v)
     ∧ manifest.Image.GetConfig m' = (schema2.Config v, None)
     ∧ manifest.Image.GetLayers m' = (schema2.Layers v, None)
     ∧ types.MediaType (manifest.desc (manifest.base m'))
       = schema2.MediaType (manifest.Manifest m')
     ∧ manifest.r (manifest.base m') = manifest.r (manifest.base m)
     ∧ manifest.Image.SetOrig m' (manifest.Image.GetOrig m') = (m', None))
  ∧ (∀ (m m' : manifest.docker2ManifestList) (v : schema2.ManifestList),
     manifest.List.SetOrig m (manifest.AnyManifestList v) = (m', None) →
     manifest.List.GetOrig m'
     = manifest.AnyManifestList
         (schema2.setListMediaType types.MediaTypeDocker2ManifestList v)
     ∧ manifest.List.GetManifestList m' = (schema2.Manifests v, None)
     ∧ types.MediaType (manifest.desc (manifest.listBase m'))
       = schema2.ListMediaType (manifest.ManifestList m')
     ∧ manifest.r (manifest.listBase m') = manifest.r (manifest.listBase m)
     ∧ manifest.List.SetOrig m' (manifest.List.GetOrig m') = (m', None)).
Proof.
  split.
  - intros m m' v Hset.
    assert ((if bool_decide (schema2.MediaType v
                             ≠ types.MediaTypeDocker2Manifest)
             then schema2.setMediaType types.MediaTypeDocker2Manifest v
             else v)
            = schema2.setMediaType types.MediaTypeDocker2Manifest v) as E.
    { case_bool_decide as Hmt; [done|].
      unfold schema2.setMediaType. rewrite <- Hmt. by destruct v. }
    unfold manifest.Image.SetOrig in Hset. rewrite E in Hset.
    destruct (json_Marshal _) as [mj [e|]] eqn:Hj; [done|].
    injection Hset as <-.
    repeat split.
    unfold manifest.Image.GetOrig, manifest.Image.SetOrig. simpl.
    by rewrite Hj.
  - intros m m' v Hset.
    assert ((if bool_decide (schema2.ListMediaType v
                             ≠ types.MediaTypeDocker2ManifestList)
             then schema2.setListMediaType
                    types.MediaTypeDocker2ManifestList v
             else v)
            = schema2.setListMediaType
                types.MediaTypeDocker2ManifestList v) as E.
    { case_bool_decide as Hmt; [done|].
      unfold schema2.setListMediaType. rewrite <- Hmt. by destruct v. }
    unfold manifest.List.SetOrig in Hset. rewrite E in Hset.
    destruct (json_Marshal _) as [mj [e|]] eqn:Hj; [done|].
    injection Hset as <-.
    repeat split.
    unfold manifest.List.GetOrig, manifest.List.SetOrig. simpl.
    by rewrite Hj.
Qed.

End docker2_more.

Lemma SetOrig_GetOrig_witness :
  ∃ m',
    manifest.Image.SetOrig sample.noImage (manifest.AnyManifest sample.image)
    = (m', None)
    ∧ manifest.Image.GetLayers m' = ([sample.entry "sha256:l1" None], None)
    ∧ manifest.Image.SetOrig m' (manifest.Image.GetOrig m') = (m', None).
Proof.
  destruct (manifest.Image.SetOrig sample.noImage
              (manifest.AnyManifest sample.image)) as [m' [e|]] eqn:Hset.
  - vm_compute in Hset. discriminate Hset.
  - exists m'. split; [reflexivity|].
    destruct (proj1 SetOrig_GetOrig sample.noImage m' sample.image Hset)
      as (_ & _ & Hlayers & _ & _ & Hagain).
    split; [exact Hlayers | exact Hagain].
Defined.

(** ** The registry client's manifest *)

Section regclient_more.
Context `{!PlatformMatcher}.
Context `{!JSON dockerSchema2.Manifest, !JSON dockerManifestList.ManifestList,
          !JSON ociv1.Manifest, !JSON ociv1.Index}.

(** Two different media types for one manifest. *)
Local Ltac mt_clash :=
  exfalso;
  match goal with
  | H1 : regclient.mt ?m = _, H2 : regclient.mt ?m = _ |- _ =>
      rewrite H1 in H2; discriminate H2
  end.

(** X14: the media type decides which accessors answer.  On a list media
    type [GetLayers] and [GetConfigDigest] fail with
    [ErrUnsupportedMediaType]; on an image media type they return what the
    manifest holds and the manifest is no list; and the two always fail or
    succeed together.  None of them looks at whether the body was set. *)
Theorem image_accessors_by_media_type (m : regclient.manifest) :
  (regclient.IsList m = true →
     regclient.GetLayers m = ([], Some regclient.ErrUnsupportedMediaType)
     ∧ regclient.GetConfigDigest m
       = ("", Some regclient.ErrUnsupportedMediaType))
  ∧ (regclient.mt m = regclient.MediaTypeDocker2Manifest →
     regclient.IsList m = false
     ∧ regclient.GetLayers m
       = (regclient.d2oDescriptor <$> dockerSchema2.Layers (regclient.dockerM m),
          None)
     ∧ regclient.GetConfigDigest m
       = (dockerDistribution.Digest
            (dockerSchema2.Config (regclient.dockerM m)), None))
  ∧ (regclient.mt m = regclient.MediaTypeOCI1Manifest →
     regclient.IsList m = false
     ∧ regclient.GetLayers m = (ociv1.Layers (regclient.ociM m), None)
     ∧ regclient.GetConfigDigest m
       = (ociv1.Digest (ociv1.Config (regclient.ociM m)), None))
  ∧ (regclient.GetLayers m).2 = (regclient.GetConfigDigest m).2.
Proof.
  unfold regclient.IsList, regclient.GetLayers, regclient.GetConfigDigest.
  split; [|split; [|split]].
  - repeat case_bool_decide; try done; mt_clash.
  - intros ->. done.
  - intros ->. done.
  - repeat case_bool_decide; try done; mt_clash.
Qed.

(** What the loop over an OCI index returns is an entry it matched. *)
Lemma rangeOCI_sound (p : ociv1.Platform) (ms : list ociv1.Descriptor)
    (od : option ociv1.Descriptor) (oe : option error) :
  regclient.rangeOCI p ms = Returns (od, oe) →
  (∃ d, od = Some d ∧ oe = None ∧ d ∈ ms ∧ platformIs (platforms_Match p) d)
  ∨ (od = None ∧ oe = Some regclient.ErrNotFound).
Proof.
  induction ms as [|y ms IH]; simpl.
  - intros [= <- <-]. by right.
  - destruct (ociv1.Platform' y) as [q|] eqn:Hq; [|done].
    destruct (platforms_Match p q) eqn:Hm.
    + intros [= <- <-]. left. exists y. repeat split; [left|]. by exists q.
    + intros Hr. destruct (IH Hr) as [(d & -> & -> & Hin & Hd)|[-> ->]];
        [left|by right].
      exists d. repeat split; [by right | done].
Qed.

(** X15: what [GetPlatformDesc] returns.  A descriptor it returns comes
    with no error, from an entry of the list or index, and carries a
    platform that matches the query; an error it returns comes with no
    descriptor and is [ErrNotFound] on a list and
    [ErrUnsupportedMediaType] on every other media type. *)
Theorem GetPlatformDesc_sound (m : regclient.manifest) (p : ociv1.Platform)
    (od : option ociv1.Descriptor) (oe : option error) :
  regclient.GetPlatformDesc m (Some p) = Returns (od, oe) →
  (∃ d, od = Some d ∧ oe = None
        ∧ regclient.IsList m = true
        ∧ platformIs (platforms_Match p) d
        ∧ (d ∈ ociv1.Manifests (regclient.ociML m)
           ∨ ∃ sd, sd ∈ dockerManifestList.Manifests (regclient.dockerML m)
                   ∧ d = regclient.dl2oDescriptor sd))
  ∨ (od = None
     ∧ oe = Some (if regclient.IsList m then regclient.ErrNotFound
                  else regclient.ErrUnsupportedMediaType)).
Proof.
  unfold regclient.GetPlatformDesc, regclient.IsList.
  case_bool_decide as Hd.
  - destruct (firstWhere _ _) as [sd|] eqn:Hf.
    + intros [= <- <-]. left. apply firstWhere_Some_inv in Hf as [Hin Hm].
      eexists. repeat split; [|right; by exists sd].
      eexists. split; [reflexivity|]. by apply Is_true_eq_true.
    + intros [= <- <-]. by right.
  - case_bool_decide as Ho.
    + intros Hr. apply rangeOCI_sound in Hr
        as [(d & -> & -> & Hin & Hm)|[-> ->]]; [left|by right].
      exists d. repeat split; [done|by left].
    + intros [= <- <-]. by right.
Qed.

(** X16: [GetPlatformList] lists the platform of every entry, in order.
    For a populated Docker manifest list or OCI index it returns one
    platform for each entry, at the position of the entry: the platform
    pointer of the entry for an index, nil included, and for a Docker list
    a platform that says what the platform of the entry says.  The platform
    of every descriptor that [GetPlatformDesc] returns is among them.
    Unlike [GetPlatformDesc] it asks for the body: without one it fails
    with [ErrUnavailable], and on a populated manifest that is no list with
    [ErrUnsupportedMediaType]. *)
Theorem GetPlatformList_entries (m : regclient.manifest) :
  (regclient.manifSet m = false →
     regclient.GetPlatformList m = ([], Some regclient.ErrUnavailable))
  ∧ (regclient.manifSet m = true → regclient.IsList m = false →
     regclient.GetPlatformList m
     = ([], Some regclient.ErrUnsupportedMediaType))
  ∧ (regclient.manifSet m = true → regclient.IsList m = true →
     ∃ l,
       regclient.GetPlatformList m = (l, None)
       ∧ (regclient.mt m = regclient.MediaTypeDocker2ManifestList →
          Forall2 (λ op sd, ∃ q, op = Some q
                                 ∧ SamePlatform
                                     (dockerManifestList.Platform sd) q)
            l (dockerManifestList.Manifests (regclient.dockerML m)))
       ∧ (regclient.mt m ≠ regclient.MediaTypeDocker2ManifestList →
          Forall2 (λ op d, op = ociv1.Platform' d)
            l (ociv1.Manifests (regclient.ociML m)))
       ∧ ∀ p d,
           regclient.GetPlatformDesc m (Some p) = Returns (Some d, None) →
           ociv1.Platform' d ∈ l).
Proof.
  unfold regclient.GetPlatformList, regclient.IsList.
  split; [|split].
  - by intros ->.
  - intros ->. simpl. by repeat case_bool_decide.
  - intros ->. simpl. intros Hl.
    unfold regclient.GetPlatformDesc.
    case_bool_decide as Hd.
    + eexists. split; [reflexivity|].
      split; [|split; [done|]].
      * intros _. apply Forall2_fmap_l, Forall_Forall2_diag, Forall_forall.
        intros sd _. eexists. split; [reflexivity|].
        apply dlp2Platform_SamePlatform.
      * intros p d.
        destruct (firstWhere _ _) as [sd|] eqn:Hf; [|done].
        intros [= <-]. apply firstWhere_Some_inv in Hf as [Hin _].
        apply list_elem_of_fmap. by exists sd.
    + case_bool_decide as Ho; [|done].
      eexists. split; [reflexivity|].
      split; [done|]. split.
      * intros _. apply Forall2_fmap_l, Forall_Forall2_diag, Forall_forall.
        by intros d _.
      * intros p d Hr.
        apply rangeOCI_sound in Hr as [(d' & Hd' & _ & Hin & _)|[? _]];
          [|done].
        injection Hd' as <-. apply list_elem_of_fmap. by exists d.
Qed.

(** X17: [MarshalJSON] and [GetOrigManifest] agree on the media types.  For
    a populated manifest that holds no raw bytes, [MarshalJSON] serializes
    the value that [GetOrigManifest] returns, and fails with
    [ErrUnsupportedMediaType] exactly when [GetOrigManifest] returns nil;
    without a body, [GetOrigManifest] returns nil. *)
Theorem MarshalJSON_GetOrigManifest (m : regclient.manifest) :
  (regclient.manifSet m = false → regclient.GetOrigManifest m = regclient.OrigNil)
  ∧ (regclient.manifSet m = true → regclient.origByte m = [] →
     regclient.MarshalJSON m
     = match regclient.GetOrigManifest m with
       | regclient.OrigNil => ([], Some regclient.ErrUnsupportedMediaType)
       | regclient.OrigDockerM v => json_Marshal v
       | regclient.OrigDockerML v => json_Marshal v
       | regclient.OrigOciM v => json_Marshal v
       | regclient.OrigOciML v => json_Marshal v
       end).
Proof.
  unfold regclient.GetOrigManifest, regclient.MarshalJSON. split.
  - by intros ->.
  - intros -> ->. simpl. by repeat case_bool_decide.
Qed.

End regclient_more.

Lemma image_accessors_by_media_type_witness :
  regclient.GetLayers (sample.ociIndex [])
  = ([], Some regclient.ErrUnsupportedMediaType)
  ∧ regclient.GetConfigDigest (sample.ociIndex [])
    = ("", Some regclient.ErrUnsupportedMediaType).
Proof.
  apply (proj1 (image_accessors_by_media_type (sample.ociIndex []))).
  reflexivity.
Defined.

Lemma GetPlatformDesc_sound_witness :
  regclient.GetPlatformDesc
    (sample.ociIndex
       [sample.ociEntry "sha256:aa" (Some (sample.linux "arm64"));
        sample.ociEntry "sha256:bb" (Some (sample.linux "amd64"))])
    (Some (sample.linux "amd64"))
  = Returns (Some (sample.ociEntry "sha256:bb" (Some (sample.linux "amd64"))),
             None)
  ∧ platformIs (platforms_Match (sample.linux "amd64"))
      (sample.ociEntry "sha256:bb" (Some (sample.linux "amd64"))).
Proof.
  assert (regclient.GetPlatformDesc
            (sample.ociIndex
               [sample.ociEntry "sha256:aa" (Some (sample.linux "arm64"));
                sample.ociEntry "sha256:bb" (Some (sample.linux "amd64"))])
            (Some (sample.linux "amd64"))
          = Returns (Some (sample.ociEntry "sha256:bb"
                             (Some (sample.linux "amd64"))), None)) as Hget.
  { reflexivity. }
  split; [exact Hget|].
  destruct (GetPlatformDesc_sound _ _ _ _ Hget)
    as [(d & Hd & _ & _ & Hmatch & _)|[Hnone _]].
  - injection Hd as <-. exact Hmatch.
  - discriminate Hnone.
Defined.

Lemma GetPlatformList_entries_witness :
  ∃ l,
    regclient.GetPlatformList
      (sample.ociIndex
         [sample.ociEntry "sha256:aa" (Some (sample.linux "arm64"));
          sample.ociEntry "sha256:bb" None])
    = (l, None)
    ∧ Forall2 (λ op d, op = ociv1.Platform' d) l
        [sample.ociEntry "sha256:aa" (Some (sample.linux "arm64"));
         sample.ociEntry "sha256:bb" None].
Proof.
  destruct (proj2 (proj2 (GetPlatformList_entries
                            (sample.ociIndex
                               [sample.ociEntry "sha256:aa"
                                  (Some (sample.linux "arm64"));
                                sample.ociEntry "sha256:bb" None])))
              eq_refl eq_refl)
    as (l & Hlist & _ & Hoci & _).
  exists l. split; [exact Hlist|]. apply Hoci. discriminate.
Defined.

Lemma MarshalJSON_GetOrigManifest_witness :
  regclient.MarshalJSON (sample.ociIndex [])
  = (list_byte_of_string "{ociML}", None).
Proof.
  rewrite (proj2 (MarshalJSON_GetOrigManifest (sample.ociIndex []))
             eq_refl eq_refl).
  reflexivity.
Defined.

(** ** The registry client's requests *)

Section requests_more.
Context `{!regclient.Client, !Digester, !DigestParser}.
Context `{!JSON dockerSchema2.Manifest, !JSON dockerManifestList.ManifestList,
          !JSON ociv1.Manifest, !JSON ociv1.Index}.

(** X18: a reference with neither tag nor digest is refused before any
    request.  [ManifestGet] and [ManifestHead] return
    [ErrMissingTagOrDigest], [ManifestDelete] returns [ErrMissingDigest],
    and [ManifestPut], once its host has a DNS name, returns
    [ErrMissingTag]; each logs a warning at most and sends nothing. *)
Theorem bare_reference_refused (r : ref.Ref) (m : regclient.manifest)
    (log : list regclient.Event) :
  ref.Tag r = "" → ref.Digest r = "" →
  regclient.ManifestGet r log
  = (Returns (None, Some regclient.ErrMissingTagOrDigest),
     log ++ [regclient.Warned "Manifest requires a tag or digest"
               [regclient.FStr "ref" (ref.Reference r)]])
  ∧ regclient.ManifestHead r log
    = (Returns (None, Some regclient.ErrMissingTagOrDigest),
       log ++ [regclient.Warned "Manifest requires a tag or digest"
                 [regclient.FStr "ref" (ref.Reference r)]])
  ∧ regclient.ManifestDelete r log
    = (Returns (Some regclient.ErrMissingDigest), log)
  ∧ (regclient.DNS (regclient.getHost (ref.Registry r)) ≠ [] →
     regclient.ManifestPut r m log
     = (Returns (Some regclient.ErrMissingTag),
        log ++ [regclient.Warned "Manifest put requires a tag"
                  [regclient.FStr "ref" (ref.Reference r)]])).
Proof.
  intros Ht Hd.
  unfold regclient.ManifestGet, regclient.ManifestHead,
    regclient.ManifestDelete, regclient.ManifestPut.
  rewrite !(bool_decide_eq_false_2 (ref.Digest r ≠ ""))
    by (by intros ?).
  rewrite !(bool_decide_eq_false_2 (ref.Tag r ≠ "")) by (by intros ?).
  rewrite (bool_decide_eq_true_2 (ref.Digest r = "")) by done.
  repeat split.
  intros Hdns.
  by destruct (regclient.DNS _).
Qed.

(** The successful runs of [ManifestGet]. *)
Lemma ManifestGet_inv (r : ref.Ref) (log log' : list regclient.Event)
    (m : regclient.manifest) :
  regclient.ManifestGet r log = (Returns (Some m, None), log') →
  ∃ tod dns0 rest resp m0,
    digestOrTag r = Some tod
    ∧ regclient.DNS (regclient.getHost (ref.Registry r)) = dns0 :: rest
    ∧ regclient.DoRequest (regclient.getHost (ref.Registry r)) "GET"
        (manifestURL r dns0 tod) regclient.acceptAll = inl resp
    ∧ retryable.StatusCode resp = 200%Z
    ∧ retryable.ReadErr resp = None
    ∧ regclient.unmarshalBody
        (regclient.setMt (retryable.Header resp "Content-Type")
           (regclient.setBody (retryable.Body resp)
              (digest_FromBytes (retryable.Body resp)) regclient.zero))
      = Some (m0, None)
    ∧ m = regclient.setManifSet true m0.
Proof.
  unfold regclient.ManifestGet.
  unfold mbind, State_bind, regclient.doRequest, regclient.warn.
  fold (digestOrTag r).
  destruct (digestOrTag r) as [tod|]; [|discriminate].
  destruct (regclient.DNS _) as [|dns0 rest]; [discriminate|].
  fold (manifestURL r dns0 tod).
  destruct (regclient.DoRequest _ _ _ _) as [resp|err] eqn:Hreq;
    [|discriminate].
  case_bool_decide as Hs; [discriminate|].
  destruct (retryable.ReadErr resp) eqn:Hread; [discriminate|].
  match goal with
  | |- context [regclient.unmarshalBody ?x] =>
      destruct (regclient.unmarshalBody x) as [[m0 [e|]]|] eqn:Hu
  end.
  - case_bool_decide; discriminate.
  - intros Hm. exists tod, dns0, rest, resp, m0.
    repeat split; try done.
    case_bool_decide; simpl in Hm; by injection Hm as <- _.
  - case_bool_decide; discriminate.
Qed.

(** The media types that the [switch] of [ManifestGet] parses. *)
Lemma unmarshalBody_supported (m m' : regclient.manifest) (e : option error) :
  regclient.unmarshalBody m = Some (m', e) →
  regclient.mt m ∈ [regclient.MediaTypeDocker2Manifest;
                    regclient.MediaTypeDocker2ManifestList;
                    regclient.MediaTypeOCI1Manifest;
                    regclient.MediaTypeOCI1ManifestList].
Proof.
  unfold regclient.unmarshalBody.
  repeat case_bool_decide; try discriminate; intros _; set_solver.
Qed.

(** X19: [ManifestGet] returns manifests of the four supported media types
    only.  A manifest it returns has the media type of the response's
    [Content-Type], one of the four; its body is set, so
    [GetOrigManifest] is not nil, and either it is a list or [GetLayers]
    answers without error. *)
Theorem ManifestGet_supported_media_type (r : ref.Ref)
    (log log' : list regclient.Event) (m : regclient.manifest) :
  regclient.ManifestGet r log = (Returns (Some m, None), log') →
  regclient.mt m ∈ [regclient.MediaTypeDocker2Manifest;
                    regclient.MediaTypeDocker2ManifestList;
                    regclient.MediaTypeOCI1Manifest;
                    regclient.MediaTypeOCI1ManifestList]
  ∧ regclient.GetOrigManifest m ≠ regclient.OrigNil
  ∧ (regclient.IsList m = true ∨ (regclient.GetLayers m).2 = None).
Proof.
  intros Hget.
  destruct (ManifestGet_inv r log log' m Hget)
    as (tod & dns0 & rest & resp & m0 & _ & _ & _ & _ & _ & Hu & ->).
  pose proof (unmarshalBody_supported _ _ _ Hu) as Hmt.
  apply unmarshalBody_keeps in Hu as (_ & _ & Hmt0 & _).
  rewrite <- Hmt0 in Hmt.
  assert (regclient.mt (regclient.setManifSet true m0) = regclient.mt m0)
    as E by done.
  split; [by rewrite E|].
  unfold regclient.GetOrigManifest, regclient.IsList, regclient.GetLayers.
  simpl. set_unfold in Hmt.
  destruct Hmt as [Hm|[Hm|[Hm|[Hm|[]]]]]; rewrite Hm; simpl; auto.
Qed.

(** X20: for a reference with a tag or a digest and a host with a DNS name,
    [ManifestGet] and [ManifestHead] do not panic, send exactly one
    request, [GET] respectively [HEAD] on the manifest URL of the digest,
    or of the tag when there is no digest, and return either a manifest or
    an error, never both and never neither. *)
Theorem ManifestGet_Head_one_request (r : ref.Ref)
    (log : list regclient.Event) (dns0 : string) (rest : list string)
    (tod : string) :
  regclient.DNS (regclient.getHost (ref.Registry r)) = dns0 :: rest →
  digestOrTag r = Some tod →
  (∃ m err events,
     regclient.ManifestGet r log = (Returns (m, err), log ++ events)
     ∧ requests events
       = [regclient.Sent "GET" (manifestURL r dns0 tod) regclient.acceptAll]
     ∧ (m = None ↔ err ≠ None))
  ∧ (∃ m err events,
     regclient.ManifestHead r log = (Returns (m, err), log ++ events)
     ∧ requests events
       = [regclient.Sent "HEAD" (manifestURL r dns0 tod) regclient.acceptAll]
     ∧ (m = None ↔ err ≠ None)).
Proof.
  intros Hdns Htod. split.
  - unfold regclient.ManifestGet.
    fold (digestOrTag r). rewrite Htod, Hdns.
    unfold mbind, State_bind, regclient.doRequest, regclient.warn.
    fold (manifestURL r dns0 tod).
    destruct (regclient.DoRequest _ _ _ _) as [resp|e].
    2: { eexists _, _, [_]. simpl. split; [done|]. split; [done|].
         split; done. }
    case_bool_decide.
    { eexists _, _, [_]. simpl. split; [done|]. split; [done|].
      split; done. }
    destruct (retryable.ReadErr resp).
    { eexists _, _, [_; _]. simpl. rewrite <- app_assoc.
      split; [done|]. split; [done|]. split; done. }
    match goal with
    | |- context [regclient.unmarshalBody ?x] =>
        destruct (regclient.unmarshalBody x) as [[m0 [e|]]|]
    end; case_bool_decide; simpl;
      repeat rewrite <- app_assoc; simpl;
      (eexists _, _, _; split; [done|]; split; [done|]; split; done).
  - unfold regclient.ManifestHead.
    fold (digestOrTag r). rewrite Htod, Hdns.
    unfold mbind, State_bind, regclient.doRequest, regclient.warn.
    fold (manifestURL r dns0 tod).
    destruct (regclient.DoRequest _ _ _ _) as [resp|e].
    2: { eexists _, _, [_]. simpl. split; [done|]. split; [done|].
         split; done. }
    case_bool_decide.
    { eexists _, _, [_]. simpl. split; [done|]. split; [done|].
      split; done. }
    destruct (digest_Parse _) as [dg [e|]];
      (eexists _, _, [_]; simpl; split; [done|]; split; [done|];
       split; done).
Qed.

(** X21: a manifest returned by [ManifestHead] is not populated.  Its media
    type and digest are those of the response headers, it has no body,
    [MarshalJSON] and [GetPlatformList] return [ErrUnavailable], and
    [GetOrigManifest] returns nil. *)
Theorem ManifestHead_unpopulated (r : ref.Ref)
    (log log' : list regclient.Event) (m : regclient.manifest) :
  regclient.ManifestHead r log = (Returns (Some m, None), log') →
  (∃ u resp,
     regclient.DoRequest (regclient.getHost (ref.Registry r)) "HEAD" u
       regclient.acceptAll = inl resp
     ∧ retryable.StatusCode resp = 200%Z
     ∧ regclient.GetMediaType m = retryable.Header resp "Content-Type"
     ∧ digest_Parse (retryable.Header resp "Docker-Content-Digest")
       = (regclient.GetDigest m, None))
  ∧ regclient.origByte m = []
  ∧ regclient.MarshalJSON m = ([], Some regclient.ErrUnavailable)
  ∧ regclient.GetPlatformList m = ([], Some regclient.ErrUnavailable)
  ∧ regclient.GetOrigManifest m = regclient.OrigNil.
Proof.
  unfold regclient.ManifestHead.
  unfold mbind, State_bind, regclient.doRequest, regclient.warn.
  fold (digestOrTag r).
  destruct (digestOrTag r) as [tod|]; [|discriminate].
  destruct (regclient.DNS _) as [|dns0 rest]; [discriminate|].
  destruct (regclient.DoRequest _ _ _ _) as [resp|err] eqn:Hreq;
    [|discriminate].
  case_bool_decide as Hs; [discriminate|].
  destruct (digest_Parse _) as [dg [e|]] eqn:Hp; [discriminate|].
  intros [= <- _]. split; [|done].
  eexists _, resp. split; [exact Hreq|]. split; [done|].
  split; [done|]. exact Hp.
Qed.

Lemma string_app_assoc (a b c : string) : (a +:+ b) +:+ c = a +:+ b +:+ c.
Proof.
  induction a as [|x a IH]; [done|].
  change (String x ((a +:+ b) +:+ c) = String x (a +:+ b +:+ c)).
  by rewrite IH.
Qed.

Lemma putURL (r : ref.Ref) (dns0 tod : string) :
  {| url.Scheme := regclient.Scheme (regclient.getHost (ref.Registry r));
     url.Host := dns0;
     url.Path := ("/v2/" +:+ ref.Repository r +:+ "/manifests/") +:+ tod |}
  = manifestURL r dns0 tod.
Proof.
  unfold manifestURL. f_equal.
  by rewrite <- !string_app_assoc.
Qed.

(** X22: [ManifestPut] sends nothing for a manifest that is not populated.
    When the host has a DNS name, it returns [ErrMissingTag] for a
    reference with neither tag nor digest and [ErrUnavailable] otherwise,
    and logs warnings only. *)
Theorem ManifestPut_unpopulated (r : ref.Ref) (m : regclient.manifest)
    (log : list regclient.Event) :
  regclient.manifSet m = false →
  regclient.DNS (regclient.getHost (ref.Registry r)) ≠ [] →
  ∃ events,
    regclient.ManifestPut r m log
    = (Returns (Some (match tagOrDigest r with
                      | Some _ => regclient.ErrUnavailable
                      | None => regclient.ErrMissingTag
                      end)),
       log ++ events)
    ∧ requests events = [].
Proof.
  intros Hm Hdns.
  unfold regclient.ManifestPut, tagOrDigest, regclient.MarshalJSON.
  destruct (regclient.DNS _) as [|dns0 rest]; [done|].
  rewrite Hm.
  unfold mbind, State_bind, regclient.doRequest, regclient.warn.
  repeat case_bool_decide; simpl; by eexists [_].
Qed.

(** X23: the request of [ManifestPut].  For a host with a DNS name, a
    reference with a tag or a digest and a manifest that [MarshalJSON]
    serializes to [mj], [ManifestPut] sends exactly one request: [PUT] on
    the manifest URL of the tag, or of the digest when there is no tag,
    with the media type as [Content-Type], [mj] as body and its length as
    content length.  It returns nil exactly when the response has a status
    from 200 to 299, and an error that wraps the transport error when the
    request fails. *)
Theorem ManifestPut_request (r : ref.Ref) (m : regclient.manifest)
    (log : list regclient.Event) (dns0 : string) (rest : list string)
    (tod : string) (mj : bytes) :
  regclient.DNS (regclient.getHost (ref.Registry r)) = dns0 :: rest →
  tagOrDigest r = Some tod →
  regclient.MarshalJSON m = (mj, None) →
  ∃ err events,
    regclient.ManifestPut r m log = (Returns err, log ++ events)
    ∧ requests events
      = [regclient.Sent "PUT" (manifestURL r dns0 tod) (putOpts m mj)]
    ∧ match regclient.DoRequest (regclient.getHost (ref.Registry r)) "PUT"
              (manifestURL r dns0 tod) (putOpts m mj) with
      | inl resp =>
          err = None
          ↔ (200 ≤ retryable.StatusCode resp ≤ 299)%Z
      | inr cause => ∃ e, err = Some e ∧ errors.Is e cause = true
      end.
Proof.
  intros Hdns Htod Hmj.
  unfold regclient.ManifestPut.
  rewrite Hdns, Hmj.
  unfold tagOrDigest in Htod.
  assert ((if bool_decide (ref.Tag r ≠ "")
           then Some (("/v2/" +:+ ref.Repository r +:+ "/manifests/")
                      +:+ ref.Tag r)
           else if bool_decide (ref.Digest r ≠ "")
           then Some (("/v2/" +:+ ref.Repository r +:+ "/manifests/")
                      +:+ ref.Digest r)
           else None)
          = Some (("/v2/" +:+ ref.Repository r +:+ "/manifests/") +:+ tod))
    as ->.
  { repeat case_bool_decide; by simplify_eq. }
  rewrite putURL.
  unfold mbind, State_bind, regclient.doRequest, regclient.warn.
  unfold regclient.GetMediaType. simpl. fold (putOpts m mj).
  destruct (regclient.DoRequest _ _ _ _) as [resp|cause].
  - destruct (bool_decide (retryable.StatusCode resp < 200)%Z) eqn:Hlo;
      [|destruct (bool_decide (retryable.StatusCode resp > 299)%Z) eqn:Hhi];
      simpl.
    + apply bool_decide_eq_true in Hlo.
      eexists _, [_; _]. rewrite <- app_assoc.
      split; [done|]. split; [done|]. split; [done|lia].
    + apply bool_decide_eq_true in Hhi.
      eexists _, [_; _]. rewrite <- app_assoc.
      split; [done|]. split; [done|]. split; [done|lia].
    + apply bool_decide_eq_false in Hlo, Hhi.
      eexists _, [_]. split; [done|]. split; [done|]. split; [lia|done].
  - eexists _, [_]. split; [done|]. split; [done|].
    eexists. split; [done|]. apply ErrorfW_wraps.
Qed.

(** X24: a manifest fetched by [ManifestGet] is pushed as it was received.
    Let [resp] be the answer to the request that [ManifestGet] sends for
    [r], the [GET] on the manifest URL of [r].  When [ManifestGet] returns
    a manifest and the body of [resp] is not empty, [ManifestPut] of this
    manifest, to a host with a DNS name under a reference with a tag or a
    digest, sends one [PUT] whose body is the body of [resp], byte for
    byte, with its length as content length and the [Content-Type] of
    [resp]. *)
Theorem ManifestGet_then_ManifestPut (r r' : ref.Ref)
    (log log' log2 : list regclient.Event) (m : regclient.manifest)
    (dns1 : string) (rest1 : list string) (tod1 : string)
    (resp : retryable.Response)
    (dns0 : string) (rest : list string) (tod : string) :
  regclient.DNS (regclient.getHost (ref.Registry r)) = dns1 :: rest1 →
  digestOrTag r = Some tod1 →
  regclient.DoRequest (regclient.getHost (ref.Registry r)) "GET"
    (manifestURL r dns1 tod1) regclient.acceptAll = inl resp →
  retryable.Body resp ≠ [] →
  regclient.ManifestGet r log = (Returns (Some m, None), log') →
  regclient.DNS (regclient.getHost (ref.Registry r')) = dns0 :: rest →
  tagOrDigest r' = Some tod →
  ∃ err events,
    regclient.ManifestPut r' m log2 = (Returns err, log2 ++ events)
    ∧ requests events
      = [regclient.Sent "PUT" (manifestURL r' dns0 tod)
           [retryable.WithHeader "Content-Type"
              [retryable.Header resp "Content-Type"];
            retryable.WithBodyBytes (retryable.Body resp);
            retryable.WithContentLen
              (Z.of_nat (length (retryable.Body resp)))]].
Proof.
  intros Hdns1 Htod1 Hresp Hbody Hget Hdns Htod.
  destruct (ManifestGet_inv r log log' m Hget)
    as (tod2 & dns2 & rest2 & resp2 & m0 & Htod2 & Hdns2 & Hreq & _ & _
        & Hu & ->).
  rewrite Htod1 in Htod2. injection Htod2 as <-.
  rewrite Hdns1 in Hdns2. injection Hdns2 as <- <-.
  rewrite Hresp in Hreq. injection Hreq as <-.
  apply unmarshalBody_keeps in Hu as (Hb & Hd & Hmt & Hs).
  simpl in Hd, Hb, Hmt, Hs.
  assert (regclient.MarshalJSON (regclient.setManifSet true m0)
          = (retryable.Body resp, None)) as Hmj.
  { unfold regclient.MarshalJSON. simpl. rewrite Hb.
    by destruct (retryable.Body resp). }
  unfold regclient.ManifestPut.
  rewrite Hdns, Hmj.
  unfold tagOrDigest in Htod.
  assert ((if bool_decide (ref.Tag r' ≠ "")
           then Some (("/v2/" +:+ ref.Repository r' +:+ "/manifests/")
                      +:+ ref.Tag r')
           else if bool_decide (ref.Digest r' ≠ "")
           then Some (("/v2/" +:+ ref.Repository r' +:+ "/manifests/")
                      +:+ ref.Digest r')
           else None)
          = Some (("/v2/" +:+ ref.Repository r' +:+ "/manifests/") +:+ tod))
    as ->.
  { repeat case_bool_decide; by simplify_eq. }
  rewrite putURL.
  unfold mbind, State_bind, regclient.doRequest, regclient.warn.
  unfold regclient.GetMediaType. simpl. rewrite Hmt.
  match goal with
  | |- context [regclient.DoRequest ?h "PUT" ?u ?o] =>
      destruct (regclient.DoRequest h "PUT" u o) as [answer|cause]
  end.
  - match goal with
    | |- context [if ?b then _ else _] => destruct b
    end; simpl.
    + eexists _, [_; _]. rewrite <- app_assoc. split; done.
    + eexists _, [_]. split; done.
  - eexists _, [_]. split; done.
Qed.

(** X25: the result of [ManifestDelete].  For a reference with a digest and
    a host with a DNS name, [ManifestDelete] returns nil exactly when the
    registry answers with status 202; every other status, 200 included, is
    an error, and a transport error is returned as it is. *)
Theorem ManifestDelete_status (r : ref.Ref) (log : list regclient.Event)
    (dns0 : string) (rest : list string) :
  ref.Digest r ≠ "" →
  regclient.DNS (regclient.getHost (ref.Registry r)) = dns0 :: rest →
  ∃ err log',
    regclient.ManifestDelete r log = (Returns err, log')
    ∧ match regclient.DoRequest (regclient.getHost (ref.Registry r))
              "DELETE" (manifestURL r dns0 (ref.Digest r))
              regclient.acceptAll with
      | inl resp => err = None ↔ retryable.StatusCode resp = 202%Z
      | inr cause => err = Some cause
      end.
Proof.
  intros Hd Hdns.
  unfold regclient.ManifestDelete.
  rewrite bool_decide_eq_false_2 by done. rewrite Hdns.
  unfold mbind, State_bind, regclient.doRequest, regclient.warn.
  fold (manifestURL r dns0 (ref.Digest r)).
  destruct (regclient.DoRequest _ _ _ _) as [resp|cause].
  - case_bool_decide as Hs; simpl.
    + eexists _, _. split; [done|]. split; [done|]. intros ?. by destruct Hs.
    + by eexists _, _.
  - by eexists _, _.
Qed.

End requests_more.

(** ** Examples for the requests *)

Lemma bare_reference_refused_witness :
  regclient.ManifestGet (sample.remote "" "") []
  = (Returns (None, Some regclient.ErrMissingTagOrDigest),
     [regclient.Warned "Manifest requires a tag or digest"
        [regclient.FStr "ref" "registry.example/proj/repo"]])
  ∧ regclient.ManifestPut (sample.remote "" "") (sample.ociIndex []) []
    = (Returns (Some regclient.ErrMissingTag),
       [regclient.Warned "Manifest put requires a tag"
          [regclient.FStr "ref" "registry.example/proj/repo"]]).
Proof.
  destruct (bare_reference_refused (sample.remote "" "") (sample.ociIndex [])
              [] eq_refl eq_refl) as (Hget & _ & _ & Hput).
  split; [exact Hget|]. apply Hput. discriminate.
Defined.

Lemma ManifestGet_supported_media_type_witness :
  ∃ m log',
    regclient.ManifestGet (sample.remote "v1" "") []
    = (Returns (Some m, None), log')
    ∧ regclient.GetMediaType m = regclient.MediaTypeDocker2Manifest
    ∧ regclient.GetOrigManifest m ≠ regclient.OrigNil.
Proof.
  destruct (regclient.ManifestGet (sample.remote "v1" "") [])
    as [[[[m|] [e|]]|why] log'] eqn:Hget;
    try (vm_compute in Hget; discriminate Hget).
  exists m, log'. split; [reflexivity|].
  split.
  - vm_compute in Hget. by injection Hget as <- _.
  - exact (proj1 (proj2 (ManifestGet_supported_media_type _ _ _ _ Hget))).
Defined.

Lemma ManifestGet_Head_one_request_witness :
  (∃ m err events,
     regclient.ManifestGet (sample.remote "v1" "sha256:aa") []
     = (Returns (m, err), [] ++ events)
     ∧ requests events
       = [regclient.Sent "GET"
            {| url.Scheme := "https"; url.Host := "registry.example";
               url.Path := "/v2/proj/repo/manifests/sha256:aa" |}
            regclient.acceptAll]
     ∧ (m = None ↔ err ≠ None))
  ∧ (∃ m err events,
     regclient.ManifestHead (sample.remote "v1" "sha256:aa") []
     = (Returns (m, err), [] ++ events)
     ∧ requests events
       = [regclient.Sent "HEAD"
            {| url.Scheme := "https"; url.Host := "registry.example";
               url.Path := "/v2/proj/repo/manifests/sha256:aa" |}
            regclient.acceptAll]
     ∧ (m = None ↔ err ≠ None)).
Proof.
  exact (ManifestGet_Head_one_request (sample.remote "v1" "sha256:aa") []
           "registry.example" [] "sha256:aa" eq_refl eq_refl).
Defined.

Lemma ManifestHead_unpopulated_witness :
  ∃ m log',
    @regclient.ManifestHead sample.mirror _ (sample.remote "v1" "") []
    = (Returns (Some m, None), log')
    ∧ regclient.GetDigest m = "text:{stale}"
    ∧ regclient.MarshalJSON m = ([], Some regclient.ErrUnavailable).
Proof.
  destruct (@regclient.ManifestHead sample.mirror _ (sample.remote "v1" "") [])
    as [[[[m|] [e|]]|why] log'] eqn:Hhead;
    try (vm_compute in Hhead; discriminate Hhead).
  exists m, log'. split; [reflexivity|].
  split.
  - vm_compute in Hhead. by injection Hhead as <- _.
  - exact (proj1 (proj2 (proj2
             (@ManifestHead_unpopulated sample.mirror _ _ _ _ _ _ _ _ _
                Hhead)))).
Defined.

Lemma ManifestPut_unpopulated_witness :
  ∃ events,
    regclient.ManifestPut (sample.remote "v1" "") regclient.zero []
    = (Returns (Some regclient.ErrUnavailable), [] ++ events)
    ∧ requests events = [].
Proof.
  apply (ManifestPut_unpopulated (sample.remote "v1" "") regclient.zero []).
  - reflexivity.
  - discriminate.
Defined.

Lemma ManifestPut_request_witness :
  ∃ events,
    @regclient.ManifestPut sample.mirror _ _ _ _
      (sample.remote "v1" "sha256:aa") (sample.ociIndex []) []
    = (Returns None, [] ++ events)
    ∧ requests events
      = [regclient.Sent "PUT"
           {| url.Scheme := "https"; url.Host := "registry.example";
              url.Path := "/v2/proj/repo/manifests/v1" |}
           [retryable.WithHeader "Content-Type"
              [regclient.MediaTypeOCI1ManifestList];
            retryable.WithBodyBytes (list_byte_of_string "{ociML}");
            retryable.WithContentLen 7]].
Proof.
  assert (regclient.MarshalJSON (sample.ociIndex [])
          = (list_byte_of_string "{ociML}", None)) as Hmj.
  { reflexivity. }
  destruct (@ManifestPut_request sample.mirror _ _ _ _
              (sample.remote "v1" "sha256:aa") (sample.ociIndex []) []
              "registry.example" [] "v1" (list_byte_of_string "{ociML}")
              eq_refl eq_refl Hmj)
    as (err & events & Hput & Hsent & Hres).
  exists events. split; [|exact Hsent].
  rewrite Hput. f_equal. f_equal.
  apply (proj2 Hres). vm_compute. split; discriminate.
Defined.

Lemma ManifestGet_then_ManifestPut_witness :
  ∃ m log' err events,
    regclient.ManifestGet (sample.remote "v1" "") [] = (Returns (Some m, None), log')
    ∧ regclient.ManifestPut (sample.remote "v2" "") m []
      = (Returns err, [] ++ events)
    ∧ requests events
      = [regclient.Sent "PUT"
           {| url.Scheme := "https"; url.Host := "registry.example";
              url.Path := "/v2/proj/repo/manifests/v2" |}
           [retryable.WithHeader "Content-Type"
              [regclient.MediaTypeDocker2Manifest];
            retryable.WithBodyBytes (list_byte_of_string "{}");
            retryable.WithContentLen 2]].
Proof.
  destruct (regclient.ManifestGet (sample.remote "v1" "") [])
    as [[[[m|] [e|]]|why] log'] eqn:Hget;
    try (vm_compute in Hget; discriminate Hget).
  assert (regclient.DoRequest
            (regclient.getHost (ref.Registry (sample.remote "v1" ""))) "GET"
            (manifestURL (sample.remote "v1" "") "registry.example" "v1")
            regclient.acceptAll
          = inl (sample.answer 200 "{}")) as Hresp by reflexivity.
  assert (retryable.Body (sample.answer 200 "{}") ≠ []) as Hbody
    by discriminate.
  assert (∀ tag, regclient.DNS (regclient.getHost
                                  (ref.Registry (sample.remote tag "")))
                 = ["registry.example"]) as Hdns by reflexivity.
  destruct (ManifestGet_then_ManifestPut (sample.remote "v1" "")
              (sample.remote "v2" "") [] log' [] m
              "registry.example" [] "v1" (sample.answer 200 "{}")
              "registry.example" [] "v2"
              (Hdns "v1") eq_refl Hresp Hbody Hget (Hdns "v2") eq_refl)
    as (err & events & Hput & Hsent).
  exists m, log', err, events.
  split; [reflexivity|]. split; [exact Hput | exact Hsent].
Defined.

Lemma ManifestDelete_status_witness :
  ∃ log',
    regclient.ManifestDelete (sample.remote "" "sha256:aa") []
    = (Returns None, log').
Proof.
  destruct (ManifestDelete_status (sample.remote "" "sha256:aa") []
              "registry.example" [] ltac:(discriminate) eq_refl)
    as (err & log' & Hdel & Hres).
  exists log'. rewrite Hdel. f_equal. f_equal.
  apply (proj2 Hres). reflexivity.
Defined.

(** ** Blobs: OCI image configurations *)

(** X26: [RawBody] marshals a configuration once.  The first [RawBody] of
    a configuration made by [NewOCIConfig] returns the encoding of its
    image and leaves the image as it is; when that encoding is not empty,
    every later [RawBody] returns the same bytes without encoding again,
    whatever the encoder would answer then. *)
Theorem RawBody_marshals_once {ociv1_Image : Type}
    (first later : JSON ociv1_Image) (img : ociv1_Image) (mj : bytes) :
  @json_Marshal _ first img = (mj, None) →
  ∃ b,
    @blob.RawBody _ first (blob.NewOCIConfig img) = (b, (mj, None))
    ∧ blob.GetConfig b = img
    ∧ (mj ≠ [] → @blob.RawBody _ later b = (b, (mj, None))).
Proof.
  intros Hmj. unfold blob.RawBody, blob.NewOCIConfig. simpl.
  rewrite Hmj. eexists. split; [done|]. split; [done|].
  intros Hne. simpl.
  rewrite bool_decide_eq_false_2; [done|].
  by destruct mj.
Qed.

Lemma RawBody_marshals_once_witness :
  ∃ b,
    @blob.RawBody string (sample.opaqueJSON "{config}")
      (blob.NewOCIConfig "image")
    = (b, (list_byte_of_string "{config}", None))
    ∧ blob.GetConfig b = "image"
    ∧ @blob.RawBody string (sample.opaqueJSON "{other}") b
      = (b, (list_byte_of_string "{config}", None)).
Proof.
  destruct (RawBody_marshals_once (sample.opaqueJSON "{config}")
              (sample.opaqueJSON "{other}") "image"
              (list_byte_of_string "{config}") eq_refl)
    as (b & Hfirst & Himg & Hlater).
  exists b. split; [exact Hfirst|]. split; [exact Himg|].
  apply Hlater. discriminate.
Defined.
